(** * SolarTrackerWebApp: the History page (src/pages/History.tsx)

    A shallow embedding of the historical-data pipeline of the dashboard:
    date-range validation, the per-metric transformation of the fetched
    readings, the CSV export and the data-point click handler, together
    with the parts of the JavaScript platform they rest on (binary64
    numbers, [toFixed], [parseFloat], [Date]).

    Layout: platform model, then the page's state and handlers, then the
    theorems. *)

From Stdlib Require Import ZArith NArith String Ascii List Lia.
From Stdlib Require Import SpecFloat.
From stdpp Require Import base list strings.

Open Scope Z_scope.

(* ================================================================== *)
(** * 1. JavaScript numbers *)
(* ================================================================== *)

(** A JS [number] is an IEEE-754 binary64 value.  [spec_float] is the
    Standard Library's executable specification of such values; NaN has no
    payload, as in JS. *)
Definition number := spec_float.
Definition prec : Z := 53.
Definition emax : Z := 1024.

Definition NaN : number := S754_nan.

Definition isNaN (x : number) : bool :=
  match x with S754_nan => true | _ => false end.

Definition isFinite (x : number) : bool :=
  match x with S754_zero _ | S754_finite _ _ _ => true | _ => false end.

(** [x < 0] on numbers: true for negative non-zero values only. *)
Definition is_negative (x : number) : bool :=
  match x with
  | S754_finite s _ _ | S754_infinity s => s
  | _ => false
  end.

(** The Number value for the decimal [± d × 10^e10]: the nearest binary64,
    ties to even.  Numeric literals of the source ([0.0079]), the numbers of
    the JSON response and the results of [parseFloat] are all obtained this
    way. *)
Definition number_of_decimal (neg : bool) (d : Z) (e10 : Z) : number :=
  if d <=? 0 then S754_zero neg
  else if 0 <=? e10 then
    binary_normalize prec emax (if neg then - (d * 10 ^ e10) else d * 10 ^ e10) 0 neg
  else
    let '(q, e, l) := SFdiv_core_binary prec emax d 0 (10 ^ (- e10)) 0 in
    binary_round_aux prec emax neg q e l.

(** The Number value for an integer (exact below 2^53). *)
Definition number_of_Z (t : Z) : number :=
  binary_normalize prec emax t 0 false.

(** The [*] operator. *)
Definition number_mul (x y : number) : number := SFmul prec emax x y.

(** The exact magnitude of a finite number as a fraction [num / den]. *)
Definition exact_abs (x : number) : Z * Z :=
  match x with
  | S754_finite _ m e =>
      if 0 <=? e then (Zpos m * 2 ^ e, 1) else (Zpos m, 2 ^ (- e))
  | _ => (0, 1)
  end.

(** ToIntegerOrInfinity on a finite number: truncation towards zero. *)
Definition truncate (x : number) : Z :=
  let '(num, den) := exact_abs x in
  if is_negative x then - (num / den) else num / den.

(** ** Decimal digit strings *)

Definition digit_char (d : Z) : ascii := ascii_of_N (Z.to_N (48 + d)).

Definition digit_value (c : ascii) : option Z :=
  let n := Z.of_N (N_of_ascii c) in
  if (48 <=? n) && (n <=? 57) then Some (n - 48) else None.

(** The last [k] decimal digits of [n], most significant first, zero
    padded. *)
Fixpoint pad_digits (k : nat) (n : Z) : string :=
  match k with
  | O => EmptyString
  | S k' => pad_digits k' (n / 10) +:+ String (digit_char (n mod 10)) EmptyString
  end.

Fixpoint count_digits (fuel : nat) (n : Z) : nat :=
  match fuel with
  | O => 1%nat
  | S fuel' => if n <? 10 then 1%nat else S (count_digits fuel' (n / 10))
  end.

(** The number of decimal digits of [n >= 0] (1 for zero). *)
Definition num_digits (n : Z) : nat := count_digits (Z.to_nat (Z.log2 n)) n.

(** The decimal representation of [n >= 0] without leading zeros. *)
Definition digits10 (n : Z) : string := pad_digits (num_digits n) n.

(** Reads the longest run of decimal digits at the head of [s]: the value
    accumulated on top of [acc], the number of digits read on top of [cnt],
    and the rest of the string. *)
Fixpoint read_digits (s : string) (acc : Z) (cnt : nat) : Z * nat * string :=
  match s with
  | EmptyString => (acc, cnt, EmptyString)
  | String c s' =>
      match digit_value c with
      | Some d => read_digits s' (10 * acc + d) (S cnt)
      | None => (acc, cnt, s)
      end
  end.

(** ** Number::toString for the values [toFixed] delegates to it *)

(** Searches the shortest decimal [s × 10^p] (with [k] digits, [k] growing)
    that reads back as the number whose exact value is the integer [X];
    of two candidates with the same [k], the one nearer to [X].  [n] is
    the number of digits of [X]; it exceeds 21 where this is used, so
    that [p] is positive. *)
Fixpoint shortest_from (fuel : nat) (k : Z) (n : Z) (X : Z) (x : number)
  : option (Z * Z) :=
  match fuel with
  | O => None
  | S fuel' =>
      let p := n - k in
      let lo := X / 10 ^ p in
      let hi := lo + 1 in
      let ok_lo := SFeqb (number_of_decimal false lo p) x in
      let ok_hi := SFeqb (number_of_decimal false hi p) x in
      let lo_nearer := X - lo * 10 ^ p <=? hi * 10 ^ p - X in
      if (0 <=? p) && ok_lo && (lo_nearer || negb ok_hi) then Some (lo, p)
      else if (0 <=? p) && ok_hi then
        Some (if hi =? 10 ^ k then (1, p + k) else (hi, p))
      else shortest_from fuel' (k + 1) n X x
  end.

Definition shortest_decimal (X : Z) (x : number) : Z * Z :=
  match shortest_from 17 1 (Z.of_nat (num_digits X)) X x with
  | Some r => r
  | None => (X, 0)
  end.

(** [d.ddd...e+N] *)
Definition exponential_form (s p : Z) : string :=
  let ds := digits10 s in
  let k := String.length ds in
  let e := digits10 (p + Z.of_nat k - 1) in
  match ds with
  | String c EmptyString => String c ("e+" +:+ e)
  | String c rest => String c ("." +:+ rest +:+ "e+" +:+ e)
  | EmptyString => EmptyString
  end.

(** Number::toString(x) for x not finite or |x| >= 10^21. *)
Definition Number_toString_large (x : number) : string :=
  match x with
  | S754_nan => "NaN"
  | S754_infinity s => if s then "-Infinity" else "Infinity"
  | S754_zero _ => "0"
  | S754_finite sg _ _ =>
      let X := fst (exact_abs x) in
      let '(s, p) := shortest_decimal X (SFabs x) in
      (if sg then "-" else EmptyString) +:+ exponential_form s p
  end.

(** ** Number.prototype.toFixed *)

(** [floor (a / b + 1/2)]: the integer nearest to [a / b], the larger one
    when two are equally near. *)
Definition round_half_up_div (a b : Z) : Z := (2 * a + b) / (2 * b).

(** The digits of [n] with a point before the last [f] of them, padded with
    zeros so that at least one digit precedes the point. *)
Definition fixed_digits (n : Z) (f : nat) : string :=
  match f with
  | O => digits10 n
  | _ => digits10 (n / 10 ^ Z.of_nat f) +:+ "." +:+ pad_digits f n
  end.

Definition toFixed (x : number) (f : nat) : string :=
  if negb (isFinite x) then Number_toString_large x
  else
    let '(num, den) := exact_abs x in
    if 10 ^ 21 * den <=? num then Number_toString_large x
    else
      let n := round_half_up_div (num * 10 ^ Z.of_nat f) den in
      (if is_negative x then "-" else EmptyString) +:+ fixed_digits n f.

(** ** parseFloat *)

Definition is_white_space (c : ascii) : bool :=
  let n := N_of_ascii c in
  ((9 <=? n) && (n <=? 13) || (n =? 32))%N.

Fixpoint trim_start (s : string) : string :=
  match s with
  | String c s' => if is_white_space c then trim_start s' else s
  | EmptyString => EmptyString
  end.

Definition read_sign (s : string) : bool * string :=
  match s with
  | String "-" r => (true, r)
  | String "+" r => (false, r)
  | _ => (false, s)
  end.

Definition read_exponent (s : string) : Z :=
  match s with
  | String c r =>
      if (Ascii.eqb c "e" || Ascii.eqb c "E")%bool then
        let '(eneg, r') := read_sign r in
        let '(ev, ec, _) := read_digits r' 0 0 in
        match ec with
        | O => 0
        | _ => if eneg then - ev else ev
        end
      else 0
  | EmptyString => 0
  end.

(** The longest prefix of the trimmed input that is a decimal literal is
    converted; without such a prefix the result is NaN.  White space is
    the ASCII part of the language's white space. *)
Definition parseFloat (input : string) : number :=
  let '(neg, s) := read_sign (trim_start input) in
  if String.prefix "Infinity" s then S754_infinity neg
  else
    let '(i, ic, s1) := read_digits s 0 0 in
    let '(m, fc, s2) :=
      match s1 with
      | String "." r => read_digits r i 0
      | _ => (i, O, s1)
      end in
    match (ic + fc)%nat with
    | O => NaN
    | _ => number_of_decimal neg m (read_exponent s2 - Z.of_nat fc)
    end.

(* ================================================================== *)
(** * 2. JavaScript dates *)
(* ================================================================== *)

(** What the host leaves open: the local time zone adjustment (in
    milliseconds, at a UTC or at a local time) and the treatment of date
    strings outside the Date Time String Format. *)
Record Engine := {
  LocalTZA : Z -> bool -> Z;
  fallbackParse : string -> option Z
}.

(** A Date object holds a time value: an integral number of milliseconds
    since the epoch, or NaN ([None], an invalid date). *)
Definition Date := option Z.

Definition msPerDay : Z := 86400000.
Definition msPerHour : Z := 3600000.
Definition msPerMinute : Z := 60000.
Definition msPerSecond : Z := 1000.

Definition Day (t : Z) : Z := t / msPerDay.
Definition TimeWithinDay (t : Z) : Z := t mod msPerDay.

Definition DayFromYear (y : Z) : Z :=
  365 * (y - 1970) + (y - 1969) / 4 - (y - 1901) / 100 + (y - 1601) / 400.

Definition InLeapYear_year (y : Z) : bool :=
  if negb (y mod 4 =? 0) then false
  else if negb (y mod 100 =? 0) then true
  else y mod 400 =? 0.

(** The largest year whose first day is not after [t]. *)
Definition YearFromTime (t : Z) : Z :=
  let d := Day t in
  let y := 1970 + d * 400 / 146097 in
  if DayFromYear (y + 1) <=? d then y + 1
  else if DayFromYear y <=? d then y
  else y - 1.

Definition DayWithinYear (t : Z) : Z := Day t - DayFromYear (YearFromTime t).

(** The day of the year on which month [m] (0 to 11) starts. *)
Definition month_start (leap : bool) (m : Z) : Z :=
  let l := if leap then 1 else 0 in
  match m with
  | 0 => 0 | 1 => 31 | 2 => 59 + l | 3 => 90 + l | 4 => 120 + l
  | 5 => 151 + l | 6 => 181 + l | 7 => 212 + l | 8 => 243 + l
  | 9 => 273 + l | 10 => 304 + l | 11 => 334 + l
  | _ => 365 + l
  end.

Fixpoint month_of_day (fuel : nat) (m : Z) (leap : bool) (d : Z) : Z :=
  match fuel with
  | O => m
  | S fuel' =>
      if d <? month_start leap (m + 1) then m
      else month_of_day fuel' (m + 1) leap d
  end.

Definition MonthFromTime (t : Z) : Z :=
  month_of_day 11 0 (InLeapYear_year (YearFromTime t)) (DayWithinYear t).

Definition DateFromTime (t : Z) : Z :=
  DayWithinYear t
  - month_start (InLeapYear_year (YearFromTime t)) (MonthFromTime t) + 1.

Definition WeekDay (t : Z) : Z := (Day t + 4) mod 7.
Definition HourFromTime (t : Z) : Z := (t / msPerHour) mod 24.
Definition MinFromTime (t : Z) : Z := (t / msPerMinute) mod 60.
Definition SecFromTime (t : Z) : Z := (t / msPerSecond) mod 60.
Definition msFromTime (t : Z) : Z := t mod msPerSecond.

Definition MakeTime (h m s ms : Z) : Z :=
  h * msPerHour + m * msPerMinute + s * msPerSecond + ms.

(** [month] counts from 0 and may lie outside 0..11; [date] may lie outside
    the month. *)
Definition MakeDay (year month date : Z) : Z :=
  let ym := year + month / 12 in
  let mn := month mod 12 in
  DayFromYear ym + month_start (InLeapYear_year ym) mn + date - 1.

Definition MakeDate (day time : Z) : Z := day * msPerDay + time.

Definition maxTime : Z := 8640000000000000.

Definition TimeClip (t : Z) : Date :=
  if Z.abs t <=? maxTime then Some t else None.

Definition LocalTime (eng : Engine) (t : Z) : Z := t + LocalTZA eng t true.
Definition UTC (eng : Engine) (t : Z) : Z := t - LocalTZA eng t false.

(** ** The Date Time String Format *)

(** Exactly [k] decimal digits at the head of [s]. *)
Fixpoint fixed_width (k : nat) (s : string) (acc : Z) : option (Z * string) :=
  match k with
  | O => Some (acc, s)
  | S k' =>
      match s with
      | String c s' =>
          match digit_value c with
          | Some d => fixed_width k' s' (10 * acc + d)
          | None => None
          end
      | EmptyString => None
      end
  end.

(** [YYYY], or a sign and [YYYYYY] (other than [-000000]). *)
Definition iso_year (s : string) : option (Z * string) :=
  match s with
  | String "+" r => fixed_width 6 r 0
  | String "-" r =>
      match fixed_width 6 r 0 with
      | Some (y, r') => if y =? 0 then None else Some (- y, r')
      | None => None
      end
  | _ => fixed_width 4 s 0
  end.

(** [-NN] with [lo <= NN <= hi] when present; the default otherwise. *)
Definition iso_dash_field (lo hi dflt : Z) (s : string)
  : option (Z * bool * string) :=
  match s with
  | String "-" r =>
      match fixed_width 2 r 0 with
      | Some (v, r') =>
          if (lo <=? v) && (v <=? hi) then Some (v, true, r') else None
      | None => None
      end
  | _ => Some (dflt, false, s)
  end.

(** [:NN] with [NN <= hi]. *)
Definition iso_colon_field (hi : Z) (s : string) : option (Z * string) :=
  match s with
  | String ":" r =>
      match fixed_width 2 r 0 with
      | Some (v, r') => if v <=? hi then Some (v, r') else None
      | None => None
      end
  | _ => None
  end.

(** [HH:mm], [HH:mm:ss] or [HH:mm:ss.sss]; hour 24 only as 24:00:00.000. *)
Definition iso_time (s : string) : option (Z * string) :=
  match fixed_width 2 s 0 with
  | Some (h, r1) =>
      match iso_colon_field 59 r1 with
      | Some (m, r2) =>
          let sec :=
            match r2 with
            | String ":" _ =>
                match iso_colon_field 59 r2 with
                | Some (sv, r3) =>
                    match r3 with
                    | String "." r4 =>
                        match fixed_width 3 r4 0 with
                        | Some (ms, r5) => Some (sv, ms, r5)
                        | None => None
                        end
                    | _ => Some (sv, 0, r3)
                    end
                | None => None
                end
            | _ => Some (0, 0, r2)
            end in
          match sec with
          | Some (sv, ms, r) =>
              if (h <=? 23) || ((h =? 24) && (m =? 0) && (sv =? 0) && (ms =? 0))
              then Some (MakeTime h m sv ms, r)
              else None
          | None => None
          end
      | None => None
      end
  | None => None
  end.

(** The UTC offset designator: [Z], [+HH:mm] or [-HH:mm]; [None] when the
    string ends without one. *)
Definition iso_offset (s : string) : option (option Z) :=
  match s with
  | EmptyString => Some None
  | String "Z" EmptyString => Some (Some 0)
  | String c r =>
      if (Ascii.eqb c "+" || Ascii.eqb c "-")%bool then
        match fixed_width 2 r 0 with
        | Some (h, r1) =>
            match iso_colon_field 59 r1 with
            | Some (m, EmptyString) =>
                if h <=? 23 then
                  let off := h * msPerHour + m * msPerMinute in
                  Some (Some (if Ascii.eqb c "-" then - off else off))
                else None
            | _ => None
            end
        | None => None
        end
      else None
  end.

(** The time value of a string in the Date Time String Format, before
    clipping; [None] when the string is not in the format.  Date-only
    forms are UTC; date-time forms without offset are local time. *)
Definition parseISO (eng : Engine) (s : string) : option Z :=
  match iso_year s with
  | Some (y, r1) =>
      match iso_dash_field 1 12 1 r1 with
      | Some (mo, has_month, r2) =>
          match (if has_month then iso_dash_field 1 31 1 r2
                 else Some (1, false, r2)) with
          | Some (d, _, r3) =>
              let day := MakeDay y (mo - 1) d in
              match r3 with
              | EmptyString => Some (MakeDate day 0)
              | String "T" r4 =>
                  match iso_time r4 with
                  | Some (time, r5) =>
                      let t := MakeDate day time in
                      match iso_offset r5 with
                      | Some (Some off) => Some (t - off)
                      | Some None => Some (UTC eng t)
                      | None => None
                      end
                  | None => None
                  end
              | _ => None
              end
          | None => None
          end
      | None => None
      end
  | None => None
  end.

(** Date.parse *)
Definition Date_parse (eng : Engine) (s : string) : Date :=
  match parseISO eng s with
  | Some t => TimeClip t
  | None =>
      match fallbackParse eng s with
      | Some t => TimeClip t
      | None => None
      end
  end.

(** [new Date(string)] *)
Definition Date_of_string (eng : Engine) (s : string) : Date := Date_parse eng s.

(** [new Date(number)] *)
Definition Date_of_number (x : number) : Date :=
  if isFinite x then TimeClip (truncate x) else None.

(** [getTime()] *)
Definition getTime (d : Date) : number :=
  match d with
  | Some t => number_of_Z t
  | None => NaN
  end.

(** Relational operators on Date objects compare their time values; every
    comparison with an invalid date is false. *)
Definition Date_lt (a b : Date) : bool :=
  match a, b with
  | Some x, Some y => x <? y
  | _, _ => false
  end.

Definition Date_gt (a b : Date) : bool := Date_lt b a.

(** ** Date.prototype.toISOString and toDateString *)

Definition iso_year_string (y : Z) : string :=
  if (0 <=? y) && (y <=? 9999) then pad_digits 4 y
  else (if y <? 0 then "-" else "+") +:+ pad_digits 6 (Z.abs y).

(** [toISOString()]; [None] is the RangeError thrown on an invalid date. *)
Definition toISOString (d : Date) : option string :=
  match d with
  | None => None
  | Some t =>
      Some (iso_year_string (YearFromTime t) +:+ "-"
            +:+ pad_digits 2 (MonthFromTime t + 1) +:+ "-"
            +:+ pad_digits 2 (DateFromTime t) +:+ "T"
            +:+ pad_digits 2 (HourFromTime t) +:+ ":"
            +:+ pad_digits 2 (MinFromTime t) +:+ ":"
            +:+ pad_digits 2 (SecFromTime t) +:+ "."
            +:+ pad_digits 3 (msFromTime t) +:+ "Z")
  end.

Definition week_day_name (d : Z) : string :=
  match d with
  | 0 => "Sun" | 1 => "Mon" | 2 => "Tue" | 3 => "Wed"
  | 4 => "Thu" | 5 => "Fri" | _ => "Sat"
  end.

Definition month_name (m : Z) : string :=
  match m with
  | 0 => "Jan" | 1 => "Feb" | 2 => "Mar" | 3 => "Apr" | 4 => "May"
  | 5 => "Jun" | 6 => "Jul" | 7 => "Aug" | 8 => "Sep" | 9 => "Oct"
  | 10 => "Nov" | _ => "Dec"
  end.

(** [toDateString()]: the date portion, in the local time zone. *)
Definition toDateString (eng : Engine) (d : Date) : string :=
  match d with
  | None => "Invalid Date"
  | Some tv =>
      let t := LocalTime eng tv in
      let y := YearFromTime t in
      week_day_name (WeekDay t) +:+ " " +:+ month_name (MonthFromTime t)
      +:+ " " +:+ pad_digits 2 (DateFromTime t) +:+ " "
      +:+ (if y <? 0 then "-" else EmptyString)
      +:+ pad_digits (Nat.max 4 (num_digits (Z.abs y))) (Z.abs y)
  end.

(** ** String helpers used by the page *)

(** [s.slice(0, -1)]: all but the last character. *)
Fixpoint slice_0_m1 (s : string) : string :=
  match s with
  | EmptyString => EmptyString
  | String _ EmptyString => EmptyString
  | String c s' => String c (slice_0_m1 s')
  end.

(** [s.split("T")[0]]: the part of [s] before the first "T". *)
Fixpoint split_T_0 (s : string) : string :=
  match s with
  | EmptyString => EmptyString
  | String c s' => if Ascii.eqb c "T" then EmptyString else String c (split_T_0 s')
  end.

(** [Array.prototype.join]: absent ([undefined]) elements give the empty
    string. *)
Fixpoint join (sep : string) (l : list (option string)) : string :=
  match l with
  | [] => EmptyString
  | [x] => default EmptyString x
  | x :: rest => default EmptyString x +:+ sep +:+ join sep rest
  end.

(* ================================================================== *)
(** * 3. The History page *)
(* ================================================================== *)

(** [const EARLIEST_DATE = new Date("2024-11-15")] *)
Definition EARLIEST_DATE (eng : Engine) : Date := Date_of_string eng "2024-11-15".

(** [const CST_OFFSET = -6 * 60] (minutes) *)
Definition CST_OFFSET : Z := -6 * 60.

Record DataPoint := {
  time : number;
  value : number;
  image_url : option string
}.

Record HistoricalData := {
  temperature : list DataPoint;
  humidity : list DataPoint;
  pressure : list DataPoint;
  windMaxSpeed : list DataPoint;
  windSpeed : list DataPoint;
  windDirection : list DataPoint;
  ambientTemp : list DataPoint;
  ambientHumidity : list DataPoint;
  rain : list DataPoint;
  uv : list DataPoint;
  uvi : list DataPoint;
  lightLux : list DataPoint
}.

Record LiveData := {
  timestamp : string;
  temperature_c : number;
  ld_humidity : number;
  ld_pressure : number;
  ambientweatherwindmaxspeed : number;
  wind_speed : number;
  wind_direction : number;
  ambientweathertemp : number;
  ambientweatherhumidity : number;
  ambientweatherrain : number;
  ambientweatheruv : number;
  ambientweatheruvi : number;
  ambientweatherlightlux : number;
  ld_image_url : option string
}.

(** The component's state (the [useState] cells the handlers touch). *)
Record State := {
  startDate : string;
  endDate : string;
  error : string;
  isSameDay : bool;
  selectedImage : option string;
  imageUrls : list string;
  historicalData : option HistoricalData
}.

Definition setError (v : string) (st : State) : State :=
  {| startDate := startDate st; endDate := endDate st; error := v;
     isSameDay := isSameDay st; selectedImage := selectedImage st;
     imageUrls := imageUrls st; historicalData := historicalData st |}.

Definition setIsSameDay (v : bool) (st : State) : State :=
  {| startDate := startDate st; endDate := endDate st; error := error st;
     isSameDay := v; selectedImage := selectedImage st;
     imageUrls := imageUrls st; historicalData := historicalData st |}.

Definition setSelectedImage (v : option string) (st : State) : State :=
  {| startDate := startDate st; endDate := endDate st; error := error st;
     isSameDay := isSameDay st; selectedImage := v;
     imageUrls := imageUrls st; historicalData := historicalData st |}.

Definition setImageUrls (v : list string) (st : State) : State :=
  {| startDate := startDate st; endDate := endDate st; error := error st;
     isSameDay := isSameDay st; selectedImage := selectedImage st;
     imageUrls := v; historicalData := historicalData st |}.

Definition setHistoricalData (v : option HistoricalData) (st : State) : State :=
  {| startDate := startDate st; endDate := endDate st; error := error st;
     isSameDay := isSameDay st; selectedImage := selectedImage st;
     imageUrls := imageUrls st; historicalData := v |}.

(** Truthiness of an optional string: present and not empty. *)
Definition truthy (o : option string) : bool :=
  match o with
  | Some s => negb (String.eqb s EmptyString)
  | None => false
  end.

(** [o || s] for the empty string [s] *)
Definition or_empty (o : option string) : string :=
  if truthy o then default EmptyString o else EmptyString.

(** [o || null] *)
Definition or_null (o : option string) : option string :=
  if truthy o then o else None.

(** ** handleDataPointClick *)

(** The two callbacks installed on the preloading [Image]. *)
Definition img_onload (dataPoint : DataPoint) (st : State) : State :=
  setSelectedImage (or_null (image_url dataPoint)) st.

Definition img_onerror (dataPoint : DataPoint) (st : State) : State :=
  setError "Failed to load the selected image." st.

(** The state when the handler returns, and the URL whose preload it
    started, if any.  The preload completes in a later turn, through
    [img_onload] or [img_onerror]. *)
Definition handleDataPointClick (dataPoint : DataPoint) (st : State)
  : State * option string :=
  if truthy (image_url dataPoint) then (st, image_url dataPoint)
  else (setSelectedImage None st, None).

(** ** handleSubmit *)

(** The validation checks; [Some msg] is the error set before the early
    [return]. *)
Definition validate (eng : Engine) (start end_ today : Date) : option string :=
  if Date_lt start (EARLIEST_DATE eng) then
    Some ("Start date cannot be earlier than "
          +:+ toDateString eng (EARLIEST_DATE eng))
  else if Date_gt end_ today then
    Some "End date cannot be in the future"
  else if Date_gt start end_ then
    Some "Start date must be before end date"
  else None.

(** The response data mapped to the component's structure. *)
Definition transformedData (eng : Engine) (data : list LiveData) : HistoricalData :=
  {| temperature := (fun d =>
       {| time := getTime (Date_of_string eng (slice_0_m1 (timestamp d)));
          value := parseFloat (toFixed (temperature_c d) 2);
          image_url := Some (or_empty (ld_image_url d)) |}) <$> data;
     humidity := (fun d =>
       {| time := getTime (Date_of_string eng (slice_0_m1 (timestamp d)));
          value := parseFloat (toFixed (ld_humidity d) 2);
          image_url := Some (or_empty (ld_image_url d)) |}) <$> data;
     pressure := (fun d =>
       {| time := getTime (Date_of_string eng (slice_0_m1 (timestamp d)));
          value := parseFloat (toFixed (ld_pressure d) 2);
          image_url := Some (or_empty (ld_image_url d)) |}) <$> data;
     windMaxSpeed := (fun d =>
       {| time := getTime (Date_of_string eng (slice_0_m1 (timestamp d)));
          value := parseFloat (toFixed (ambientweatherwindmaxspeed d) 2);
          image_url := Some (or_empty (ld_image_url d)) |}) <$> data;
     windSpeed := (fun d =>
       {| time := getTime (Date_of_string eng (slice_0_m1 (timestamp d)));
          value := parseFloat (toFixed (wind_speed d) 2);
          image_url := Some (or_empty (ld_image_url d)) |}) <$> data;
     windDirection := (fun d =>
       {| time := getTime (Date_of_string eng (slice_0_m1 (timestamp d)));
          value := parseFloat (toFixed (wind_direction d) 2);
          image_url := Some (or_empty (ld_image_url d)) |}) <$> data;
     ambientTemp := (fun d =>
       {| time := getTime (Date_of_string eng (slice_0_m1 (timestamp d)));
          value := parseFloat (toFixed (ambientweathertemp d) 2);
          image_url := Some (or_empty (ld_image_url d)) |}) <$> data;
     ambientHumidity := (fun d =>
       {| time := getTime (Date_of_string eng (slice_0_m1 (timestamp d)));
          value := parseFloat (toFixed (ambientweatherhumidity d) 2);
          image_url := Some (or_empty (ld_image_url d)) |}) <$> data;
     rain := (fun d =>
       {| time := getTime (Date_of_string eng (slice_0_m1 (timestamp d)));
          value := parseFloat (toFixed (ambientweatherrain d) 2);
          image_url := Some (or_empty (ld_image_url d)) |}) <$> data;
     uv := (fun d =>
       {| time := getTime (Date_of_string eng (slice_0_m1 (timestamp d)));
          value := parseFloat (toFixed (ambientweatheruv d) 2);
          image_url := Some (or_empty (ld_image_url d)) |}) <$> data;
     uvi := (fun d =>
       {| time := getTime (Date_of_string eng (slice_0_m1 (timestamp d)));
          value := parseFloat (toFixed (ambientweatheruvi d) 2);
          image_url := Some (or_empty (ld_image_url d)) |}) <$> data;
     lightLux := (fun d =>
       {| time := getTime (Date_of_string eng (slice_0_m1 (timestamp d)));
          value := parseFloat (toFixed (ambientweatherlightlux d) 2);
          image_url := Some (or_empty (ld_image_url d)) |}) <$> data |}.

(** The image URLs for the timelapse. *)
Definition images (data : list LiveData) : list string :=
  omap (fun u => if truthy u then u else None)
       (ld_image_url <$> filter (fun d => truthy (ld_image_url d) = true) data).

(** What [axios.get] resolves to: the response data, or a rejection. *)
Inductive Response :=
  | Rejected
  | Resolved (data : list LiveData).

(** Where the first, synchronous part of [handleSubmit] ends. *)
Inductive SubmitStep :=
  | Threw (st : State)
  | Returned (st : State)
  | Awaiting (st : State) (url : string).

Definition request_url (formattedStartDate formattedEndDate : string) : string :=
  "https://sunsightenergy.com/api/history-data?startDate="
  +:+ formattedStartDate +:+ "&endDate=" +:+ formattedEndDate.

(** From the submit event up to the [await]: the resets, the same-day
    flag, the validation checks and the request.  [today] is the instant
    read by [new Date()].  [Threw] is the RangeError of [toISOString] on an
    invalid date, raised outside the [try]. *)
Definition handleSubmit_begin (eng : Engine) (today : Z) (st : State) : SubmitStep :=
  let st := setError EmptyString st in
  let st := setHistoricalData None st in
  let st := setSelectedImage None st in
  let start := Date_of_string eng (startDate st) in
  let end_ := Date_of_string eng (endDate st) in
  match toISOString start, toISOString end_ with
  | Some start_iso, Some end_iso =>
      let sameDay := String.eqb (split_T_0 start_iso) (split_T_0 end_iso) in
      let st := setIsSameDay sameDay st in
      match validate eng start end_ (TimeClip today) with
      | Some msg => Returned (setError msg st)
      | None =>
          Awaiting st (request_url (split_T_0 start_iso) (split_T_0 end_iso))
      end
  | _, _ => Threw st
  end.

(** From the settlement of the request to the end of the handler. *)
Definition handleSubmit_resume (eng : Engine) (response : Response) (st : State)
  : State :=
  match response with
  | Rejected => setError "Failed to fetch historical data" st
  | Resolved data =>
      if Nat.eqb (length data) 0 then
        setError "No data found for the selected date range." st
      else
        let st := setHistoricalData (Some (transformedData eng data)) st in
        setImageUrls (images data) st
  end.

(** A whole submission with no other event in between; [fetch] is the
    data source. *)
Definition handleSubmit (eng : Engine) (today : Z) (fetch : string -> Response)
    (st : State) : State :=
  match handleSubmit_begin eng today st with
  | Threw st' | Returned st' => st'
  | Awaiting st' url => handleSubmit_resume eng (fetch url) st'
  end.

(** ** The solar irradiance chart *)

(** [historicalData.lightLux.map((item) => ({...item, value: item.value * 0.0079}))] *)
Definition solarIrradiance (h : HistoricalData) : list DataPoint :=
  (fun item =>
     {| time := time item;
        value := number_mul (value item) (number_of_decimal false 79 (-4));
        image_url := image_url item |}) <$> lightLux h.

(** ** handleExport *)

Definition headers : list string :=
  [ "Timestamp"; "Temperature (°C)"; "Humidity (%)"; "Pressure (hPa)";
    "Wind Max Speed (km/h)"; "Wind Speed (km/h)"; "Wind Direction (°)";
    "Ambient Temperature (°C)"; "Ambient Humidity (%)"; "Rain (mm)";
    "UV Index"; "UVI"; "Light Lux (lx)" ].

(** One element of [dataPoints]; the fields read with [?.] are absent when
    the channel has no entry at the index. *)
Record ExportItem := {
  ei_time : number;
  ei_temperature : number;
  ei_humidity : option number;
  ei_pressure : option number;
  ei_windMaxSpeed : option number;
  ei_windSpeed : option number;
  ei_windDirection : option number;
  ei_ambientTemp : option number;
  ei_ambientHumidity : option number;
  ei_rain : option number;
  ei_uv : option number;
  ei_uvi : option number;
  ei_lightLux : option number
}.

Definition dataPoints (h : HistoricalData) : list ExportItem :=
  imap (fun index p =>
    {| ei_time := time p;
       ei_temperature := value p;
       ei_humidity := value <$> humidity h !! index;
       ei_pressure := value <$> pressure h !! index;
       ei_windMaxSpeed := value <$> windMaxSpeed h !! index;
       ei_windSpeed := value <$> windSpeed h !! index;
       ei_windDirection := value <$> windDirection h !! index;
       ei_ambientTemp := value <$> ambientTemp h !! index;
       ei_ambientHumidity := value <$> ambientHumidity h !! index;
       ei_rain := value <$> rain h !! index;
       ei_uv := value <$> uv h !! index;
       ei_uvi := value <$> uvi h !! index;
       ei_lightLux := value <$> lightLux h !! index |}) (temperature h).

(** [v?.toFixed(2)] *)
Definition cell (v : option number) : option string :=
  (fun x => toFixed x 2) <$> v.

(** One row; [None] when [toISOString] throws. *)
Definition row (item : ExportItem) : option (list (option string)) :=
  iso ← toISOString (Date_of_number (ei_time item));
  Some [ Some iso;
         cell (Some (ei_temperature item));
         cell (ei_humidity item);
         cell (ei_pressure item);
         cell (ei_windMaxSpeed item);
         cell (ei_windSpeed item);
         cell (ei_windDirection item);
         cell (ei_ambientTemp item);
         cell (ei_ambientHumidity item);
         cell (ei_rain item);
         cell (ei_uv item);
         cell (ei_uvi item);
         cell (ei_lightLux item) ].

Definition rows (h : HistoricalData) : option (list (list (option string))) :=
  mapM row (dataPoints h).

Definition newline : string := String (ascii_of_N 10) EmptyString.

Definition csvContent (rs : list (list (option string))) : string :=
  join newline (Some (join "," (Some <$> headers))
                :: ((fun r => Some (join "," r)) <$> rs)).

Inductive ExportResult :=
  | ExportRefused (st : State)
  | ExportThrew
  | Exported (filename content : string).

Definition handleExport (st : State) : ExportResult :=
  match historicalData st with
  | None => ExportRefused (setError "No data available to export" st)
  | Some h =>
      match rows h with
      | None => ExportThrew
      | Some rs =>
          Exported ("weather_data_" +:+ startDate st +:+ "_to_"
                    +:+ endDate st +:+ ".csv")
                   (csvContent rs)
      end
  end.

(** The lines of a text: its maximal runs without a line feed. *)
Fixpoint lines_from (cur : string) (s : string) : list string :=
  match s with
  | EmptyString => [cur]
  | String c s' =>
      if Ascii.eqb c (ascii_of_N 10) then cur :: lines_from EmptyString s'
      else lines_from (cur +:+ String c EmptyString) s'
  end.

Definition lines (s : string) : list string := lines_from EmptyString s.

(* ================================================================== *)
(** * 4. Views and specifications used by the theorems *)
(* ================================================================== *)

(** The twelve channels of a dataset, in declaration order. *)
Definition channels (h : HistoricalData) : list (list DataPoint) :=
  [ temperature h; humidity h; pressure h; windMaxSpeed h; windSpeed h;
    windDirection h; ambientTemp h; ambientHumidity h; rain h; uv h; uvi h;
    lightLux h ].

(** The scalar of a reading behind each channel, in the same order. *)
Definition metrics : list (LiveData -> number) :=
  [ temperature_c; ld_humidity; ld_pressure; ambientweatherwindmaxspeed;
    wind_speed; wind_direction; ambientweathertemp; ambientweatherhumidity;
    ambientweatherrain; ambientweatheruv; ambientweatheruvi;
    ambientweatherlightlux ].

(** The instant the page assigns to a reading. *)
Definition reading_time (eng : Engine) (d : LiveData) : number :=
  getTime (Date_of_string eng (slice_0_m1 (timestamp d))).

(** A well-formed reading carries binary64 scalars. *)
Definition valid_number (x : number) : Prop := valid_binary prec emax x = true.

Definition valid_reading (d : LiveData) : Prop :=
  Forall (fun f => valid_number (f d)) metrics.

(** The time of a data point denotes an instant. *)
Definition valid_time (p : DataPoint) : Prop :=
  is_Some (Date_of_number (time p)).

(** The spec's wording of the timestamp normalisation: a trailing zone
    marker [Z] is stripped, a timestamp without one is left as it is. *)
Fixpoint ends_with_Z (s : string) : bool :=
  match s with
  | EmptyString => false
  | String c EmptyString => Ascii.eqb c "Z"
  | String _ s' => ends_with_Z s'
  end.

Definition stripZoneMarker (s : string) : string :=
  if ends_with_Z s then slice_0_m1 s else s.

(** A string that starts with a decimal digit. *)
Definition digit_headed (s : string) : Prop :=
  exists d r, 0 <= d < 10 /\ s = String (digit_char d) r.

(** The spec's wording of the rounding of a scalar: [n] is the integer
    nearest to [100 |x|], the larger one of two equally near (half away
    from zero once the sign is put back). *)
Definition nearest_hundredths (x : number) (n : Z) : Prop :=
  let '(num, den) := exact_abs x in
  den * (2 * n - 1) <= 200 * num < den * (2 * n + 1).

(** [|x| < 10^21] on finite numbers. *)
Definition below_1e21 (x : number) : bool :=
  let '(num, den) := exact_abs x in num <? 10 ^ 21 * den.

(** [v] is [x] rounded to two decimal places, half away from zero: the
    Number value of the rounded decimal.  A finite number of magnitude
    10^21 or more is an integer, hence its own rounding. *)
Inductive rounded_2dp (x : number) : number -> Prop :=
  | rounded_nan : x = NaN -> rounded_2dp x NaN
  | rounded_infinity : isFinite x = false -> x <> NaN -> rounded_2dp x x
  | rounded_decimal n :
      isFinite x = true -> below_1e21 x = true -> nearest_hundredths x n ->
      rounded_2dp x (number_of_decimal (is_negative x) n (-2))
  | rounded_integer :
      isFinite x = true -> below_1e21 x = false -> snd (exact_abs x) = 1 ->
      rounded_2dp x x.

(** A host in Central Standard Time that recognises the standard date
    format only. *)
Definition cst_engine : Engine :=
  {| LocalTZA := fun _ _ => CST_OFFSET * msPerMinute;
     fallbackParse := fun _ => None |}.

(** A reading taken at [ts] with light level [lux]; the other scalars are
    fixed. *)
Definition sample_reading (ts : string) (lux : number) (img : option string)
  : LiveData :=
  {| timestamp := ts;
     temperature_c := number_of_decimal false 215 (-1);
     ld_humidity := number_of_decimal false 40 0;
     ld_pressure := number_of_decimal false 10132 (-1);
     ambientweatherwindmaxspeed := number_of_decimal false 12 0;
     wind_speed := number_of_decimal false 7 0;
     wind_direction := number_of_decimal false 180 0;
     ambientweathertemp := number_of_decimal true 35 (-1);
     ambientweatherhumidity := number_of_decimal false 55 0;
     ambientweatherrain := S754_zero false;
     ambientweatheruv := number_of_decimal false 125 (-3);
     ambientweatheruvi := number_of_decimal false 1 0;
     ambientweatherlightlux := lux;
     ld_image_url := img |}.

Definition sample_state (start end_ : string) (h : option HistoricalData)
  : State :=
  {| startDate := start; endDate := end_; error := EmptyString;
     isSameDay := false; selectedImage := None; imageUrls := [];
     historicalData := h |}.

(** The message of the first validation check. *)
Definition early_message (eng : Engine) : string :=
  "Start date cannot be earlier than " +:+ toDateString eng (EARLIEST_DATE eng).

(** The time value of [EARLIEST_DATE]: 2024-11-15T00:00:00.000Z. *)
Definition earliest : Z := 1731628800000.

(** The first line of every exported document. *)
Definition header_line : string :=
  "Timestamp,Temperature (°C),Humidity (%),Pressure (hPa),"
  +:+ "Wind Max Speed (km/h),Wind Speed (km/h),Wind Direction (°),"
  +:+ "Ambient Temperature (°C),Ambient Humidity (%),Rain (mm),"
  +:+ "UV Index,UVI,Light Lux (lx)".

(** The source's literal [0.0079]. *)
Definition lux_to_irradiance : number := number_of_decimal false 79 (-4).

(** No line feed occurs in the string. *)
Fixpoint no_line_feed (s : string) : bool :=
  match s with
  | EmptyString => true
  | String c s' => negb (Ascii.eqb c (ascii_of_N 10)) && no_line_feed s'
  end.

(** The cells of the export row of the point [p] at index [i] of the
    reference channel, given the ISO form [iso] of its time. *)
Definition export_cells (h : HistoricalData) (i : nat) (p : DataPoint)
    (iso : string) : list (option string) :=
  [ Some iso;
    Some (toFixed (value p) 2);
    cell (value <$> humidity h !! i);
    cell (value <$> pressure h !! i);
    cell (value <$> windMaxSpeed h !! i);
    cell (value <$> windSpeed h !! i);
    cell (value <$> windDirection h !! i);
    cell (value <$> ambientTemp h !! i);
    cell (value <$> ambientHumidity h !! i);
    cell (value <$> rain h !! i);
    cell (value <$> uv h !! i);
    cell (value <$> uvi h !! i);
    cell (value <$> lightLux h !! i) ].

(* ================================================================== *)
(** * 4b. The rest of the page: initial form values and rendering *)
(* ================================================================== *)

(** The [+] and [-] operators on numbers. *)
Definition number_add (x y : number) : number := SFadd prec emax x y.
Definition number_sub (x y : number) : number := SFsub prec emax x y.

(** [Math.max] of two numbers: NaN if either is, [+0] above [-0]. *)
Definition Math_max (x y : number) : number :=
  if isNaN x || isNaN y then NaN
  else
    match SFcompare x y with
    | Some Lt => y
    | Some Gt => x
    | _ =>
        match x, y with
        | S754_zero true, S754_zero false => y
        | _, _ => x
        end
    end.

(** [getDate()]: the day of the month in local time. *)
Definition getDate (eng : Engine) (d : Date) : number :=
  match d with
  | Some tv => number_of_Z (DateFromTime (LocalTime eng tv))
  | None => NaN
  end.

(** [setDate(date)]: the date object after the call. *)
Definition setDate (eng : Engine) (d : Date) (date : number) : Date :=
  match d with
  | None => None
  | Some tv =>
      let t := LocalTime eng tv in
      if isFinite date then
        let newDate :=
          MakeDate (MakeDay (YearFromTime t) (MonthFromTime t) (truncate date))
                   (TimeWithinDay t) in
        TimeClip (UTC eng newDate)
      else None
  end.

(** [CST_OFFSET * 60 * 1000], in numbers. *)
Definition cst_offset_ms : number :=
  number_mul (number_mul (number_of_Z CST_OFFSET) (number_of_decimal false 60 0))
             (number_of_decimal false 1000 0).

(** The initial value of [startDate], computed at the instant [now];
    [None] is the RangeError of [toISOString]. *)
Definition initial_startDate (eng : Engine) (now : Z) : option string :=
  let weekAgo := TimeClip now in
  let weekAgo :=
    setDate eng weekAgo
      (number_sub (getDate eng weekAgo) (number_of_decimal false 7 0)) in
  let cstDate := Date_of_number (number_add (getTime weekAgo) cst_offset_ms) in
  let minDate :=
    Date_of_number (Math_max (getTime (EARLIEST_DATE eng)) (getTime cstDate)) in
  split_T_0 <$> toISOString minDate.

(** The initial value of [endDate]. *)
Definition initial_endDate (now : Z) : option string :=
  let today := TimeClip now in
  let cstDate := Date_of_number (number_add (getTime today) cst_offset_ms) in
  split_T_0 <$> toISOString cstDate.

(** The state of the component when it mounts at [now]. *)
Definition initial_state (eng : Engine) (now : Z) : option State :=
  start ← initial_startDate eng now;
  end_ ← initial_endDate now;
  Some {| startDate := start; endDate := end_; error := EmptyString;
          isSameDay := false; selectedImage := None; imageUrls := [];
          historicalData := None |}.

(** What the component shows, as far as the state decides it: the error
    banner, the export button and the charts, the timelapse, the image
    modal, and the tick format handed to every chart. *)
Record View := {
  showError : bool;
  showExportButton : bool;
  showCharts : bool;
  showTimelapse : bool;
  modalOpen : bool;
  tickFormat : string
}.

Definition render (st : State) : View :=
  {| showError := negb (String.eqb (error st) EmptyString);
     showExportButton := bool_decide (is_Some (historicalData st));
     showCharts := bool_decide (is_Some (historicalData st));
     showTimelapse := negb (Nat.eqb (length (imageUrls st)) 0);
     modalOpen := truthy (selectedImage st);
     tickFormat := if isSameDay st then "hourly" else "daily" |}.

(** The modal's [onClose]. *)
Definition modal_onClose (st : State) : State := setSelectedImage None st.

(** The binary64 number of a non-zero integer below 2^53 in magnitude:
    the mantissa is the magnitude shifted up to 53 bits. *)
Definition int_float (s : bool) (c : positive) : number :=
  let d := Zpos (digits2_pos c) in
  S754_finite s (Z.to_pos (Zpos c * 2 ^ (53 - d))) (d - 53).

(** The calendar date of [toISOString], which depends on the day only. *)
Definition iso_date_string (t : Z) : string :=
  iso_year_string (YearFromTime t) +:+ "-"
  +:+ pad_digits 2 (MonthFromTime t + 1) +:+ "-"
  +:+ pad_digits 2 (DateFromTime t).

(** No letter T occurs in the string. *)
Fixpoint no_T (s : string) : bool :=
  match s with
  | EmptyString => true
  | String c s' => negb (Ascii.eqb c "T") && no_T s'
  end.

(** Local time zone adjustments stay within a day. *)
Definition bounded_offsets (eng : Engine) : Prop :=
  forall t b, Z.abs (LocalTZA eng t b) <= msPerDay.


(** The timestamp of the reading, cut as the page cuts it, is a date. *)
Definition timestamp_parses (eng : Engine) (d : LiveData) : Prop :=
  is_Some (Date_of_string eng (slice_0_m1 (timestamp d))).


(** ** Viewing images *)

(** The page between two submissions: the component state and the image
    preloads that clicks have started and that have not finished yet, each
    with the data point whose callbacks it carries. *)
Record Page := {
  page_state : State;
  pending : list DataPoint
}.

(** What happens while images are viewed: a click on a data point, the
    end of the [i]-th pending preload, with success or with failure, and
    the closing of the modal. *)
Inductive ViewEvent :=
| Click (p : DataPoint)
| Loaded (i : nat)
| LoadFailed (i : nat)
| CloseModal.

Definition view_step (pg : Page) (ev : ViewEvent) : Page :=
  match ev with
  | Click p =>
      let '(st', started) := handleDataPointClick p (page_state pg) in
      {| page_state := st';
         pending := match started with
                    | Some _ => pending pg ++ [p]
                    | None => pending pg
                    end |}
  | Loaded i =>
      match pending pg !! i with
      | Some p => {| page_state := img_onload p (page_state pg);
                     pending := delete i (pending pg) |}
      | None => pg
      end
  | LoadFailed i =>
      match pending pg !! i with
      | Some p => {| page_state := img_onerror p (page_state pg);
                     pending := delete i (pending pg) |}
      | None => pg
      end
  | CloseModal =>
      {| page_state := modal_onClose (page_state pg); pending := pending pg |}
  end.

Definition view_run (st : State) (evs : list ViewEvent) : Page :=
  fold_left view_step evs {| page_state := st; pending := [] |}.

(** ** Runs of the page *)

(** [setStartDate] and [setEndDate], called by the two date inputs. *)
Definition setStartDate (v : string) (st : State) : State :=
  {| startDate := v; endDate := endDate st; error := error st;
     isSameDay := isSameDay st; selectedImage := selectedImage st;
     imageUrls := imageUrls st; historicalData := historicalData st |}.

Definition setEndDate (v : string) (st : State) : State :=
  {| startDate := startDate st; endDate := v; error := error st;
     isSameDay := isSameDay st; selectedImage := selectedImage st;
     imageUrls := imageUrls st; historicalData := historicalData st |}.

(** The page in the course of a run: the page with its pending preloads,
    and the requests that have been sent and are not settled yet, by
    their URL, oldest first. *)
Record Session := {
  session_page : Page;
  requests : list string
}.

(** The component state of a session. *)
Definition current (s : Session) : State := page_state (session_page s).

(** What happens in a run: the form is submitted at the instant [today];
    the [i]-th request in flight settles with [response], and the waiting
    part of the [handleSubmit] call that sent it runs; a date input
    changes; an image is viewed.  Export is no event of its own: its
    button is rendered only when a dataset is held, and [handleExport]
    sets no state then. *)
Inductive Event :=
| Submit (today : Z)
| Settle (i : nat) (response : Response)
| ChangeStartDate (v : string)
| ChangeEndDate (v : string)
| Viewing (ev : ViewEvent).

Definition with_state (st : State) (s : Session) : Session :=
  {| session_page := {| page_state := st; pending := pending (session_page s) |};
     requests := requests s |}.

Definition step (eng : Engine) (s : Session) (ev : Event) : Session :=
  match ev with
  | Submit today =>
      match handleSubmit_begin eng today (current s) with
      | Threw st' | Returned st' => with_state st' s
      | Awaiting st' url =>
          {| session_page := session_page (with_state st' s);
             requests := requests s ++ [url] |}
      end
  | Settle i response =>
      match requests s !! i with
      | Some _ =>
          {| session_page :=
               session_page
                 (with_state (handleSubmit_resume eng response (current s)) s);
             requests := delete i (requests s) |}
      | None => s
      end
  | ChangeStartDate v => with_state (setStartDate v (current s)) s
  | ChangeEndDate v => with_state (setEndDate v (current s)) s
  | Viewing ev =>
      {| session_page := view_step (session_page s) ev;
         requests := requests s |}
  end.

Definition run (eng : Engine) (s : Session) (evs : list Event) : Session :=
  fold_left (step eng) evs s.

(** The session when the component has mounted with the two form dates:
    the initial values of the other state variables, nothing in flight. *)
Definition mount (start end_ : string) : Session :=
  {| session_page :=
       {| page_state :=
            {| startDate := start; endDate := end_; error := EmptyString;
               isSameDay := false; selectedImage := None; imageUrls := [];
               historicalData := None |};
          pending := [] |};
     requests := [] |}.

(** The event is the arrival of a non-empty reading list. *)
Definition brings_data (ev : Event) : bool :=
  match ev with
  | Settle _ (Resolved (_ :: _)) => true
  | _ => false
  end.

(** Events that leave the error message, the dataset and the selected
    image alone or clear the selection: clicks on points, closings of the
    modal and changes of the form dates. *)
Definition undisturbing (ev : Event) : bool :=
  match ev with
  | Viewing (Click _) | Viewing CloseModal
  | ChangeStartDate _ | ChangeEndDate _ => true
  | _ => false
  end.

Definition is_submit (ev : Event) : bool :=
  match ev with
  | Submit _ => true
  | _ => false
  end.

(* ================================================================== *)
(** * 5. Theorems *)
(* ================================================================== *)

(** String concatenation computes on a literal or constructor head. *)
#[local] Arguments String.append !_ _ / : simpl nomatch.

(** ** Channel alignment *)

(** C1. For every list of readings, each of the twelve channels of the
    transformed dataset has one point per reading, in reading order, and
    all channels carry the same time at every index. *)
Theorem transformedData_aligned (eng : Engine) (data : list LiveData) :
  Forall (fun c => length c = length data
                   /\ time <$> c = reading_time eng <$> data)
         (channels (transformedData eng data))
  /\ (forall c1 c2 (i : nat),
        c1 ∈ channels (transformedData eng data) ->
        c2 ∈ channels (transformedData eng data) ->
        time <$> (c1 !! i) = time <$> (c2 !! i)).
Proof.
  assert (H : Forall (fun c => length c = length data
                   /\ time <$> c = reading_time eng <$> data)
         (channels (transformedData eng data))).
  { unfold channels, transformedData; simpl.
    repeat constructor; rewrite ?length_fmap; try reflexivity;
      rewrite <- list_fmap_compose; reflexivity. }
  split; [exact H|].
  intros c1 c2 i H1 H2.
  rewrite Forall_forall in H.
  destruct (H c1 H1) as [_ E1]. destruct (H c2 H2) as [_ E2].
  rewrite <- !list_lookup_fmap. rewrite E1, E2. reflexivity.
Qed.

(** ** Timestamps *)

Lemma slice_0_m1_app_last (s : string) (c : ascii) :
  slice_0_m1 (s +:+ String c EmptyString) = s.
Proof.
  induction s as [|a s IH]; simpl; [reflexivity|].
  rewrite IH. destruct s; reflexivity.
Qed.

Lemma ends_with_Z_app (s : string) :
  ends_with_Z (s +:+ "Z") = true.
Proof.
  induction s as [|a s IH]; simpl; [reflexivity|].
  destruct s; simpl in *; [reflexivity | exact IH].
Qed.

(** C3, as the code has it.  The time of every point is the parse of the
    reading's timestamp with its last character removed, whatever that
    character is; for a timestamp that ends in the zone marker [Z] this is
    the timestamp with the marker stripped. *)
Theorem point_time_drops_last_character (eng : Engine) (data : list LiveData) :
  Forall (fun c =>
            time <$> c
            = (fun d => getTime (Date_parse eng (slice_0_m1 (timestamp d))))
                <$> data)
         (channels (transformedData eng data))
  /\ (forall s : string,
        slice_0_m1 (s +:+ "Z") = s /\ stripZoneMarker (s +:+ "Z") = s).
Proof.
  split.
  - unfold channels, transformedData; simpl.
    repeat constructor; rewrite <- list_fmap_compose; reflexivity.
  - intros s. unfold stripZoneMarker.
    rewrite ends_with_Z_app, slice_0_m1_app_last. auto.
Qed.

(** C3, counterexample.  A timestamp without zone marker loses its last
    digit before it is parsed: the point carries no instant, while the
    timestamp itself denotes 10:00:05 local time. *)
Lemma timestamp_without_zone_marker_is_cut :
  let d := sample_reading "2024-11-20T10:00:05" (S754_zero false) None in
  let h := transformedData cst_engine [d] in
  ends_with_Z (timestamp d) = false
  /\ time <$> temperature h = [NaN]
  /\ getTime (Date_parse cst_engine (stripZoneMarker (timestamp d)))
     = number_of_Z 1732118405000
  /\ time <$> temperature h
     <> [getTime (Date_parse cst_engine (stripZoneMarker (timestamp d)))]
  /\ (forall eng,
        reading_time eng d
        = reading_time eng (sample_reading "2024-11-20T10:00:06" (S754_zero false) None)).
Proof.
  repeat split; try (vm_compute; congruence).
Qed.

(** ** Validation *)

Lemma EARLIEST_DATE_value (eng : Engine) : EARLIEST_DATE eng = Some earliest.
Proof. vm_compute. reflexivity. Qed.

Lemma toISOString_valid (t : Z) : is_Some (toISOString (Some t)).
Proof. unfold toISOString. eexists. reflexivity. Qed.

Lemma TimeClip_in_range (t : Z) : Z.abs t <= maxTime -> TimeClip t = Some t.
Proof.
  intros H. unfold TimeClip. destruct (Z.leb_spec (Z.abs t) maxTime); [reflexivity | lia].
Qed.

Lemma validate_cases (eng : Engine) (s e today : Z) :
  validate eng (Some s) (Some e) (Some today)
  = if s <? earliest then Some (early_message eng)
    else if today <? e then Some "End date cannot be in the future"
    else if e <? s then Some "Start date must be before end date"
    else None.
Proof. unfold validate. rewrite EARLIEST_DATE_value. reflexivity. Qed.

Lemma early_message_head (eng : Engine) :
  exists rest, early_message eng = "Start date c" +:+ rest.
Proof. unfold early_message. eexists. cbn [String.append]. reflexivity. Qed.

Lemma validation_messages_distinct (eng : Engine) :
  early_message eng <> "End date cannot be in the future"
  /\ early_message eng <> "Start date must be before end date"
  /\ "End date cannot be in the future" <> "Start date must be before end date".
Proof.
  destruct (early_message_head eng) as [rest ->].
  repeat split; simpl; discriminate.
Qed.

(** The first part of a submission with two valid dates, by cases. *)
Lemma handleSubmit_begin_valid (eng : Engine) (today : Z) (st : State) (s e : Z) :
  Date_of_string eng (startDate st) = Some s ->
  Date_of_string eng (endDate st) = Some e ->
  exists start_iso end_iso,
    toISOString (Some s) = Some start_iso
    /\ toISOString (Some e) = Some end_iso
    /\ handleSubmit_begin eng today st
       = let st1 :=
           setIsSameDay (String.eqb (split_T_0 start_iso) (split_T_0 end_iso))
             (setSelectedImage None (setHistoricalData None (setError EmptyString st))) in
         match validate eng (Some s) (Some e) (TimeClip today) with
         | Some msg => Returned (setError msg st1)
         | None => Awaiting st1 (request_url (split_T_0 start_iso) (split_T_0 end_iso))
         end.
Proof.
  intros Hs He.
  destruct (toISOString_valid s) as [si Hsi], (toISOString_valid e) as [ei Hei].
  exists si, ei. split; [exact Hsi|]. split; [exact Hei|].
  unfold handleSubmit_begin. cbn [startDate endDate setError setHistoricalData setSelectedImage].
  rewrite Hs, He, Hsi, Hei. reflexivity.
Qed.

(** C4. With two calendar dates, a submission ends in exactly one of four
    ways, decided in this order: start before EARLIEST_DATE, end after
    now, start after end, otherwise the request is issued.  Each rejection
    sets its own message and ends the handler: no dataset, no request.
    Start 2024-11-01, end 2024-11-20 at 2024-11-25 is rejected as too
    early. *)
Theorem validation_rejective_exclusive
    (eng : Engine) (today : Z) (st : State) (s e : Z) :
  Date_of_string eng (startDate st) = Some s ->
  Date_of_string eng (endDate st) = Some e ->
  Z.abs today <= maxTime ->
  let r := handleSubmit_begin eng today st in
  (s < earliest
     <-> exists st', r = Returned st' /\ error st' = early_message eng)
  /\ (earliest <= s /\ today < e
     <-> exists st', r = Returned st'
                     /\ error st' = "End date cannot be in the future")
  /\ (earliest <= s /\ e <= today /\ e < s
     <-> exists st', r = Returned st'
                     /\ error st' = "Start date must be before end date")
  /\ (earliest <= s /\ s <= e /\ e <= today
     <-> exists st' url, r = Awaiting st' url)
  /\ (forall st', r = Returned st' ->
        historicalData st' = None
        /\ imageUrls st' = imageUrls st
        /\ forall fetch, handleSubmit eng today fetch st = st')
  /\ validate eng (Date_of_string eng "2024-11-01")
       (Date_of_string eng "2024-11-20") (Date_of_string eng "2024-11-25")
     = Some (early_message eng).
Proof.
  intros Hs He Hnow r.
  destruct (handleSubmit_begin_valid eng today st s e Hs He)
    as (si & ei & _ & _ & Hr).
  fold r in Hr. rewrite (TimeClip_in_range _ Hnow), validate_cases in Hr.
  set (st1 := setIsSameDay _ _) in Hr.
  destruct (validation_messages_distinct eng) as (D1 & D2 & D3).
  assert (Hfetch : forall st', r = Returned st' ->
            forall fetch, handleSubmit eng today fetch st = st').
  { intros st' E fetch. unfold handleSubmit. fold r. rewrite E. reflexivity. }
  clearbody r.
  assert (Hcases :
    (s < earliest /\ r = Returned (setError (early_message eng) st1))
    \/ (earliest <= s /\ today < e
        /\ r = Returned (setError "End date cannot be in the future" st1))
    \/ (earliest <= s /\ e <= today /\ e < s
        /\ r = Returned (setError "Start date must be before end date" st1))
    \/ (earliest <= s /\ s <= e /\ e <= today
        /\ r = Awaiting st1 (request_url (split_T_0 si) (split_T_0 ei)))).
  { subst st1. destruct (Z.ltb_spec s earliest); [left; auto|].
    destruct (Z.ltb_spec today e); [right; left; auto|].
    destruct (Z.ltb_spec e s); [right; right; left; auto|].
    right; right; right. repeat split; auto; lia. }
  clear Hr.
  split; [|split; [|split; [|split; [|split]]]].
  - split.
    + intros C. destruct Hcases as [(_ & ->)|[?|[?|?]]]; [|lia..]. eauto.
    + intros (st' & E & M).
      destruct Hcases as [(? & _)|[(_ & _ & E')|[(_ & _ & _ & E')|(_ & _ & _ & E')]]];
        [assumption|..]; rewrite E' in E; inversion E; subst st';
        cbn [error setError] in M; congruence.
  - split.
    + intros C. destruct Hcases as [?|[(_ & _ & ->)|[?|?]]]; [lia| |lia..]. eauto.
    + intros (st' & E & M).
      destruct Hcases as [(_ & E')|[(? & ? & _)|[(_ & _ & _ & E')|(_ & _ & _ & E')]]];
        [|split; assumption|..]; rewrite E' in E; inversion E; subst st';
        cbn [error setError] in M; congruence.
  - split.
    + intros C. destruct Hcases as [?|[?|[(_ & _ & _ & ->)|?]]]; [lia..| |lia]. eauto.
    + intros (st' & E & M).
      destruct Hcases as [(_ & E')|[(_ & _ & E')|[(? & ? & ? & _)|(_ & _ & _ & E')]]];
        [| |repeat split; assumption|]; rewrite E' in E; inversion E; subst st';
        cbn [error setError] in M; congruence.
  - split.
    + intros C. destruct Hcases as [?|[?|[?|(_ & _ & _ & ->)]]]; [lia..|]. eauto.
    + intros (st' & url & E).
      destruct Hcases as [(_ & E')|[(_ & _ & E')|[(_ & _ & _ & E')|(? & ? & ? & _)]]];
        [| | |repeat split; assumption]; rewrite E' in E; discriminate E.
  - intros st' E. split; [|split; [|apply Hfetch; exact E]];
      destruct Hcases as [(_ & E')|[(_ & _ & E')|[(_ & _ & _ & E')|(_ & _ & _ & E')]]];
      rewrite E' in E; inversion E; reflexivity.
  - replace (Date_of_string eng "2024-11-01") with (Some 1730419200000)
      by (vm_compute; reflexivity).
    replace (Date_of_string eng "2024-11-20") with (Some 1732060800000)
      by (vm_compute; reflexivity).
    replace (Date_of_string eng "2024-11-25") with (Some 1732492800000)
      by (vm_compute; reflexivity).
    rewrite validate_cases. reflexivity.
Qed.

(** The example of C4 on a host in Central Standard Time. *)
Lemma validation_rejective_exclusive_witness :
  let st := sample_state "2024-11-01" "2024-11-20" None in
  Date_of_string cst_engine (startDate st) = Some 1730419200000
  /\ Date_of_string cst_engine (endDate st) = Some 1732060800000
  /\ Z.abs 1732492800000 <= maxTime
  /\ exists st', handleSubmit_begin cst_engine 1732492800000 st = Returned st'
                 /\ error st' = "Start date cannot be earlier than Thu Nov 14 2024".
Proof.
  intros st.
  assert (Hs : Date_of_string cst_engine (startDate st) = Some 1730419200000)
    by (vm_compute; reflexivity).
  assert (He : Date_of_string cst_engine (endDate st) = Some 1732060800000)
    by (vm_compute; reflexivity).
  assert (Hn : Z.abs 1732492800000 <= maxTime) by (vm_compute; discriminate).
  repeat split; try assumption.
  destruct (validation_rejective_exclusive cst_engine 1732492800000 st _ _ Hs He Hn)
    as [[H _] _].
  apply H. vm_compute. reflexivity.
Defined.

(** ** The same-day flag *)

(** C5, as the code has it.  The same-day flag is stored before the
    validation checks run: after every submission with two calendar dates,
    accepted or rejected, it tells whether both dates have the same
    calendar-day string.  A rejected submission produces nothing else: no
    dataset, no request, the image list as it was. *)
Theorem sameDay_set_before_validation
    (eng : Engine) (today : Z) (st : State) (s e : Z) :
  Date_of_string eng (startDate st) = Some s ->
  Date_of_string eng (endDate st) = Some e ->
  exists start_iso end_iso,
    toISOString (Some s) = Some start_iso
    /\ toISOString (Some e) = Some end_iso
    /\ match handleSubmit_begin eng today st with
       | Returned st' =>
           isSameDay st' = String.eqb (split_T_0 start_iso) (split_T_0 end_iso)
           /\ historicalData st' = None
           /\ imageUrls st' = imageUrls st
       | Awaiting st' _ =>
           isSameDay st' = String.eqb (split_T_0 start_iso) (split_T_0 end_iso)
       | Threw _ => False
       end.
Proof.
  intros Hs He.
  destruct (handleSubmit_begin_valid eng today st s e Hs He)
    as (si & ei & Hsi & Hei & Hr).
  exists si, ei. split; [exact Hsi|]. split; [exact Hei|].
  rewrite Hr. cbv zeta.
  destruct (validate eng (Some s) (Some e) (TimeClip today)); cbn; auto.
Qed.

(** A rejected same-day range, 2024-11-01 to 2024-11-01. *)
Lemma sameDay_set_before_validation_witness :
  let st := sample_state "2024-11-01" "2024-11-01" None in
  Date_of_string cst_engine (startDate st) = Some 1730419200000
  /\ Date_of_string cst_engine (endDate st) = Some 1730419200000
  /\ exists start_iso end_iso,
       toISOString (Some 1730419200000) = Some start_iso
       /\ toISOString (Some 1730419200000) = Some end_iso
       /\ match handleSubmit_begin cst_engine 1732492800000 st with
          | Returned st' =>
              isSameDay st' = String.eqb (split_T_0 start_iso) (split_T_0 end_iso)
              /\ historicalData st' = None
              /\ imageUrls st' = imageUrls st
          | Awaiting st' _ =>
              isSameDay st' = String.eqb (split_T_0 start_iso) (split_T_0 end_iso)
          | Threw _ => False
          end.
Proof.
  intros st.
  assert (Hs : Date_of_string cst_engine (startDate st) = Some 1730419200000)
    by (vm_compute; reflexivity).
  assert (He : Date_of_string cst_engine (endDate st) = Some 1730419200000)
    by (vm_compute; reflexivity).
  split; [exact Hs|]. split; [exact He|].
  exact (sameDay_set_before_validation cst_engine 1732492800000 st _ _ Hs He).
Defined.

(** C5, counterexample.  A submission of 2024-11-01 to 2024-11-01 is
    rejected as too early, and yet turns the same-day flag from false to
    true. *)
Lemma rejected_submission_changes_sameDay :
  let st := sample_state "2024-11-01" "2024-11-01" None in
  exists st',
    handleSubmit_begin cst_engine 1732492800000 st = Returned st'
    /\ error st' = "Start date cannot be earlier than Thu Nov 14 2024"
    /\ isSameDay st = false
    /\ isSameDay st' = true.
Proof.
  eexists. split; [vm_compute; reflexivity|]. repeat split.
Qed.

(** ** Export without a dataset *)

Lemma header_line_join : join "," (Some <$> headers) = header_line.
Proof. vm_compute. reflexivity. Qed.

Lemma handleExport_absent (st : State) :
  historicalData st = None ->
  handleExport st = ExportRefused (setError "No data available to export" st).
Proof. intros H. unfold handleExport. rewrite H. reflexivity. Qed.

(** ** The click handler *)

(** C9, as the code has it.  A point without image clears the selection
    within the handler and starts no preload.  A point with an image leaves
    the state as it is and starts a preload.  When a preload fails, in
    whatever state [st'] the page is by then, the message "Failed to load
    the selected image." is set and the selection stays what it was:
    cleared if nothing was displayed, the displayed image otherwise. *)
Theorem click_without_image_clears_failed_load_keeps_selection
    (dataPoint : DataPoint) (st st' : State) :
  (if truthy (image_url dataPoint)
   then handleDataPointClick dataPoint st = (st, image_url dataPoint)
   else handleDataPointClick dataPoint st = (setSelectedImage None st, None)
        /\ selectedImage (fst (handleDataPointClick dataPoint st)) = None)
  /\ error (img_onerror dataPoint st') = "Failed to load the selected image."
  /\ selectedImage (img_onerror dataPoint st') = selectedImage st'
  /\ historicalData (img_onerror dataPoint st') = historicalData st'
  /\ selectedImage (img_onload dataPoint st') = or_null (image_url dataPoint).
Proof.
  split; [|repeat split].
  unfold handleDataPointClick.
  destruct (truthy (image_url dataPoint)); [reflexivity | split; reflexivity].
Qed.

(** C9, counterexample.  With an image on display, a click on a point whose
    image fails to load leaves that image displayed. *)
Lemma failed_load_keeps_displayed_image :
  let st := setSelectedImage (Some "a.png") (sample_state "2024-11-16" "2024-11-20" None) in
  let dataPoint := {| time := NaN; value := NaN; image_url := Some "b.png" |} in
  handleDataPointClick dataPoint st = (st, Some "b.png")
  /\ selectedImage (img_onerror dataPoint st) = Some "a.png"
  /\ selectedImage (img_onerror dataPoint st) <> None.
Proof. repeat split. discriminate. Qed.

(** ** Resets at submission *)

Lemma handleSubmit_begin_resets (eng : Engine) (today : Z) (st : State) :
  match handleSubmit_begin eng today st with
  | Threw st' => error st' = EmptyString /\ historicalData st' = None /\ selectedImage st' = None
  | Returned st' => historicalData st' = None /\ selectedImage st' = None
  | Awaiting st' _ => error st' = EmptyString /\ historicalData st' = None /\ selectedImage st' = None
  end.
Proof.
  unfold handleSubmit_begin.
  destruct (toISOString _); [destruct (toISOString _)|]; try (repeat split; fail).
  destruct (validate _ _ _ _); repeat split.
Qed.

(** ** The derived irradiance channel *)

Lemma lightLux_values (eng : Engine) (data : list LiveData) :
  value <$> lightLux (transformedData eng data)
  = (fun d => parseFloat (toFixed (ambientweatherlightlux d) 2)) <$> data.
Proof.
  unfold transformedData; cbn [lightLux].
  rewrite <- list_fmap_compose. reflexivity.
Qed.

Lemma solarIrradiance_values (h : HistoricalData) :
  value <$> solarIrradiance h
  = (fun v => number_mul v lux_to_irradiance) <$> (value <$> lightLux h).
Proof.
  unfold solarIrradiance. rewrite <- !list_fmap_compose. reflexivity.
Qed.

(** C2, as the code has it.  The irradiance channel has one point per
    light-lux point, with the same time and image, whose value is the lux
    value, already rounded to two decimals, times 0.0079; the product is
    not rounded again.  For a lux reading of 126.582 the lux value is
    126.58 and the irradiance value is the product 126.58 * 0.0079, the
    binary64 number 9007037125154407 * 2^-53, about 0.999982, not
    1.00. *)
Theorem irradiance_is_product_of_rounded_lux (eng : Engine) (data : list LiveData) :
  let h := transformedData eng data in
  time <$> solarIrradiance h = time <$> lightLux h
  /\ image_url <$> solarIrradiance h = image_url <$> lightLux h
  /\ value <$> solarIrradiance h
     = (fun d => number_mul (parseFloat (toFixed (ambientweatherlightlux d) 2))
                            lux_to_irradiance) <$> data
  /\ (let lux := number_of_decimal false 126582 (-3) in
      toFixed lux 2 = "126.58"
      /\ parseFloat (toFixed lux 2) = number_of_decimal false 12658 (-2)
      /\ number_mul (parseFloat (toFixed lux 2)) lux_to_irradiance
         = S754_finite false 9007037125154407 (-53)
      /\ toFixed (number_mul (parseFloat (toFixed lux 2)) lux_to_irradiance) 17
         = "0.99998200000000004").
Proof.
  intros h. split; [|split; [|split]].
  - unfold solarIrradiance. rewrite <- list_fmap_compose. reflexivity.
  - unfold solarIrradiance. rewrite <- list_fmap_compose. reflexivity.
  - rewrite solarIrradiance_values. unfold h. rewrite lightLux_values.
    rewrite <- list_fmap_compose. reflexivity.
  - cbv zeta. repeat split; vm_compute; reflexivity.
Qed.

(** C2, counterexample.  For a lux reading of 126.582 the lux value is
    126.58, but the irradiance value is not 1.00: it is the unrounded
    product, which only a further rounding to two decimals would turn
    into 1.00. *)
Lemma irradiance_of_126_582_is_not_1 :
  let d := sample_reading "2024-11-20T10:00:00.000Z"
             (number_of_decimal false 126582 (-3)) None in
  let h := transformedData cst_engine [d] in
  value <$> lightLux h = [number_of_decimal false 12658 (-2)]
  /\ value <$> solarIrradiance h = [S754_finite false 9007037125154407 (-53)]
  /\ value <$> solarIrradiance h <> [number_of_decimal false 100 (-2)]
  /\ parseFloat (toFixed (number_mul (number_of_decimal false 12658 (-2))
                                     lux_to_irradiance) 2)
     = number_of_decimal false 100 (-2).
Proof.
  vm_compute. repeat split. discriminate.
Qed.

(** ** Decimal digit strings *)

Lemma string_app_assoc (a b c : string) : (a +:+ b) +:+ c = a +:+ (b +:+ c).
Proof. induction a as [|x a IH]; cbn; [reflexivity | rewrite IH; reflexivity]. Qed.

Lemma string_app_nil_r (a : string) : a +:+ EmptyString = a.
Proof. induction a as [|x a IH]; cbn; [reflexivity | rewrite IH; reflexivity]. Qed.

Lemma string_length_app (a b : string) :
  String.length (a +:+ b) = (String.length a + String.length b)%nat.
Proof. induction a as [|x a IH]; cbn; [reflexivity | rewrite IH; reflexivity]. Qed.

Ltac digit_cases d :=
  let H := fresh in
  assert (H : d = 0 \/ d = 1 \/ d = 2 \/ d = 3 \/ d = 4 \/ d = 5 \/ d = 6
              \/ d = 7 \/ d = 8 \/ d = 9) by lia;
  repeat (destruct H as [H|H]; [rewrite H|]); [..|rewrite H].

Lemma digit_value_char (d : Z) :
  0 <= d < 10 -> digit_value (digit_char d) = Some d.
Proof. intros Hd. digit_cases d; reflexivity. Qed.

Lemma pow10_succ (k : nat) : 10 ^ Z.of_nat (S k) = 10 ^ Z.of_nat k * 10.
Proof. rewrite Nat2Z.inj_succ, Z.pow_succ_r by lia. lia. Qed.

Lemma pow10_pos (k : nat) : 0 < 10 ^ Z.of_nat k.
Proof. apply Z.pow_pos_nonneg; lia. Qed.

Lemma pad_digits_head (k : nat) (n : Z) :
  pad_digits (S k) n
  = String (digit_char ((n / 10 ^ Z.of_nat k) mod 10)) (pad_digits k n).
Proof.
  revert n. induction k as [|k IH]; intros n.
  - cbn. rewrite Z.div_1_r. reflexivity.
  - change (pad_digits (S (S k)) n)
      with (pad_digits (S k) (n / 10) +:+ String (digit_char (n mod 10)) EmptyString).
    rewrite IH. cbn [String.append]. f_equal.
    rewrite Z.div_div by (try lia; apply pow10_pos).
    rewrite pow10_succ. do 3 f_equal. lia.
Qed.

Lemma string_length_pad_digits (k : nat) (n : Z) :
  String.length (pad_digits k n) = k.
Proof.
  induction k as [|k IH]; [reflexivity|].
  rewrite pad_digits_head. cbn. rewrite IH. reflexivity.
Qed.

Lemma read_digits_pad (k : nat) (n : Z) (rest : string) (acc : Z) (cnt : nat) :
  read_digits (pad_digits k n +:+ rest) acc cnt
  = read_digits rest (acc * 10 ^ Z.of_nat k + n mod 10 ^ Z.of_nat k) (cnt + k).
Proof.
  revert acc cnt. induction k as [|k IH]; intros acc cnt.
  - cbn [pad_digits String.append]. rewrite Z.mod_1_r, Nat.add_0_r.
    f_equal. change (10 ^ Z.of_nat 0) with 1. lia.
  - rewrite pad_digits_head. cbn [String.append read_digits].
    rewrite digit_value_char by (apply Z.mod_pos_bound; lia).
    rewrite IH. f_equal; [|lia].
    rewrite pow10_succ.
    rewrite (Z.rem_mul_r n (10 ^ Z.of_nat k) 10)
      by (try lia; pose proof (pow10_pos k); lia).
    lia.
Qed.

Lemma count_digits_pos (fuel : nat) (n : Z) :
  exists k, count_digits fuel n = S k.
Proof. destruct fuel; cbn; [eauto|]. destruct (n <? 10); eauto. Qed.

Lemma count_digits_bound (fuel : nat) (n : Z) :
  0 <= n < 2 ^ (Z.of_nat fuel + 1) ->
  n < 10 ^ Z.of_nat (count_digits fuel n).
Proof.
  revert n. induction fuel as [|fuel IH]; intros n Hn.
  - cbn in *. lia.
  - cbn [count_digits]. destruct (Z.ltb_spec n 10) as [H|H].
    + cbn. lia.
    + rewrite pow10_succ.
      assert (H2 : 2 ^ (Z.of_nat (S fuel) + 1) = 2 * 2 ^ (Z.of_nat fuel + 1)).
      { replace (Z.of_nat (S fuel) + 1) with (Z.succ (Z.of_nat fuel + 1)) by lia.
        apply Z.pow_succ_r. lia. }
      assert (Hq : n / 10 < 10 ^ Z.of_nat (count_digits fuel (n / 10))).
      { apply IH. split; [apply Z.div_pos; lia|].
        apply Z.div_lt_upper_bound; lia. }
      pose proof (Z.div_mod n 10 ltac:(lia)).
      pose proof (Z.mod_pos_bound n 10 ltac:(lia)). lia.
Qed.

Lemma num_digits_bound (n : Z) : 0 <= n -> n < 10 ^ Z.of_nat (num_digits n).
Proof.
  intros Hn. apply count_digits_bound. split; [exact Hn|].
  destruct (Z.eq_dec n 0) as [->|Hz].
  - cbn. lia.
  - rewrite Z2Nat.id by apply Z.log2_nonneg.
    rewrite Z.add_1_r. apply Z.log2_spec. lia.
Qed.

Lemma num_digits_pos (n : Z) : exists k, num_digits n = S k.
Proof. apply count_digits_pos. Qed.

(** Reading back the digits of [n]. *)
Lemma read_digits_digits10 (n : Z) (rest : string) (acc : Z) (cnt : nat) :
  0 <= n ->
  read_digits (digits10 n +:+ rest) acc cnt
  = read_digits rest (acc * 10 ^ Z.of_nat (num_digits n) + n) (cnt + num_digits n).
Proof.
  intros Hn. unfold digits10. rewrite read_digits_pad.
  rewrite Z.mod_small by (split; [exact Hn | apply num_digits_bound, Hn]).
  reflexivity.
Qed.

Lemma digit_headed_digits10 (n : Z) (rest : string) :
  digit_headed (digits10 n +:+ rest).
Proof.
  unfold digits10. destruct (num_digits_pos n) as [k ->].
  rewrite pad_digits_head. cbn [String.append].
  eexists _, _. split; [|reflexivity]. apply Z.mod_pos_bound. lia.
Qed.

Lemma digit_headed_parse (s : string) :
  digit_headed s ->
  trim_start s = s
  /\ trim_start (String "-" s) = String "-" s
  /\ read_sign s = (false, s)
  /\ String.prefix "Infinity" s = false.
Proof.
  intros (d & r & Hd & ->). digit_cases d; repeat split.
Qed.

(** ** [parseFloat] after [toFixed] *)

Lemma parseFloat_digit_headed (neg : bool) (X : string) :
  digit_headed X ->
  parseFloat ((if neg then "-" else EmptyString) +:+ X)
  = let '(i, ic, s1) := read_digits X 0 0 in
    let '(m, fc, s2) :=
      match s1 with
      | String "." r => read_digits r i 0
      | _ => (i, O, s1)
      end in
    match (ic + fc)%nat with
    | O => NaN
    | _ => number_of_decimal neg m (read_exponent s2 - Z.of_nat fc)
    end.
Proof.
  intros HX. destruct (digit_headed_parse X HX) as (Ht & Htm & Hs & Hp).
  unfold parseFloat. destruct neg.
  - change ("-" +:+ X) with (String "-" X). rewrite Htm.
    change (read_sign (String "-" X)) with (true, X).
    cbv beta iota zeta. rewrite Hp. reflexivity.
  - change (EmptyString +:+ X) with X. rewrite Ht, Hs.
    cbv beta iota zeta. rewrite Hp. reflexivity.
Qed.


Lemma read_digits_stop (c : ascii) (r : string) (acc : Z) (cnt : nat) :
  digit_value c = None ->
  read_digits (String c r) acc cnt = (acc, cnt, String c r).
Proof. intros H. cbn [read_digits]. rewrite H. reflexivity. Qed.

(** Parsing a sign, the digits of [a], a point and [f + 1] further
    digits. *)
Lemma parseFloat_fixed (neg : bool) (a b : Z) (f : nat) :
  0 <= a ->
  parseFloat ((if neg then "-" else EmptyString)
              +:+ digits10 a +:+ "." +:+ pad_digits (S f) b)
  = number_of_decimal neg
      (a * 10 ^ Z.of_nat (S f) + b mod 10 ^ Z.of_nat (S f))
      (- Z.of_nat (S f)).
Proof.
  intros Ha.
  rewrite parseFloat_digit_headed by apply digit_headed_digits10.
  rewrite read_digits_digits10 by exact Ha.
  change ("." +:+ pad_digits (S f) b) with (String "." (pad_digits (S f) b)).
  rewrite read_digits_stop by reflexivity.
  cbv beta iota zeta.
  rewrite <- (string_app_nil_r (pad_digits (S f) b)) at 1.
  rewrite read_digits_pad.
  change (read_digits EmptyString ?acc ?cnt) with (acc, cnt, EmptyString).
  cbv beta iota zeta.
  destruct (num_digits_pos a) as [k ->].
  change (read_exponent EmptyString) with 0.
  cbn [Nat.add]. f_equal; lia.
Qed.

Lemma exact_abs_pos (x : number) :
  0 <= fst (exact_abs x) /\ 0 < snd (exact_abs x).
Proof.
  destruct x as [| | |s m e]; unfold exact_abs; cbn [fst snd]; try lia.
  destruct (Z.leb_spec 0 e); cbn [fst snd]; split; try lia;
    try (apply Z.mul_nonneg_nonneg; [lia | apply Z.pow_nonneg; lia]);
    try (apply Z.pow_pos_nonneg; lia).
Qed.

Lemma round_half_up_div_nearest (a b : Z) :
  0 <= a -> 0 < b ->
  let n := round_half_up_div a b in
  0 <= n /\ b * (2 * n - 1) <= 2 * a < b * (2 * n + 1).
Proof.
  intros Ha Hb n. unfold round_half_up_div in n.
  pose proof (Z.div_mod (2 * a + b) (2 * b) ltac:(lia)) as Hdm.
  pose proof (Z.mod_pos_bound (2 * a + b) (2 * b) ltac:(lia)) as Hmod.
  fold n in Hdm.
  assert (0 <= n) by (apply Z.div_pos; lia).
  split; [assumption|]. nia.
Qed.

(** The result of [toFixed(2)] below 10^21, and its value. *)
Lemma toFixed_2_decimal (x : number) :
  isFinite x = true -> below_1e21 x = true ->
  exists n,
    0 <= n
    /\ nearest_hundredths x n
    /\ toFixed x 2
       = (if is_negative x then "-" else EmptyString)
         +:+ digits10 (n / 100) +:+ "." +:+ pad_digits 2 n
    /\ parseFloat (toFixed x 2) = number_of_decimal (is_negative x) n (-2).
Proof.
  intros Hfin Hlt.
  destruct (exact_abs_pos x) as [Hnum Hden].
  unfold toFixed, below_1e21, nearest_hundredths in *.
  rewrite Hfin. cbn [negb].
  destruct (exact_abs x) as [num den]. cbn [fst snd] in *.
  apply Z.ltb_lt in Hlt.
  destruct (Z.leb_spec (10 ^ 21 * den) num) as [C|_]; [lia|].
  change (10 ^ Z.of_nat 2) with 100.
  destruct (round_half_up_div_nearest (num * 100) den ltac:(lia) Hden)
    as [Hn Hnear].
  set (n := round_half_up_div (num * 100) den) in *.
  exists n. split; [exact Hn|]. split; [lia|].
  assert (Hstr : fixed_digits n 2 = digits10 (n / 100) +:+ "." +:+ pad_digits 2 n)
    by reflexivity.
  rewrite Hstr. split; [reflexivity|].
  rewrite parseFloat_fixed by (apply Z.div_pos; lia).
  change (10 ^ Z.of_nat 2) with 100. f_equal.
  pose proof (Z.div_mod n 100 ltac:(lia)). lia.
Qed.

(** ** Numbers of magnitude 10^21 or more *)

Lemma digits2_pos_bound (m : positive) : Zpos m < 2 ^ Zpos (digits2_pos m).
Proof.
  induction m as [m IH|m IH|]; cbn [digits2_pos].
  - rewrite Pos2Z.inj_succ, Z.pow_succ_r by lia. lia.
  - rewrite Pos2Z.inj_succ, Z.pow_succ_r by lia. lia.
  - reflexivity.
Qed.

Lemma digits2_pos_iter (m p : positive) :
  digits2_pos (Pos.iter xO m p) = (digits2_pos m + p)%positive.
Proof.
  induction p as [|p IH] using Pos.peano_ind.
  - cbn. rewrite Pos.add_1_r. reflexivity.
  - rewrite Pos.iter_succ. cbn [digits2_pos]. rewrite IH. lia.
Qed.

Lemma Zpos_mul_pow2 (m p : positive) :
  Zpos m * 2 ^ Zpos p = Zpos (Pos.iter xO m p).
Proof.
  induction p as [|p IH] using Pos.peano_ind.
  - cbn. lia.
  - rewrite Pos.iter_succ, Pos2Z.inj_succ, Z.pow_succ_r by lia.
    rewrite (Pos2Z.inj_xO (Pos.iter xO m p)), <- IH. lia.
Qed.

Lemma iter_pos_shr_1_exact (p m : positive) :
  SpecFloat.iter_pos shr_1 p
    {| shr_m := Zpos (Pos.iter xO m p); shr_r := false; shr_s := false |}
  = {| shr_m := Zpos m; shr_r := false; shr_s := false |}.
Proof.
  revert m. induction p as [p IH|p IH|]; intros m; cbn [SpecFloat.iter_pos Pos.iter].
  - cbn [shr_1 orb]. rewrite IH, IH. reflexivity.
  - rewrite IH, IH. reflexivity.
  - reflexivity.
Qed.

Lemma canonical_fexp (m : positive) (e : Z) :
  bounded prec emax m e = true ->
  fexp prec emax (Zpos (digits2_pos m) + e) = e /\ e <= emax - prec.
Proof.
  unfold bounded, canonical_mantissa. intros H.
  apply andb_true_iff in H as [H1 H2].
  apply Z.eqb_eq in H1. apply Z.leb_le in H2. auto.
Qed.

Lemma binary_round_exact (m M : positive) (e : Z) :
  bounded prec emax m e = true ->
  Zpos M = Zpos m * 2 ^ e -> 0 <= e ->
  binary_round prec emax false M 0 = S754_finite false m e.
Proof.
  intros Hb HM He.
  destruct (canonical_fexp m e Hb) as [Hf Hmax].
  assert (HMm : (e = 0 /\ M = m) \/ exists p, e = Zpos p /\ M = Pos.iter xO m p).
  { destruct e as [|p|p]; [left|right|lia].
    - split; [reflexivity|]. rewrite Z.pow_0_r, Z.mul_1_r in HM. congruence.
    - exists p. split; [reflexivity|]. rewrite Zpos_mul_pow2 in HM. congruence. }
  assert (HdM : Zpos (digits2_pos M) = Zpos (digits2_pos m) + e).
  { destruct HMm as [[-> ->]|(p & -> & ->)]; [lia|].
    rewrite digits2_pos_iter. lia. }
  unfold binary_round.
  rewrite Z.add_0_r, HdM, Hf.
  assert (Hal : shl_align M 0 e = (M, 0)).
  { unfold shl_align. rewrite Z.sub_0_r. destruct e; try reflexivity. lia. }
  rewrite Hal. unfold binary_round_aux, shr_fexp.
  cbn [Zdigits2 shr_record_of_loc]. rewrite Z.add_0_r, HdM, Hf, Z.sub_0_r.
  assert (Hshr : shr {| shr_m := Zpos M; shr_r := false; shr_s := false |} 0 e
                 = ({| shr_m := Zpos m; shr_r := false; shr_s := false |}, e)).
  { destruct HMm as [[-> ->]|(p & -> & ->)]; [reflexivity|].
    unfold shr. rewrite iter_pos_shr_1_exact. reflexivity. }
  rewrite Hshr. cbn [shr_m loc_of_shr_record round_nearest_even Zdigits2 shr_record_of_loc].
  rewrite Hf, Z.sub_diag. cbn [shr shr_m].
  destruct (Z.leb_spec e (emax - prec)); [reflexivity | lia].
Qed.

Lemma binary_round_aux_sign (s0 s1 : bool) (mx ex : Z) (lx : location)
    (s' : bool) (m : positive) (e : Z) :
  binary_round_aux prec emax s0 mx ex lx = S754_finite s' m e ->
  s' = s0 /\ binary_round_aux prec emax s1 mx ex lx = S754_finite s1 m e.
Proof.
  unfold binary_round_aux.
  destruct (shr_fexp prec emax mx ex lx) as [mrs' e'].
  destruct (shr_fexp prec emax _ e' loc_Exact) as [mrs'' e''].
  destruct (shr_m mrs''); try discriminate.
  destruct (e'' <=? emax - prec); [|discriminate].
  intros H; inversion H; subst. auto.
Qed.

Lemma number_of_decimal_sign (sg : bool) (d p : Z) (m : positive) (e : Z) :
  number_of_decimal false d p = S754_finite false m e ->
  number_of_decimal sg d p = S754_finite sg m e.
Proof.
  unfold number_of_decimal.
  destruct (d <=? 0); [discriminate|].
  destruct (0 <=? p).
  - destruct (d * 10 ^ p) as [|M|M]; cbn [binary_normalize]; [discriminate|..];
      unfold binary_round; intros H.
    + destruct sg;
        [change (- Z.pos M) with (Z.neg M)|];
        unfold binary_normalize, binary_round;
        destruct (shl_align M 0 _) as [mz ez];
        apply (binary_round_aux_sign _ _ _ _ _ _ _ _ H).
    + destruct (shl_align M 0 _) as [mz ez].
      apply (binary_round_aux_sign _ sg) in H as [H _]. discriminate.
  - destruct (SFdiv_core_binary prec emax d 0 (10 ^ (- p)) 0) as [[q e'] l].
    intros H. apply (binary_round_aux_sign _ sg) in H as [_ H]. exact H.
Qed.

Lemma SFeqb_finite (y : number) (m : positive) (e : Z) :
  SFeqb y (S754_finite false m e) = true -> y = S754_finite false m e.
Proof.
  unfold SFeqb, SFcompare.
  destruct y as [s|s| |s m' e']; try (destruct s; discriminate); try discriminate.
  destruct s; [discriminate|].
  destruct (Z.compare_spec e' e) as [->|_|_]; try discriminate.
  destruct (Pos.compare_cont Eq m' m) eqn:C; try discriminate.
  apply Pos.compare_eq in C. subst. reflexivity.
Qed.

Lemma number_of_decimal_power (k p : Z) :
  0 <= k -> 0 <= p ->
  number_of_decimal false 1 (p + k) = number_of_decimal false (10 ^ k) p.
Proof.
  intros Hk Hp. unfold number_of_decimal.
  assert (H10 : 0 < 10 ^ k) by (apply Z.pow_pos_nonneg; lia).
  destruct (Z.leb_spec 1 0); [lia|].
  destruct (Z.leb_spec (10 ^ k) 0); [lia|].
  destruct (Z.leb_spec 0 (p + k)); [|lia].
  destruct (Z.leb_spec 0 p); [|lia].
  f_equal. rewrite Z.pow_add_r by lia. lia.
Qed.

Lemma shortest_from_sound (fuel : nat) (k n X : Z) (m : positive) (e : Z)
    (s p : Z) :
  0 <= k ->
  shortest_from fuel k n X (S754_finite false m e) = Some (s, p) ->
  number_of_decimal false s p = S754_finite false m e /\ 0 <= p.
Proof.
  revert k. induction fuel as [|fuel IH]; intros k Hk; [discriminate|].
  cbn [shortest_from]. cbv zeta.
  destruct (Z.leb_spec 0 (n - k)) as [Hp|Hp]; cbn [andb].
  - destruct (SFeqb (number_of_decimal false (X / 10 ^ (n - k)) (n - k)) _) eqn:Hlo;
      cbn [andb].
    + destruct (_ || _); cbn [andb].
      * intros H; inversion H; subst. split; [apply SFeqb_finite, Hlo | exact Hp].
      * destruct (SFeqb (number_of_decimal false (X / 10 ^ (n - k) + 1) (n - k)) _) eqn:Hhi.
        -- apply SFeqb_finite in Hhi.
           destruct (Z.eqb_spec (X / 10 ^ (n - k) + 1) (10 ^ k)) as [E|E];
             intros H; inversion H; subst.
           ++ rewrite number_of_decimal_power by lia. rewrite <- E.
              split; [exact Hhi | lia].
           ++ split; [exact Hhi | exact Hp].
        -- apply IH. lia.
    + destruct (SFeqb (number_of_decimal false (X / 10 ^ (n - k) + 1) (n - k)) _) eqn:Hhi.
      * apply SFeqb_finite in Hhi.
        destruct (Z.eqb_spec (X / 10 ^ (n - k) + 1) (10 ^ k)) as [E|E];
          intros H; inversion H; subst.
        -- rewrite number_of_decimal_power by lia. rewrite <- E.
           split; [exact Hhi | lia].
        -- split; [exact Hhi | exact Hp].
      * apply IH. lia.
  - apply IH. lia.
Qed.

(** The decimal chosen for a number of magnitude 10^21 or more reads back
    as its magnitude. *)
Lemma shortest_decimal_sound (m : positive) (e : Z) :
  bounded prec emax m e = true -> 0 <= e ->
  let '(s, p) := shortest_decimal (Zpos m * 2 ^ e) (S754_finite false m e) in
  number_of_decimal false s p = S754_finite false m e /\ 0 <= p.
Proof.
  intros Hb He. unfold shortest_decimal.
  destruct (shortest_from 17 1 _ _ _) as [[s p]|] eqn:Hs.
  - eapply shortest_from_sound; [|exact Hs]. lia.
  - split; [|lia]. unfold number_of_decimal.
    assert (HM : 0 < Zpos m * 2 ^ e)
      by (apply Z.mul_pos_pos; [lia | apply Z.pow_pos_nonneg; lia]).
    destruct (Z.leb_spec (Zpos m * 2 ^ e) 0); [lia|].
    cbn [Z.leb Z.compare]. rewrite Z.pow_0_r, Z.mul_1_r.
    destruct (Zpos m * 2 ^ e) as [|M|M] eqn:EM; try lia.
    cbn [binary_normalize]. apply binary_round_exact; auto.
Qed.

Lemma read_exponent_plus (E : Z) :
  0 <= E -> read_exponent ("e+" +:+ digits10 E) = E.
Proof.
  intros HE.
  change ("e+" +:+ digits10 E) with (String "e" (String "+" (digits10 E))).
  unfold read_exponent.
  change (Ascii.eqb "e" "e" || Ascii.eqb "e" "E")%bool with true.
  cbv iota.
  change (read_sign (String "+" (digits10 E))) with (false, digits10 E).
  cbv iota beta.
  rewrite <- (string_app_nil_r (digits10 E)).
  rewrite read_digits_digits10 by exact HE.
  change (read_digits EmptyString ?a ?c) with (a, c, EmptyString).
  destruct (num_digits_pos E) as [k ->].
  cbv iota beta. cbn [Nat.add]. cbv iota. lia.
Qed.

Lemma exponential_form_eq (s p : Z) (j : nat) :
  num_digits s = S j ->
  exponential_form s p
  = String (digit_char ((s / 10 ^ Z.of_nat j) mod 10))
      (match j with
       | O => "e+" +:+ digits10 (p + Z.of_nat (S j) - 1)
       | S _ => "." +:+ pad_digits j s +:+ "e+"
                +:+ digits10 (p + Z.of_nat (S j) - 1)
       end).
Proof.
  intros Hj.
  assert (Hds : digits10 s = pad_digits (S j) s)
    by (unfold digits10; rewrite Hj; reflexivity).
  unfold exponential_form. cbv zeta.
  rewrite Hds, string_length_pad_digits. rewrite (pad_digits_head j).
  destruct j as [|j]; [reflexivity|].
  rewrite (pad_digits_head j). reflexivity.
Qed.

(** Parsing the exponential form of [s × 10^p]. *)
Lemma parseFloat_exponential (sg : bool) (s p : Z) :
  0 < s -> 0 <= p ->
  parseFloat ((if sg then "-" else EmptyString) +:+ exponential_form s p)
  = number_of_decimal sg s p.
Proof.
  intros Hs Hp.
  destruct (num_digits_pos s) as [j Hj].
  pose proof (num_digits_bound s ltac:(lia)) as Hb. rewrite Hj in Hb.
  rewrite pow10_succ in Hb.
  pose proof (pow10_pos j) as Hj10.
  assert (Hq : 0 <= s / 10 ^ Z.of_nat j < 10).
  { split; [apply Z.div_pos; lia | apply Z.div_lt_upper_bound; lia]. }
  rewrite (exponential_form_eq s p j Hj).
  rewrite parseFloat_digit_headed
    by (eexists _, _; split; [|reflexivity]; apply Z.mod_pos_bound; lia).
  cbn [read_digits].
  rewrite digit_value_char by (apply Z.mod_pos_bound; lia).
  rewrite Z.mod_small by exact Hq.
  destruct j as [|j].
  - change ("e+" +:+ ?E) with (String "e" (String "+" E)).
    rewrite read_digits_stop by reflexivity.
    cbv beta iota zeta.
    change (String "e" (String "+" ?E)) with ("e+" +:+ E).
    rewrite read_exponent_plus by lia.
    cbn [Nat.add]. cbv iota.
    change (10 ^ Z.of_nat 0) with 1 in *. rewrite Z.div_1_r in *.
    f_equal; lia.
  - change ("." +:+ ?R) with (String "." R).
    rewrite read_digits_stop by reflexivity.
    cbv beta iota zeta.
    rewrite read_digits_pad.
    change ("e+" +:+ ?E) with (String "e" (String "+" E)).
    rewrite read_digits_stop by reflexivity.
    cbv beta iota zeta.
    change (String "e" (String "+" ?E)) with ("e+" +:+ E).
    rewrite read_exponent_plus by lia.
    cbn [Nat.add]. cbv iota.
    pose proof (Z.div_mod s (10 ^ Z.of_nat (S j)) ltac:(lia)).
    f_equal; lia.
Qed.

(** A finite binary64 number of magnitude 10^21 or more has a
    non-negative exponent: it is an integer. *)
Lemma large_is_integer (sg : bool) (m : positive) (e : Z) :
  bounded prec emax m e = true ->
  below_1e21 (S754_finite sg m e) = false ->
  0 <= e.
Proof.
  intros Hb Hl. destruct (canonical_fexp m e Hb) as [Hf _].
  unfold below_1e21, exact_abs in Hl.
  destruct (Z.leb_spec 0 e) as [|He]; [assumption|exfalso].
  apply Z.ltb_ge in Hl.
  pose proof (digits2_pos_bound m) as Hm.
  unfold fexp, emin, prec, emax in Hf.
  assert (Hd : Zpos (digits2_pos m) <= 53) by lia.
  assert (H53 : 2 ^ Zpos (digits2_pos m) <= 2 ^ 53)
    by (apply Z.pow_le_mono_r; lia).
  assert (Hpow : 0 < 2 ^ (- e)) by (apply Z.pow_pos_nonneg; lia).
  assert (10 ^ 21 <= 10 ^ 21 * 2 ^ (- e)) by lia.
  assert (2 ^ 53 < 10 ^ 21) by reflexivity.
  lia.
Qed.

(** [parseFloat(x.toFixed(2))] for a number of magnitude 10^21 or more. *)
Lemma toFixed_large_roundtrip (x : number) (f : nat) :
  valid_number x -> isFinite x = true -> below_1e21 x = false ->
  parseFloat (toFixed x f) = x /\ snd (exact_abs x) = 1.
Proof.
  intros Hv Hfin Hl.
  destruct x as [s|s| |sg m e]; try discriminate.
  unfold valid_number, valid_binary in Hv.
  pose proof (large_is_integer sg m e Hv Hl) as He.
  assert (Hea : exact_abs (S754_finite sg m e) = (Zpos m * 2 ^ e, 1)).
  { unfold exact_abs. destruct (Z.leb_spec 0 e); [reflexivity | lia]. }
  split; [|rewrite Hea; reflexivity].
  unfold toFixed. cbn [isFinite negb].
  unfold below_1e21 in Hl. rewrite Hea in *.
  apply Z.ltb_ge in Hl.
  destruct (Z.leb_spec (10 ^ 21 * 1) (Zpos m * 2 ^ e)); [|lia].
  unfold Number_toString_large. rewrite Hea. cbn [fst SFabs].
  pose proof (shortest_decimal_sound m e Hv He) as Hsd.
  destruct (shortest_decimal _ _) as [s p]. destruct Hsd as [Hrb Hp].
  assert (Hs : 0 < s).
  { destruct (Z.leb_spec s 0) as [C|C]; [|exact C].
    unfold number_of_decimal in Hrb.
    destruct (Z.leb_spec s 0); [discriminate | lia]. }
  rewrite parseFloat_exponential by assumption.
  apply number_of_decimal_sign, Hrb.
Qed.

(** ** Rounding of the scalars *)

(** [parseFloat(x.toFixed(2))] is [x] rounded to two decimals, half away
    from zero. *)
Lemma parseFloat_toFixed_2_rounded (x : number) :
  valid_number x -> rounded_2dp x (parseFloat (toFixed x 2)).
Proof.
  intros Hv.
  destruct (isFinite x) eqn:Hfin.
  - destruct (below_1e21 x) eqn:Hb.
    + destruct (toFixed_2_decimal x Hfin Hb) as (n & _ & Hn & _ & ->).
      apply rounded_decimal; assumption.
    + destruct (toFixed_large_roundtrip x 2 Hv Hfin Hb) as [-> Hden].
      apply rounded_integer; assumption.
  - destruct x as [s|s| |s m e]; try discriminate.
    + replace (parseFloat (toFixed (S754_infinity s) 2)) with (S754_infinity s)
        by (destruct s; vm_compute; reflexivity).
      apply rounded_infinity; [reflexivity | discriminate].
    + replace (parseFloat (toFixed S754_nan 2)) with NaN
        by (vm_compute; reflexivity).
      apply rounded_nan. reflexivity.
Qed.

Lemma valid_reading_metric (d : LiveData) (f : LiveData -> number) :
  valid_reading d -> f ∈ metrics -> valid_number (f d).
Proof.
  unfold valid_reading. rewrite Forall_forall. intros H Hf. apply H, Hf.
Qed.

Lemma rounded_channel (data : list LiveData) (f : LiveData -> number)
    (g : LiveData -> DataPoint) :
  Forall valid_reading data -> f ∈ metrics ->
  (forall d, value (g d) = parseFloat (toFixed (f d) 2)) ->
  Forall2 (fun d p => rounded_2dp (f d) (value p)) data (g <$> data).
Proof.
  intros Hv Hf Hg. apply Forall2_fmap_r, Forall_Forall2_diag.
  eapply Forall_impl; [exact Hv|]. intros d Hd. cbn.
  rewrite Hg. apply parseFloat_toFixed_2_rounded.
  apply valid_reading_metric; assumption.
Qed.

(** C8. For every reading with binary64 scalars and each of the twelve
    metrics, the value of the point is the scalar rounded to two decimal
    places, half away from zero. *)
Theorem point_values_rounded_half_away (eng : Engine) (data : list LiveData) :
  Forall valid_reading data ->
  Forall2 (fun f c => Forall2 (fun d p => rounded_2dp (f d) (value p)) data c)
          metrics (channels (transformedData eng data)).
Proof.
  intros Hv. unfold metrics, channels, transformedData.
  cbn [temperature humidity pressure windMaxSpeed windSpeed windDirection
       ambientTemp ambientHumidity rain uv uvi lightLux].
  repeat (constructor;
          [apply rounded_channel;
           [exact Hv
           |unfold metrics;
            repeat first [apply list_elem_of_here | apply list_elem_of_further]
           |reflexivity]|]).
  constructor.
Qed.

(** One reading with a light level of 126.582 lux. *)
Lemma point_values_rounded_half_away_witness :
  let d := sample_reading "2024-11-20T10:00:00.000Z"
             (number_of_decimal false 126582 (-3)) None in
  Forall valid_reading [d]
  /\ Forall2 (fun f c => Forall2 (fun d p => rounded_2dp (f d) (value p)) [d] c)
             metrics (channels (transformedData cst_engine [d])).
Proof.
  intros d.
  assert (Hv : Forall valid_reading [d]).
  { repeat constructor. }
  split; [exact Hv|].
  exact (point_values_rounded_half_away cst_engine [d] Hv).
Defined.

(** ** Lines of the exported document *)

Lemma no_line_feed_app (a b : string) :
  no_line_feed (a +:+ b) = no_line_feed a && no_line_feed b.
Proof.
  induction a as [|c a IH]; cbn; [reflexivity|].
  rewrite IH. apply andb_assoc.
Qed.

Lemma no_line_feed_pad_digits (k : nat) (n : Z) :
  no_line_feed (pad_digits k n) = true.
Proof.
  induction k as [|k IH]; [reflexivity|].
  rewrite pad_digits_head. cbn [no_line_feed]. rewrite IH, andb_true_r.
  pose proof (Z.mod_pos_bound (n / 10 ^ Z.of_nat k) 10 ltac:(lia)) as Hd.
  set (d := (n / 10 ^ Z.of_nat k) mod 10) in *.
  digit_cases d; reflexivity.
Qed.

Lemma no_line_feed_digits10 (n : Z) : no_line_feed (digits10 n) = true.
Proof. apply no_line_feed_pad_digits. Qed.

Lemma no_line_feed_exponential_form (s p : Z) :
  no_line_feed (exponential_form s p) = true.
Proof.
  unfold exponential_form. cbv zeta.
  pose proof (no_line_feed_digits10 s) as Hs.
  generalize (no_line_feed_digits10 (p + Z.of_nat (String.length (digits10 s)) - 1)).
  generalize (digits10 (p + Z.of_nat (String.length (digits10 s)) - 1)).
  intros E HE.
  destruct (digits10 s) as [|c rest]; [reflexivity|].
  cbn [no_line_feed] in Hs. apply andb_true_iff in Hs as [Hc Hr].
  destruct rest as [|c' r]; cbv beta iota; cbn [no_line_feed];
    rewrite Hc, !no_line_feed_app.
  - rewrite HE. reflexivity.
  - rewrite Hr, HE. reflexivity.
Qed.

Lemma no_line_feed_Number_toString_large (x : number) :
  no_line_feed (Number_toString_large x) = true.
Proof.
  destruct x as [s|s| |s m e]; try (try destruct s; reflexivity).
  unfold Number_toString_large. destruct (shortest_decimal _ _) as [d p].
  rewrite no_line_feed_app, no_line_feed_exponential_form.
  destruct s; reflexivity.
Qed.

Lemma no_line_feed_toFixed (x : number) (f : nat) :
  no_line_feed (toFixed x f) = true.
Proof.
  unfold toFixed. destruct (negb (isFinite x));
    [apply no_line_feed_Number_toString_large|].
  destruct (exact_abs x) as [num den].
  destruct (10 ^ 21 * den <=? num);
    [apply no_line_feed_Number_toString_large|].
  rewrite no_line_feed_app.
  assert (Hf : forall n, no_line_feed (fixed_digits n f) = true).
  { intros n. destruct f as [|f]; [apply no_line_feed_digits10|].
    unfold fixed_digits. rewrite !no_line_feed_app.
    rewrite no_line_feed_digits10, no_line_feed_pad_digits. reflexivity. }
  rewrite Hf. destruct (is_negative x); reflexivity.
Qed.

Lemma no_line_feed_cell (v : option number) :
  no_line_feed (default EmptyString (cell v)) = true.
Proof. destruct v; cbn; [apply no_line_feed_toFixed | reflexivity]. Qed.

Lemma no_line_feed_toISOString (d : Date) (iso : string) :
  toISOString d = Some iso -> no_line_feed iso = true.
Proof.
  destruct d as [t|]; [|discriminate]. unfold toISOString.
  intros H. apply (inj Some) in H. rewrite <- H. clear H iso.
  assert (Hy : no_line_feed (iso_year_string (YearFromTime t)) = true).
  { unfold iso_year_string. destruct (_ && _).
    - apply no_line_feed_pad_digits.
    - rewrite no_line_feed_app, no_line_feed_pad_digits.
      destruct (_ <? _); reflexivity. }
  rewrite !no_line_feed_app, Hy, !no_line_feed_pad_digits. reflexivity.
Qed.

Lemma no_line_feed_join_comma (cells : list (option string)) :
  Forall (fun c => no_line_feed (default EmptyString c) = true) cells ->
  no_line_feed (join "," cells) = true.
Proof.
  induction 1 as [|c cells Hc Hcells IH]; [reflexivity|].
  destruct cells as [|c' cells]; [exact Hc|].
  change (join "," (c :: c' :: cells))
    with (default EmptyString c +:+ "," +:+ join "," (c' :: cells)).
  rewrite !no_line_feed_app, Hc, IH. reflexivity.
Qed.

Lemma lines_from_no_line_feed (cur s : string) :
  no_line_feed s = true -> lines_from cur s = [cur +:+ s].
Proof.
  revert cur. induction s as [|c s IH]; intros cur Hs.
  - cbn. rewrite string_app_nil_r. reflexivity.
  - cbn [no_line_feed] in Hs. apply andb_true_iff in Hs as [Hc Hs].
    cbn [lines_from]. apply negb_true_iff in Hc. rewrite Hc.
    rewrite IH by exact Hs. rewrite string_app_assoc. reflexivity.
Qed.

Lemma lines_from_line (cur a rest : string) :
  no_line_feed a = true ->
  lines_from cur (a +:+ newline +:+ rest) = (cur +:+ a) :: lines_from EmptyString rest.
Proof.
  revert cur. induction a as [|c a IH]; intros cur Ha.
  - cbn. rewrite string_app_nil_r. reflexivity.
  - cbn [no_line_feed] in Ha. apply andb_true_iff in Ha as [Hc Ha].
    cbn [String.append lines_from]. apply negb_true_iff in Hc. rewrite Hc.
    rewrite IH by exact Ha. rewrite string_app_assoc. reflexivity.
Qed.

(** Joining lines without line feeds and splitting again. *)
Lemma lines_join_newline (l : string) (ls : list string) :
  Forall (fun x => no_line_feed x = true) (l :: ls) ->
  lines (join newline (Some <$> (l :: ls))) = l :: ls.
Proof.
  revert l. induction ls as [|l' ls IH]; intros l Hall.
  - apply Forall_cons in Hall as [Hl _]. cbn [fmap list_fmap join default].
    unfold lines. rewrite lines_from_no_line_feed by exact Hl. reflexivity.
  - apply Forall_cons in Hall as [Hl Hall].
    change (join newline (Some <$> l :: l' :: ls))
      with (l +:+ newline +:+ join newline (Some <$> (l' :: ls))).
    unfold lines. rewrite lines_from_line by exact Hl.
    fold (lines (join newline (Some <$> l' :: ls))).
    rewrite IH by exact Hall. reflexivity.
Qed.

(** ** The exported document *)

Lemma dataPoints_lookup (h : HistoricalData) (i : nat) (p : DataPoint) :
  temperature h !! i = Some p ->
  dataPoints h !! i
  = Some {| ei_time := time p;
            ei_temperature := value p;
            ei_humidity := value <$> humidity h !! i;
            ei_pressure := value <$> pressure h !! i;
            ei_windMaxSpeed := value <$> windMaxSpeed h !! i;
            ei_windSpeed := value <$> windSpeed h !! i;
            ei_windDirection := value <$> windDirection h !! i;
            ei_ambientTemp := value <$> ambientTemp h !! i;
            ei_ambientHumidity := value <$> ambientHumidity h !! i;
            ei_rain := value <$> rain h !! i;
            ei_uv := value <$> uv h !! i;
            ei_uvi := value <$> uvi h !! i;
            ei_lightLux := value <$> lightLux h !! i |}.
Proof.
  intros H. unfold dataPoints. rewrite list_lookup_imap, H. reflexivity.
Qed.

Lemma row_of_point (h : HistoricalData) (i : nat) (p : DataPoint) (item : ExportItem) :
  temperature h !! i = Some p ->
  dataPoints h !! i = Some item ->
  valid_time p ->
  exists iso,
    toISOString (Date_of_number (time p)) = Some iso
    /\ row item = Some (export_cells h i p iso).
Proof.
  intros Hp Hitem [t Ht].
  rewrite (dataPoints_lookup h i p Hp) in Hitem. apply (inj Some) in Hitem.
  destruct (toISOString_valid t) as [iso Hiso].
  exists iso. rewrite Ht. split; [exact Hiso|].
  rewrite <- Hitem. unfold row. cbn [ei_time]. rewrite Ht, Hiso. reflexivity.
Qed.

Lemma rows_of_valid_dataset (h : HistoricalData) :
  Forall valid_time (temperature h) ->
  exists rs,
    rows h = Some rs
    /\ length rs = length (temperature h)
    /\ forall i p, temperature h !! i = Some p ->
         exists iso,
           toISOString (Date_of_number (time p)) = Some iso
           /\ rs !! i = Some (export_cells h i p iso).
Proof.
  intros Hvalid. rewrite Forall_lookup in Hvalid.
  assert (Hpoint : forall i item, dataPoints h !! i = Some item ->
            exists p, temperature h !! i = Some p).
  { intros i item Hitem. unfold dataPoints in Hitem.
    rewrite list_lookup_imap in Hitem.
    destruct (temperature h !! i) as [p|]; [eauto | discriminate]. }
  assert (Hsome : is_Some (rows h)).
  { unfold rows. apply mapM_is_Some, Forall_lookup. intros i item Hitem.
    destruct (Hpoint i item Hitem) as [p Hp].
    destruct (row_of_point h i p item Hp Hitem (Hvalid i p Hp)) as (iso & _ & Hr).
    cbn. rewrite Hr. eauto. }
  destruct Hsome as [rs Hrs]. exists rs. split; [exact Hrs|].
  unfold rows in Hrs. apply mapM_Some_1 in Hrs.
  split.
  - rewrite <- (Forall2_length _ _ _ Hrs). unfold dataPoints. apply length_imap.
  - intros i p Hp.
    destruct (Forall2_lookup_l _ _ _ i _ Hrs (dataPoints_lookup h i p Hp))
      as (r & Hr & Hrow).
    destruct (row_of_point h i p _ Hp (dataPoints_lookup h i p Hp) (Hvalid i p Hp))
      as (iso & Hiso & Hcells).
    exists iso. split; [exact Hiso|]. rewrite Hr. congruence.
Qed.

Lemma no_line_feed_export_cells (h : HistoricalData) (i : nat) (p : DataPoint)
    (iso : string) :
  no_line_feed iso = true ->
  no_line_feed (join "," (export_cells h i p iso)) = true.
Proof.
  intros Hiso. apply no_line_feed_join_comma. unfold export_cells.
  repeat (constructor; [first [exact Hiso | apply no_line_feed_toFixed
                              | apply no_line_feed_cell]|]).
  constructor.
Qed.

(** C6, as the code has it.  For every dataset whose reference channel
    has [n] points, each with an instant for its time, export produces [n + 1] lines: the
    header and one row per point of the reference channel.  The columns
    are, in this order, the time in ISO form and temperature, humidity,
    pressure, wind max speed, wind speed, wind direction, ambient
    temperature, ambient humidity, rain, UV, UVI and light lux, each to
    two decimals; there is no irradiance column; a channel without entry
    at the index gives an empty cell. *)
Theorem export_lines_and_columns (st : State) (h : HistoricalData) :
  historicalData st = Some h ->
  Forall valid_time (temperature h) ->
  exists content,
    handleExport st
    = Exported ("weather_data_" +:+ startDate st +:+ "_to_"
                +:+ endDate st +:+ ".csv") content
    /\ length (lines content) = S (length (temperature h))
    /\ lines content !! 0%nat = Some header_line
    /\ length headers = 13%nat
    /\ (forall i p, temperature h !! i = Some p ->
          exists iso,
            toISOString (Date_of_number (time p)) = Some iso
            /\ lines content !! S i = Some (join "," (export_cells h i p iso)))
    /\ (forall (c : list DataPoint) (i : nat),
          c !! i = None -> default EmptyString (cell (value <$> c !! i)) = EmptyString).
Proof.
  intros Hh Hvalid.
  destruct (rows_of_valid_dataset h Hvalid) as (rs & Hrows & Hlen & Hcells).
  exists (csvContent rs).
  assert (Hlines : lines (csvContent rs) = header_line :: (join "," <$> rs)).
  { unfold csvContent. rewrite header_line_join.
    change (fun r => Some (join "," r)) with (Some ∘ join ",").
    rewrite (list_fmap_compose (join ",") Some rs).
    change (Some header_line :: (Some <$> (join "," <$> rs)))
      with (Some <$> (header_line :: (join "," <$> rs))).
    apply lines_join_newline. constructor; [reflexivity|].
    apply Forall_lookup. intros i l Hl.
    rewrite list_lookup_fmap in Hl.
    destruct (rs !! i) as [r|] eqn:Hr; [|discriminate].
    apply (inj Some) in Hl. subst l.
    assert (Hi : (i < length (temperature h))%nat)
      by (rewrite <- Hlen; eapply lookup_lt_Some; exact Hr).
    destruct (lookup_lt_is_Some_2 _ _ Hi) as [p Hp].
    destruct (Hcells i p Hp) as (iso & Hiso & Hri).
    rewrite Hr in Hri. apply (inj Some) in Hri. subst r.
    apply no_line_feed_export_cells.
    eapply no_line_feed_toISOString. exact Hiso. }
  split; [|split; [|split; [|split; [|split]]]].
  - unfold handleExport. rewrite Hh, Hrows. reflexivity.
  - rewrite Hlines. cbn [length]. rewrite length_fmap, Hlen. reflexivity.
  - rewrite Hlines. reflexivity.
  - reflexivity.
  - intros i p Hp. destruct (Hcells i p Hp) as (iso & Hiso & Hri).
    exists iso. split; [exact Hiso|].
    rewrite Hlines. cbn [lookup list_lookup].
    change ((join "," <$> rs) !! i = Some (join "," (export_cells h i p iso))).
    rewrite list_lookup_fmap, Hri. reflexivity.
  - intros c i ->. reflexivity.
Qed.

(** Two readings: three lines. *)
Lemma export_lines_and_columns_witness :
  let h := transformedData cst_engine
             [sample_reading "2024-11-20T10:00:00.000Z"
                (number_of_decimal false 126582 (-3)) None;
              sample_reading "2024-11-20T10:05:00.000Z"
                (number_of_decimal false 5 0) (Some "a.png")] in
  let st := sample_state "2024-11-16" "2024-11-20" (Some h) in
  historicalData st = Some h
  /\ Forall valid_time (temperature h)
  /\ exists content,
       handleExport st
       = Exported "weather_data_2024-11-16_to_2024-11-20.csv" content
       /\ length (lines content) = 3%nat.
Proof.
  intros h st.
  assert (Hh : historicalData st = Some h) by reflexivity.
  assert (Hv : Forall valid_time (temperature h)).
  { repeat constructor; eexists; vm_compute; reflexivity. }
  split; [exact Hh|]. split; [exact Hv|].
  destruct (export_lines_and_columns st h Hh Hv) as (content & Hx & Hlen & _).
  exists content. split; [exact Hx | exact Hlen].
Defined.

(** C6, counterexample.  A reading whose timestamp carries no zone marker
    loses its last digit and yields no instant.  The dataset the page
    stores for it is aligned, one point per channel with the same time, yet
    export throws on it: nothing is downloaded. *)
Lemma export_of_aligned_dataset_throws :
  let d := sample_reading "2024-11-20T10:00:05"
             (number_of_decimal false 126582 (-3)) None in
  let h := transformedData cst_engine [d] in
  let reached :=
    current (run cst_engine (mount "2024-11-16" "2024-11-20")
               [Submit 1732492800000; Settle 0 (Resolved [d])]) in
  historicalData reached = Some h
  /\ Forall (fun c => length c = 1%nat
                      /\ time <$> c = time <$> temperature h) (channels h)
  /\ handleExport reached = ExportThrew
  /\ (forall name content, handleExport reached <> Exported name content).
Proof.
  intros d h reached.
  split; [vm_compute; reflexivity|].
  split; [repeat constructor|].
  split; [vm_compute; reflexivity|].
  intros name content. vm_compute. discriminate.
Qed.

(** An export where the humidity channel lacks its second entry: the cell
    is empty and the export succeeds. *)
Example export_with_missing_entry :
  let p1 := {| time := number_of_Z 1732118400000;
               value := number_of_decimal false 215 (-1); image_url := None |} in
  let p2 := {| time := number_of_Z 1732118700000;
               value := number_of_decimal false 5 0; image_url := None |} in
  let h := {| temperature := [p1; p2]; humidity := [p1]; pressure := [];
              windMaxSpeed := []; windSpeed := []; windDirection := [];
              ambientTemp := []; ambientHumidity := []; rain := [];
              uv := []; uvi := []; lightLux := [p1; p2] |} in
  (fun r => match r with Exported _ c => lines c | _ => [] end)
    (handleExport (sample_state "2024-11-20" "2024-11-20" (Some h)))
  = [ header_line;
      "2024-11-20T16:00:00.000Z,21.50,21.50,,,,,,,,,,21.50";
      "2024-11-20T16:05:00.000Z,5.00,,,,,,,,,,,5.00" ].
Proof. vm_compute. reflexivity. Qed.

(* ================================================================== *)
(** * 6. Further properties of the page *)
(* ================================================================== *)

(** ** Image references and the timelapse *)

Lemma truthy_or_empty (o : option string) :
  truthy (Some (or_empty o)) = truthy o.
Proof.
  unfold or_empty. destruct (truthy o) eqn:H; [|reflexivity].
  destruct o as [s|]; [exact H | discriminate].
Qed.

Lemma or_empty_truthy (o : option string) :
  truthy o = true -> Some (or_empty o) = o.
Proof.
  unfold or_empty. intros H. rewrite H.
  destruct o; [reflexivity | discriminate].
Qed.

Lemma or_null_cases (o : option string) :
  (or_null o = None /\ or_empty o = EmptyString)
  \/ (exists s, s <> EmptyString /\ or_null o = Some s /\ or_empty o = s).
Proof.
  unfold or_null, or_empty. destruct (truthy o) eqn:H; [right|left; auto].
  destruct o as [s|]; [|discriminate]. exists s. repeat split.
  intros ->. discriminate H.
Qed.

Lemma images_single_pass (data : list LiveData) :
  images data = omap (fun d => or_null (ld_image_url d)) data.
Proof.
  unfold images, or_null.
  induction data as [|d data IH]; [reflexivity|].
  rewrite filter_cons. cbn [omap list_omap].
  destruct (decide (truthy (ld_image_url d) = true)) as [H|H].
  - cbn [fmap list_fmap omap list_omap]. rewrite H.
    destruct (ld_image_url d); [|discriminate]. rewrite <- IH. reflexivity.
  - apply not_true_is_false in H. rewrite H. exact IH.
Qed.

Lemma channel_image_urls (eng : Engine) (data : list LiveData) :
  Forall (fun c => image_url <$> c
                   = (fun d => Some (or_empty (ld_image_url d))) <$> data)
         (channels (transformedData eng data)).
Proof.
  unfold channels, transformedData; simpl.
  repeat constructor; rewrite <- list_fmap_compose; reflexivity.
Qed.

(** X1. The timelapse list holds the non-empty image URLs of the
    readings, in reading order and nothing else: it is what one pass over
    the readings keeps, it has no empty entry, it is never longer than the
    reading list, and it is the list of non-empty image references of
    every channel of the transformed dataset. *)
Theorem timelapse_images_are_the_nonempty_urls
    (eng : Engine) (data : list LiveData) :
  images data = omap (fun d => or_null (ld_image_url d)) data
  /\ Forall (fun u => u <> EmptyString) (images data)
  /\ (length (images data) <= length data)%nat
  /\ Forall (fun c =>
       images data
       = filter (fun u => u <> EmptyString)
                ((fun p => default EmptyString (image_url p)) <$> c))
     (channels (transformedData eng data)).
Proof.
  split; [apply images_single_pass|].
  rewrite images_single_pass.
  split; [|split].
  - induction data as [|d data IH]; [constructor|].
    cbn [omap list_omap]. unfold or_null at 1.
    destruct (truthy (ld_image_url d)) eqn:H; [|exact IH].
    destruct (ld_image_url d) as [s|]; [|discriminate].
    constructor; [|exact IH].
    intros ->. discriminate H.
  - induction data as [|d data IH]; [reflexivity|].
    cbn [omap list_omap length].
    destruct (or_null (ld_image_url d)); cbn [length]; lia.
  - assert (H : omap (fun d => or_null (ld_image_url d)) data
       = filter (fun u => u <> EmptyString)
                ((fun d => or_empty (ld_image_url d)) <$> data)).
    { induction data as [|d data IH]; [reflexivity|].
      cbn [omap list_omap fmap list_fmap]. rewrite filter_cons.
      destruct (or_null_cases (ld_image_url d)) as [[-> ->]|(s & Hs & -> & ->)].
      - destruct (decide (EmptyString <> EmptyString)) as [Hn|_];
          [exfalso; apply Hn; reflexivity | exact IH].
      - destruct (decide (s <> EmptyString)) as [_|Hn]; [|contradiction].
        f_equal. exact IH. }
    rewrite H.
    eapply Forall_impl; [apply (channel_image_urls eng data)|].
    intros c Hc. cbn beta.
    replace ((fun p => default EmptyString (image_url p)) <$> c)
      with (default EmptyString <$> (image_url <$> c))
      by (rewrite <- list_fmap_compose; reflexivity).
    rewrite Hc, <- list_fmap_compose. reflexivity.
Qed.

(** X2. Every point of every channel carries an image reference, the
    reading's URL or the empty string, the same in all channels; a click
    on the point made from a reading starts the preload of exactly the
    reading's URL when it has a non-empty one, and clears the selection
    otherwise. *)
Theorem click_on_transformed_point
    (eng : Engine) (data : list LiveData) (st : State) :
  Forall (fun c =>
    Forall2 (fun d p =>
      image_url p = Some (or_empty (ld_image_url d))
      /\ handleDataPointClick p st
         = if truthy (ld_image_url d) then (st, ld_image_url d)
           else (setSelectedImage None st, None)) data c)
    (channels (transformedData eng data)).
Proof.
  eapply Forall_impl; [apply (channel_image_urls eng data)|].
  intros c Hc. cbn beta.
  assert (Himg : Forall2 (fun d p => image_url p = Some (or_empty (ld_image_url d)))
                         data c).
  { apply Forall2_fmap_r with (f := image_url) (P := fun d o => o = Some (or_empty (ld_image_url d))).
    rewrite Hc. apply Forall2_fmap_r, Forall_Forall2_diag, Forall_forall.
    intros d _. reflexivity. }
  eapply Forall2_impl; [exact Himg|].
  intros d p Hp. split; [exact Hp|].
  unfold handleDataPointClick. rewrite Hp, truthy_or_empty.
  destruct (truthy (ld_image_url d)) eqn:Ht; [|reflexivity].
  rewrite or_empty_truthy by exact Ht. reflexivity.
Qed.

(** ** What a submission leaves on screen *)

Lemma validate_message_nonempty (eng : Engine) (start end_ today : Date)
    (msg : string) :
  validate eng start end_ today = Some msg -> String.eqb msg EmptyString = false.
Proof.
  unfold validate.
  destruct (Date_lt start _).
  - intros H. apply (inj Some) in H. subst msg. reflexivity.
  - destruct (Date_gt end_ today); [intros [= <-]; reflexivity|].
    destruct (Date_gt start end_); [intros [= <-]; reflexivity | discriminate].
Qed.

(** The first part of a submission, by the dates it reads. *)
Lemma handleSubmit_begin_cases (eng : Engine) (today : Z) (st : State) :
  let st0 := setSelectedImage None (setHistoricalData None (setError EmptyString st)) in
  match Date_of_string eng (startDate st), Date_of_string eng (endDate st) with
  | Some s, Some e =>
      exists start_iso end_iso,
        toISOString (Some s) = Some start_iso
        /\ toISOString (Some e) = Some end_iso
        /\ handleSubmit_begin eng today st
           = let st1 :=
               setIsSameDay (String.eqb (split_T_0 start_iso) (split_T_0 end_iso)) st0 in
             match validate eng (Some s) (Some e) (TimeClip today) with
             | Some msg => Returned (setError msg st1)
             | None => Awaiting st1 (request_url (split_T_0 start_iso) (split_T_0 end_iso))
             end
  | _, _ => handleSubmit_begin eng today st = Threw st0
  end.
Proof.
  intros st0.
  destruct (Date_of_string eng (startDate st)) as [s|] eqn:Hs;
    [destruct (Date_of_string eng (endDate st)) as [e|] eqn:He|].
  - apply handleSubmit_begin_valid; assumption.
  - unfold handleSubmit_begin.
    cbn [startDate endDate setError setHistoricalData setSelectedImage].
    rewrite Hs, He. destruct (toISOString (Some s)); reflexivity.
  - unfold handleSubmit_begin.
    cbn [startDate endDate setError setHistoricalData setSelectedImage].
    rewrite Hs. reflexivity.
Qed.

(** X3. An unparseable date aborts the submission without a word: the
    handler throws exactly when the start or the end date is not a date;
    the state is then the cleared one (no error message, no dataset, no
    selected image), the same-day flag and the image list are untouched,
    and no error banner is shown. *)
Theorem invalid_date_aborts_silently
    (eng : Engine) (today : Z) (fetch : string -> Response) (st : State) :
  ((Date_of_string eng (startDate st) = None
    \/ Date_of_string eng (endDate st) = None)
   <-> exists st', handleSubmit_begin eng today st = Threw st')
  /\ (forall st', handleSubmit_begin eng today st = Threw st' ->
        st' = setSelectedImage None (setHistoricalData None (setError EmptyString st))
        /\ handleSubmit eng today fetch st = st'
        /\ isSameDay st' = isSameDay st
        /\ imageUrls st' = imageUrls st
        /\ showError (render st') = false
        /\ showCharts (render st') = false).
Proof.
  pose proof (handleSubmit_begin_cases eng today st) as H. cbv zeta in H.
  split.
  - destruct (Date_of_string eng (startDate st)) as [s|];
      [destruct (Date_of_string eng (endDate st)) as [e|]|].
    + destruct H as (si & ei & _ & _ & ->). split.
      * intros [C|C]; discriminate C.
      * intros [st' C]. destruct (validate _ _ _ _); discriminate C.
    + split; eauto.
    + split; eauto.
  - intros st' E.
    assert (Hst : st' = setSelectedImage None (setHistoricalData None (setError EmptyString st))).
    { destruct (Date_of_string eng (startDate st)) as [s|];
        [destruct (Date_of_string eng (endDate st)) as [e|]|].
      - destruct H as (si & ei & _ & _ & H). rewrite H in E.
        destruct (validate _ _ _ _); discriminate E.
      - rewrite H in E. congruence.
      - rewrite H in E. congruence. }
    split; [exact Hst|]. split.
    + unfold handleSubmit. rewrite E. reflexivity.
    + subst st'. repeat split.
Qed.

(** ** Integers as binary64 numbers *)

Lemma digits2_pos_lower (m : positive) :
  2 ^ (Zpos (digits2_pos m) - 1) <= Zpos m.
Proof.
  induction m as [m IH|m IH|]; cbn [digits2_pos]; [| |reflexivity];
    rewrite Pos2Z.inj_succ;
    replace (Z.succ (Zpos (digits2_pos m)) - 1)
      with (Z.succ (Zpos (digits2_pos m) - 1)) by lia;
    rewrite Z.pow_succ_r by lia; lia.
Qed.

Lemma digits2_pos_le_53 (c : positive) :
  Zpos c < 2 ^ 53 -> Zpos (digits2_pos c) <= 53.
Proof.
  intros Hc. pose proof (digits2_pos_lower c) as Hl.
  destruct (Z.le_gt_cases (Zpos (digits2_pos c)) 53) as [H|H]; [exact H|].
  assert (2 ^ 53 <= 2 ^ (Zpos (digits2_pos c) - 1))
    by (apply Z.pow_le_mono_r; lia).
  lia.
Qed.

Lemma pos_shifted (c M : positive) (k : Z) :
  0 <= k -> Zpos M = Zpos c * 2 ^ k ->
  (k = 0 /\ M = c) \/ (exists p, k = Zpos p /\ M = Pos.iter xO c p).
Proof.
  intros Hk HM. destruct k as [|p|p]; [left|right|lia].
  - split; [reflexivity|]. rewrite Z.pow_0_r, Z.mul_1_r in HM. congruence.
  - exists p. split; [reflexivity|]. rewrite Zpos_mul_pow2 in HM. congruence.
Qed.

Lemma digits2_pos_shifted (c M : positive) (k : Z) :
  0 <= k -> Zpos M = Zpos c * 2 ^ k ->
  Zpos (digits2_pos M) = Zpos (digits2_pos c) + k.
Proof.
  intros Hk HM.
  destruct (pos_shifted c M k Hk HM) as [[-> ->]|(p & -> & ->)]; [lia|].
  rewrite digits2_pos_iter. lia.
Qed.

Lemma int_mantissa_value (c : positive) :
  Zpos c < 2 ^ 53 ->
  let d := Zpos (digits2_pos c) in
  Zpos (Z.to_pos (Zpos c * 2 ^ (53 - d))) = Zpos c * 2 ^ (53 - d)
  /\ Zpos (digits2_pos (Z.to_pos (Zpos c * 2 ^ (53 - d)))) = 53.
Proof.
  intros Hc d. pose proof (digits2_pos_le_53 c Hc) as Hd. fold d in Hd.
  assert (Hpos : 0 < Zpos c * 2 ^ (53 - d))
    by (apply Z.mul_pos_pos; [lia | apply Z.pow_pos_nonneg; lia]).
  assert (HT : Zpos (Z.to_pos (Zpos c * 2 ^ (53 - d))) = Zpos c * 2 ^ (53 - d))
    by (apply Z2Pos.id; exact Hpos).
  split; [exact HT|].
  rewrite (digits2_pos_shifted c _ (53 - d)) by (lia || exact HT).
  fold d. lia.
Qed.

Lemma binary_round_aux_exact (s : bool) (mx ex : Z) (T : positive) (e : Z) :
  shr_fexp prec emax mx ex loc_Exact
  = ({| shr_m := Zpos T; shr_r := false; shr_s := false |}, e) ->
  fexp prec emax (Zpos (digits2_pos T) + e) = e ->
  e <= emax - prec ->
  binary_round_aux prec emax s mx ex loc_Exact = S754_finite s T e.
Proof.
  intros Hshr Hf He. unfold binary_round_aux. rewrite Hshr.
  cbn [shr_m loc_of_shr_record round_nearest_even].
  unfold shr_fexp. cbn [Zdigits2 shr_record_of_loc].
  rewrite Hf, Z.sub_diag. cbn [shr shr_m].
  destruct (Z.leb_spec e (emax - prec)); [reflexivity | lia].
Qed.

(** Rounding [c * 2^k] at exponent [-k] gives the number of the integer
    [c], whatever [k]. *)
Lemma binary_round_integer (s : bool) (c M : positive) (k : Z) :
  0 <= k -> Zpos M = Zpos c * 2 ^ k -> Zpos c < 2 ^ 53 ->
  binary_round prec emax s M (- k) = int_float s c.
Proof.
  intros Hk HM Hc. unfold int_float. cbv zeta.
  pose proof (digits2_pos_le_53 c Hc) as Hd.
  destruct (int_mantissa_value c Hc) as [HT HdT]. cbv zeta in HT, HdT.
  set (d := Zpos (digits2_pos c)) in *.
  set (T := Z.to_pos (Zpos c * 2 ^ (53 - d))) in *.
  assert (Hd1 : 1 <= d) by (unfold d; lia).
  pose proof (digits2_pos_shifted c M k Hk HM) as HdM. fold d in HdM.
  assert (HfT : fexp prec emax (Zpos (digits2_pos T) + (d - 53)) = d - 53).
  { rewrite HdT. unfold fexp, emin, prec, emax. lia. }
  assert (HfM : fexp prec emax (Zpos (digits2_pos M) + - k) = d - 53).
  { rewrite HdM. unfold fexp, emin, prec, emax. lia. }
  assert (Hmax : d - 53 <= emax - prec) by (unfold emax, prec; lia).
  unfold binary_round. rewrite HfM. unfold shl_align.
  destruct (d - 53 - - k) as [|p|q] eqn:Hdelta.
  - (* no shift at all *)
    assert (M = T).
    { apply Pos2Z.inj. rewrite HT, HM. f_equal. f_equal. lia. }
    subst M. apply binary_round_aux_exact; [|exact HfT|exact Hmax].
    unfold shr_fexp. cbn [Zdigits2 shr_record_of_loc].
    rewrite HfM, Hdelta. cbn [shr]. f_equal. lia.
  - (* the mantissa is shifted down by [p] exact positions *)
    assert (HMT : Zpos M = Zpos T * 2 ^ Zpos p).
    { rewrite HT, HM, <- Z.mul_assoc, <- Z.pow_add_r by lia.
      f_equal. f_equal. lia. }
    rewrite Zpos_mul_pow2 in HMT. apply Pos2Z.inj in HMT. subst M.
    apply binary_round_aux_exact; [|exact HfT|exact Hmax].
    unfold shr_fexp. cbn [Zdigits2 shr_record_of_loc].
    rewrite HfM, Hdelta. unfold shr. rewrite iter_pos_shr_1_exact.
    f_equal. lia.
  - (* the mantissa is shifted up by [q] positions *)
    assert (HqT : Pos.iter xO M q = T).
    { apply Pos2Z.inj. rewrite <- Zpos_mul_pow2, HT, HM.
      rewrite <- Z.mul_assoc, <- Z.pow_add_r by lia. f_equal. f_equal. lia. }
    rewrite HqT. apply binary_round_aux_exact; [|exact HfT|exact Hmax].
    unfold shr_fexp. cbn [Zdigits2 shr_record_of_loc].
    rewrite HfT, Z.sub_diag. reflexivity.
Qed.

(** The number of a scaled integer. *)
Lemma binary_normalize_scaled (t k : Z) :
  0 <= k -> Z.abs t < 2 ^ 53 ->
  binary_normalize prec emax (t * 2 ^ k) (- k) false = number_of_Z t.
Proof.
  intros Hk Ht.
  assert (Hp : 0 < 2 ^ k) by (apply Z.pow_pos_nonneg; lia).
  unfold number_of_Z.
  destruct t as [|c|c].
  - reflexivity.
  - destruct (Z.pos c * 2 ^ k) as [|M|M] eqn:HM; try lia.
    cbn [binary_normalize].
    rewrite (binary_round_integer false c M k) by (lia || assumption).
    symmetry. apply (binary_round_integer false c c 0); lia.
  - destruct (Z.neg c * 2 ^ k) as [|M|M] eqn:HM; try lia.
    cbn [binary_normalize].
    rewrite (binary_round_integer true c M k) by (lia || assumption).
    symmetry. apply (binary_round_integer true c c 0); lia.
Qed.

Lemma number_of_Z_cases (t : Z) :
  Z.abs t < 2 ^ 53 ->
  match t with
  | Z0 => number_of_Z t = S754_zero false
  | Zpos c => number_of_Z t = int_float false c
  | Zneg c => number_of_Z t = int_float true c
  end.
Proof.
  intros Ht. destruct t as [|c|c]; [reflexivity|..]; unfold number_of_Z;
    cbn [binary_normalize];
    [apply (binary_round_integer false c c 0) | apply (binary_round_integer true c c 0)];
    lia.
Qed.

Lemma truncate_int_float (s : bool) (c : positive) :
  Zpos c < 2 ^ 53 ->
  truncate (int_float s c) = if s then Zneg c else Zpos c.
Proof.
  intros Hc. pose proof (digits2_pos_le_53 c Hc) as Hd.
  destruct (int_mantissa_value c Hc) as [HT _]. cbv zeta in HT.
  unfold int_float, truncate, exact_abs. cbv zeta. cbn [is_negative].
  set (d := Zpos (digits2_pos c)) in *.
  assert (Hq : (if 0 <=? d - 53
                then (Zpos (Z.to_pos (Zpos c * 2 ^ (53 - d))) * 2 ^ (d - 53), 1)
                else (Zpos (Z.to_pos (Zpos c * 2 ^ (53 - d))), 2 ^ (- (d - 53))))
               = (Zpos c * 2 ^ (53 - d), 2 ^ (53 - d))).
  { rewrite HT. destruct (Z.leb_spec 0 (d - 53)).
    - replace (d - 53) with 0 by lia. replace (53 - d) with 0 by lia.
      rewrite Z.pow_0_r. f_equal. lia.
    - f_equal. f_equal. lia. }
  rewrite Hq.
  rewrite Z.div_mul by (apply Z.pow_nonzero; lia).
  destruct s; reflexivity.
Qed.

(** An integer below 2^53 in magnitude survives the passage through a
    number. *)
Lemma truncate_number_of_Z (t : Z) :
  Z.abs t < 2 ^ 53 ->
  truncate (number_of_Z t) = t /\ isFinite (number_of_Z t) = true.
Proof.
  intros Ht. pose proof (number_of_Z_cases t Ht) as H.
  destruct t as [|c|c]; rewrite H; [split; reflexivity|..];
    (split; [apply truncate_int_float; lia | reflexivity]).
Qed.

Lemma shl_align_value (m : positive) (e ez : Z) :
  ez <= e -> Zpos (fst (shl_align m e ez)) = Zpos m * 2 ^ (e - ez).
Proof.
  intros H. unfold shl_align.
  destruct (ez - e) as [|p|q] eqn:Hd; try lia; cbn [fst].
  - replace (e - ez) with 0 by lia. lia.
  - rewrite <- Zpos_mul_pow2. f_equal. f_equal. lia.
Qed.

(** The signed integer of a sign and a magnitude. *)
Lemma aligned_int_float (s : bool) (c : positive) (ez : Z) :
  Zpos c < 2 ^ 53 -> ez <= Zpos (digits2_pos c) - 53 ->
  cond_Zopp s (Zpos (fst (shl_align
     (Z.to_pos (Zpos c * 2 ^ (53 - Zpos (digits2_pos c))))
     (Zpos (digits2_pos c) - 53) ez)))
  = (if s then Zneg c else Zpos c) * 2 ^ (- ez).
Proof.
  intros Hc Hez. pose proof (digits2_pos_le_53 c Hc) as Hd.
  destruct (int_mantissa_value c Hc) as [HT _]. cbv zeta in HT.
  rewrite shl_align_value by exact Hez. rewrite HT.
  rewrite <- Z.mul_assoc, <- Z.pow_add_r by lia.
  replace (53 - Zpos (digits2_pos c) + (Zpos (digits2_pos c) - 53 - ez))
    with (- ez) by lia.
  destruct s; cbn [cond_Zopp]; lia.
Qed.

Lemma SFadd_int_float (sa sb : bool) (ca cb : positive) :
  Zpos ca < 2 ^ 53 -> Zpos cb < 2 ^ 53 ->
  let ta := if sa then Zneg ca else Zpos ca in
  let tb := if sb then Zneg cb else Zpos cb in
  Z.abs (ta + tb) < 2 ^ 53 ->
  SFadd prec emax (int_float sa ca) (int_float sb cb) = number_of_Z (ta + tb).
Proof.
  intros Ha Hb ta tb Hsum.
  pose proof (digits2_pos_le_53 ca Ha). pose proof (digits2_pos_le_53 cb Hb).
  unfold int_float, SFadd. cbv zeta.
  set (ez := Z.min _ _).
  rewrite !aligned_int_float by (assumption || (unfold ez; lia)).
  fold ta tb. rewrite <- Z.mul_add_distr_r.
  rewrite <- (Z.opp_involutive ez) at 2.
  apply binary_normalize_scaled; [unfold ez; lia | exact Hsum].
Qed.

Lemma SFsub_int_float (sa sb : bool) (ca cb : positive) :
  Zpos ca < 2 ^ 53 -> Zpos cb < 2 ^ 53 ->
  let ta := if sa then Zneg ca else Zpos ca in
  let tb := if sb then Zneg cb else Zpos cb in
  Z.abs (ta - tb) < 2 ^ 53 ->
  SFsub prec emax (int_float sa ca) (int_float sb cb) = number_of_Z (ta - tb).
Proof.
  intros Ha Hb ta tb Hsum.
  pose proof (digits2_pos_le_53 ca Ha). pose proof (digits2_pos_le_53 cb Hb).
  unfold int_float, SFsub. cbv zeta.
  set (ez := Z.min _ _).
  rewrite !aligned_int_float by (assumption || (unfold ez; lia)).
  fold ta tb. rewrite <- Z.mul_sub_distr_r.
  rewrite <- (Z.opp_involutive ez) at 2.
  apply binary_normalize_scaled; [unfold ez; lia | exact Hsum].
Qed.

(** Addition and subtraction are exact on integers below 2^53. *)
Lemma number_add_integers (a b : Z) :
  Z.abs a < 2 ^ 53 -> Z.abs b < 2 ^ 53 -> Z.abs (a + b) < 2 ^ 53 ->
  number_add (number_of_Z a) (number_of_Z b) = number_of_Z (a + b).
Proof.
  intros Ha Hb Hab. unfold number_add.
  pose proof (number_of_Z_cases a Ha) as Ea.
  pose proof (number_of_Z_cases b Hb) as Eb.
  destruct a as [|ca|ca], b as [|cb|cb]; rewrite ?Ea, ?Eb;
    try reflexivity;
    try (rewrite Z.add_0_r, ?Ea; reflexivity);
    try (rewrite Z.add_0_l, ?Eb; reflexivity).
  - apply (SFadd_int_float false false); lia.
  - apply (SFadd_int_float false true); lia.
  - apply (SFadd_int_float true false); lia.
  - apply (SFadd_int_float true true); lia.
Qed.

Lemma number_sub_integers (a b : Z) :
  Z.abs a < 2 ^ 53 -> Z.abs b < 2 ^ 53 -> Z.abs (a - b) < 2 ^ 53 ->
  number_sub (number_of_Z a) (number_of_Z b) = number_of_Z (a - b).
Proof.
  intros Ha Hb Hab. unfold number_sub.
  pose proof (number_of_Z_cases a Ha) as Ea.
  pose proof (number_of_Z_cases b Hb) as Eb.
  pose proof (number_of_Z_cases (- b) ltac:(lia)) as Enb.
  destruct a as [|ca|ca], b as [|cb|cb]; rewrite ?Ea, ?Eb;
    try reflexivity;
    try (rewrite Z.sub_0_r, ?Ea; reflexivity);
    try (rewrite Z.sub_0_l, Enb; reflexivity).
  - apply (SFsub_int_float false false); lia.
  - apply (SFsub_int_float false true); lia.
  - apply (SFsub_int_float true false); lia.
  - apply (SFsub_int_float true true); lia.
Qed.

Lemma digits2_pos_lt (a b : positive) :
  (Zpos (digits2_pos a) < Zpos (digits2_pos b)) -> Zpos a < Zpos b.
Proof.
  intros H. pose proof (digits2_pos_bound a). pose proof (digits2_pos_lower b).
  assert (2 ^ Zpos (digits2_pos a) <= 2 ^ (Zpos (digits2_pos b) - 1))
    by (apply Z.pow_le_mono_r; lia).
  lia.
Qed.

Lemma SFcompare_int_float_same_sign (a b : positive) :
  Zpos a < 2 ^ 53 -> Zpos b < 2 ^ 53 ->
  SFcompare (int_float false a) (int_float false b) = Some (Zpos a ?= Zpos b)
  /\ SFcompare (int_float true a) (int_float true b) = Some (Zpos b ?= Zpos a).
Proof.
  intros Ha Hb.
  pose proof (digits2_pos_le_53 a Ha). pose proof (digits2_pos_le_53 b Hb).
  destruct (int_mantissa_value a Ha) as [HTa _].
  destruct (int_mantissa_value b Hb) as [HTb _]. cbv zeta in HTa, HTb.
  unfold int_float, SFcompare. cbv zeta.
  set (da := Zpos (digits2_pos a)) in *. set (db := Zpos (digits2_pos b)) in *.
  destruct (Z.compare_spec (da - 53) (db - 53)) as [E|L|G].
  - assert (Hd : da = db) by lia.
    rewrite !Pos.compare_cont_spec; cbn [Pos.switch_Eq].
    assert (Hc : forall x y : positive, (x ?= y)%positive = (Zpos x ?= Zpos y))
      by reflexivity.
    rewrite Hc, HTa, HTb, Hd.
    assert (Hp : 0 < 2 ^ (53 - db)) by (apply Z.pow_pos_nonneg; lia).
    rewrite <- !Zmult_compare_compat_r by lia.
    assert (Hsw : forall c, Pos.switch_Eq Eq c = c) by (intros []; reflexivity).
    rewrite Hsw. split; [reflexivity|].
    f_equal. symmetry. apply Z.compare_antisym.
  - assert (Hab : Zpos a < Zpos b) by (apply digits2_pos_lt; fold da db; lia).
    split; f_equal; symmetry.
    + apply Z.compare_lt_iff. exact Hab.
    + apply Z.compare_gt_iff. exact Hab.
  - assert (Hab : Zpos b < Zpos a) by (apply digits2_pos_lt; fold da db; lia).
    split; f_equal; symmetry.
    + apply Z.compare_gt_iff. exact Hab.
    + apply Z.compare_lt_iff. exact Hab.
Qed.

(** Numbers of integers compare as the integers do. *)
Lemma SFcompare_integers (a b : Z) :
  Z.abs a < 2 ^ 53 -> Z.abs b < 2 ^ 53 ->
  SFcompare (number_of_Z a) (number_of_Z b) = Some (a ?= b).
Proof.
  intros Ha Hb.
  pose proof (number_of_Z_cases a Ha) as Ea.
  pose proof (number_of_Z_cases b Hb) as Eb.
  destruct a as [|ca|ca], b as [|cb|cb]; rewrite ?Ea, ?Eb; try reflexivity.
  - apply (SFcompare_int_float_same_sign ca cb); lia.
  - destruct (SFcompare_int_float_same_sign ca cb ltac:(lia) ltac:(lia)) as [_ ->].
    f_equal. change (Zpos cb ?= Zpos ca) with (cb ?= ca)%positive.
    change (Zneg ca ?= Zneg cb) with (CompOpp (ca ?= cb)%positive).
    apply Pos.compare_antisym.
Qed.

Lemma Math_max_integers (a b : Z) :
  Z.abs a < 2 ^ 53 -> Z.abs b < 2 ^ 53 ->
  Math_max (number_of_Z a) (number_of_Z b) = number_of_Z (Z.max a b).
Proof.
  intros Ha Hb. unfold Math_max.
  rewrite (SFcompare_integers a b Ha Hb).
  pose proof (number_of_Z_cases a Ha) as Ea.
  pose proof (number_of_Z_cases b Hb) as Eb.
  assert (Hnan : isNaN (number_of_Z a) || isNaN (number_of_Z b) = false).
  { destruct a, b; rewrite ?Ea, ?Eb; reflexivity. }
  rewrite Hnan. unfold Z.max.
  destruct (a ?= b) eqn:C; try reflexivity.
  - apply Z.compare_eq in C. subst b.
    destruct a; rewrite ?Ea; reflexivity.
Qed.

(** ** The calendar *)

Lemma DayFromYear_step (y : Z) :
  DayFromYear (y + 1) = DayFromYear y + 365 + (if InLeapYear_year y then 1 else 0).
Proof.
  unfold DayFromYear, InLeapYear_year.
  destruct (Z.eqb_spec (y mod 4) 0) as [H4|H4]; cbn [negb];
    [destruct (Z.eqb_spec (y mod 100) 0) as [H100|H100]; cbn [negb];
     [destruct (Z.eqb_spec (y mod 400) 0) as [H400|H400]|]|];
    Z.div_mod_to_equations; lia.
Qed.

(** [YearFromTime] is the year the day falls in. *)
Lemma YearFromTime_spec (t : Z) :
  DayFromYear (YearFromTime t) <= Day t < DayFromYear (YearFromTime t + 1).
Proof.
  unfold YearFromTime. cbv zeta. set (d := Day t).
  set (y := 1970 + d * 400 / 146097).
  assert (Hb : DayFromYear (y - 1) <= d < DayFromYear (y + 1 + 1)).
  { unfold DayFromYear, y. Z.div_mod_to_equations. lia. }
  destruct (Z.leb_spec (DayFromYear (y + 1)) d) as [H1|H1]; [lia|].
  destruct (Z.leb_spec (DayFromYear y) d) as [H2|H2]; [lia|].
  replace (y - 1 + 1) with y by lia. lia.
Qed.

Lemma DayWithinYear_bounds (t : Z) :
  0 <= DayWithinYear t
  < 365 + (if InLeapYear_year (YearFromTime t) then 1 else 0).
Proof.
  unfold DayWithinYear. pose proof (YearFromTime_spec t) as H.
  rewrite DayFromYear_step in H. lia.
Qed.

Lemma month_of_day_spec (leap : bool) (d : Z) :
  0 <= d < 365 + (if leap then 1 else 0) ->
  let m := month_of_day 11 0 leap d in
  0 <= m <= 11
  /\ month_start leap m <= d < month_start leap (m + 1)
  /\ month_start leap (m + 1) - month_start leap m <= 31.
Proof.
  intros Hd. destruct leap;
    cbv beta iota zeta delta
      [month_of_day month_start Z.add Pos.add Pos.succ Pos.add_carry] in *;
    repeat match goal with
           | |- context [if ?a <? ?b then _ else _] =>
               destruct (Z.ltb_spec a b)
           end;
    lia.
Qed.

Lemma MonthFromTime_bounds (t : Z) : 0 <= MonthFromTime t <= 11.
Proof.
  unfold MonthFromTime.
  apply (month_of_day_spec _ _ (DayWithinYear_bounds t)).
Qed.

Lemma DateFromTime_bounds (t : Z) : 1 <= DateFromTime t <= 31.
Proof.
  unfold DateFromTime.
  destruct (month_of_day_spec _ _ (DayWithinYear_bounds t)) as (_ & H & H31).
  fold (MonthFromTime t) in H, H31. lia.
Qed.

(** The year, month and date of a time lead back to its day. *)
Lemma MakeDay_of_fields (t k : Z) :
  MakeDay (YearFromTime t) (MonthFromTime t) (DateFromTime t + k) = Day t + k.
Proof.
  pose proof (MonthFromTime_bounds t) as Hm.
  unfold MakeDay. cbv zeta.
  rewrite Z.div_small, Z.mod_small, Z.add_0_r by lia.
  unfold DateFromTime, DayWithinYear. lia.
Qed.

Lemma Day_time_decompose (t : Z) :
  MakeDate (Day t) (TimeWithinDay t) = t.
Proof.
  unfold MakeDate, Day, TimeWithinDay, msPerDay.
  pose proof (Z.div_mod t 86400000 ltac:(lia)). lia.
Qed.

(** ** Instants as numbers *)

Lemma maxTime_below_2_53 : maxTime < 2 ^ 53.
Proof. reflexivity. Qed.

Lemma TimeClip_Some (t t' : Z) :
  TimeClip t = Some t' -> t' = t /\ Z.abs t <= maxTime.
Proof.
  unfold TimeClip. destruct (Z.leb_spec (Z.abs t) maxTime); [|discriminate].
  intros [= <-]. auto.
Qed.

Lemma Date_parse_Some (eng : Engine) (s : string) (t : Z) :
  Date_parse eng s = Some t -> Z.abs t <= maxTime.
Proof.
  unfold Date_parse.
  destruct (parseISO eng s) as [u|];
    [|destruct (fallbackParse eng s) as [u|]; [|discriminate]];
    intros H; apply TimeClip_Some in H as [-> H]; exact H.
Qed.

Lemma Date_of_number_of_Z (t : Z) :
  Z.abs t < 2 ^ 53 -> Date_of_number (number_of_Z t) = TimeClip t.
Proof.
  intros Ht. destruct (truncate_number_of_Z t Ht) as [Htr Hfin].
  unfold Date_of_number. rewrite Hfin, Htr. reflexivity.
Qed.

(** [new Date(d.getTime())] is [d], for every date a parse returns. *)
Lemma Date_of_number_getTime (eng : Engine) (s : string) :
  Date_of_number (getTime (Date_parse eng s)) = Date_parse eng s.
Proof.
  destruct (Date_parse eng s) as [t|] eqn:H; [|reflexivity].
  apply Date_parse_Some in H. pose proof maxTime_below_2_53.
  cbn [getTime]. rewrite Date_of_number_of_Z by lia.
  apply TimeClip_in_range, H.
Qed.

Lemma channel_times (eng : Engine) (data : list LiveData) :
  Forall (fun c => time <$> c = reading_time eng <$> data)
         (channels (transformedData eng data)).
Proof.
  unfold channels, transformedData; simpl.
  repeat constructor; rewrite <- list_fmap_compose; reflexivity.
Qed.

(** X6. The instant of a reading survives the passage through the
    number stored in the point: rebuilding a date from the time of a point
    gives the date parsed from the reading's cut timestamp, in every
    channel; so the time of a point fails to denote an instant exactly
    when that timestamp is not a date. *)
Theorem point_time_rebuilds_parsed_date (eng : Engine) (data : list LiveData) :
  Forall (fun c =>
    Forall2 (fun d p =>
      Date_of_number (time p) = Date_of_string eng (slice_0_m1 (timestamp d))
      /\ (valid_time p <-> timestamp_parses eng d)) data c)
    (channels (transformedData eng data)).
Proof.
  eapply Forall_impl; [apply (channel_times eng data)|].
  intros c Hc. cbn beta.
  assert (Ht : Forall2 (fun d p => time p = reading_time eng d) data c).
  { apply Forall2_fmap_r with (f := time) (P := fun d x => x = reading_time eng d).
    rewrite Hc. apply Forall2_fmap_r, Forall_Forall2_diag, Forall_forall.
    intros d _. reflexivity. }
  eapply Forall2_impl; [exact Ht|].
  intros d p Hp.
  assert (E : Date_of_number (time p)
              = Date_of_string eng (slice_0_m1 (timestamp d))).
  { rewrite Hp. unfold reading_time, Date_of_string.
    apply Date_of_number_getTime. }
  split; [exact E|]. unfold valid_time, timestamp_parses. rewrite E. tauto.
Qed.

(** ** Export of a fetched dataset *)

Lemma row_of_invalid_time (h : HistoricalData) (i : nat) (p : DataPoint)
    (item : ExportItem) :
  temperature h !! i = Some p ->
  dataPoints h !! i = Some item ->
  Date_of_number (time p) = None ->
  row item = None.
Proof.
  intros Hp Hitem Hinv.
  rewrite (dataPoints_lookup h i p Hp) in Hitem. apply (inj Some) in Hitem.
  rewrite <- Hitem. unfold row. cbn [ei_time]. rewrite Hinv. reflexivity.
Qed.

Lemma rows_None_iff (h : HistoricalData) :
  rows h = None
  <-> Exists (fun p => Date_of_number (time p) = None) (temperature h).
Proof.
  split.
  - intros Hnone.
    destruct (decide (Exists (fun p => Date_of_number (time p) = None)
                             (temperature h))) as [H|H]; [exact H|exfalso].
    assert (Hv : Forall valid_time (temperature h)).
    { apply Forall_forall. intros p Hp. unfold valid_time.
      destruct (Date_of_number (time p)) eqn:E; [eauto|].
      exfalso. apply H. apply Exists_exists. eauto. }
    destruct (rows_of_valid_dataset h Hv) as (rs & Hrs & _). congruence.
  - intros Hex. apply Exists_exists in Hex as (p & Hp & Hinv).
    apply list_elem_of_lookup in Hp as [i Hi].
    destruct (rows h) as [rs|] eqn:Hrows; [exfalso|reflexivity].
    assert (Hsome : is_Some (rows h)) by eauto.
    unfold rows in Hsome. rewrite mapM_is_Some, Forall_lookup in Hsome.
    pose proof (Hsome i _ (dataPoints_lookup h i p Hi)) as [r Hr].
    cbn in Hr.
    rewrite (row_of_invalid_time h i p _ Hi (dataPoints_lookup h i p Hi) Hinv) in Hr.
    discriminate Hr.
Qed.

(** X7. Export throws exactly when a dataset is held and some point of
    its reference channel has a time that is no instant; for a dataset made
    from readings, exactly when the cut timestamp of some reading is not a
    date.  Nothing is downloaded then and no message is set. *)
Theorem export_throws_iff_time_is_no_instant (eng : Engine) (st : State) :
  (handleExport st = ExportThrew
   <-> exists h, historicalData st = Some h
                 /\ Exists (fun p => Date_of_number (time p) = None)
                           (temperature h))
  /\ (forall data,
        Exists (fun p => Date_of_number (time p) = None)
               (temperature (transformedData eng data))
        <-> Exists (fun d => Date_of_string eng (slice_0_m1 (timestamp d)) = None)
                   data).
Proof.
  split.
  - unfold handleExport. destruct (historicalData st) as [h|].
    + destruct (rows h) as [rs|] eqn:Hrows.
      * split; [discriminate|]. intros (h' & [= <-] & Hex).
        apply rows_None_iff in Hex. congruence.
      * split; [|reflexivity]. intros _. exists h. split; [reflexivity|].
        apply rows_None_iff, Hrows.
    + split; [discriminate|]. intros (h & C & _). discriminate C.
  - intros data. unfold transformedData. cbn [temperature].
    rewrite !Exists_exists. split.
    + intros (p & Hp & Hinv). apply list_elem_of_fmap in Hp as (d & -> & Hd).
      exists d. split; [exact Hd|]. cbn [time] in Hinv.
      unfold Date_of_string in *. rewrite Date_of_number_getTime in Hinv.
      exact Hinv.
    + intros (d & Hd & Hinv). eexists. split.
      * apply list_elem_of_fmap. exists d. split; [reflexivity | exact Hd].
      * cbn [time]. unfold Date_of_string in *.
        rewrite Date_of_number_getTime. exact Hinv.
Qed.

(** The lines of the export of a dataset with instants for times. *)
Lemma export_content (st : State) (h : HistoricalData) :
  historicalData st = Some h ->
  Forall valid_time (temperature h) ->
  exists rs,
    handleExport st
    = Exported ("weather_data_" +:+ startDate st +:+ "_to_"
                +:+ endDate st +:+ ".csv") (csvContent rs)
    /\ lines (csvContent rs) = header_line :: (join "," <$> rs)
    /\ length rs = length (temperature h)
    /\ forall i p, temperature h !! i = Some p ->
         exists iso,
           toISOString (Date_of_number (time p)) = Some iso
           /\ rs !! i = Some (export_cells h i p iso).
Proof.
  intros Hh Hvalid.
  destruct (rows_of_valid_dataset h Hvalid) as (rs & Hrows & Hlen & Hcells).
  exists rs. split; [unfold handleExport; rewrite Hh, Hrows; reflexivity|].
  split; [|split; [exact Hlen | exact Hcells]].
  unfold csvContent. rewrite header_line_join.
  change (fun r => Some (join "," r)) with (Some ∘ join ",").
  rewrite (list_fmap_compose (join ",") Some rs).
  change (Some header_line :: (Some <$> (join "," <$> rs)))
    with (Some <$> (header_line :: (join "," <$> rs))).
  apply lines_join_newline. constructor; [reflexivity|].
  apply Forall_lookup. intros i l Hl.
  rewrite list_lookup_fmap in Hl.
  destruct (rs !! i) as [r|] eqn:Hr; [|discriminate].
  apply (inj Some) in Hl. subst l.
  assert (Hi : (i < length (temperature h))%nat)
    by (rewrite <- Hlen; eapply lookup_lt_Some; exact Hr).
  destruct (lookup_lt_is_Some_2 _ _ Hi) as [p Hp].
  destruct (Hcells i p Hp) as (iso & Hiso & Hri).
  rewrite Hr in Hri. apply (inj Some) in Hri. subst r.
  apply no_line_feed_export_cells.
  eapply no_line_feed_toISOString. exact Hiso.
Qed.




(** ** Calendar dates as strings *)

Lemma fixed_width_pad (k : nat) (n : Z) (rest : string) (acc : Z) :
  fixed_width k (pad_digits k n +:+ rest) acc
  = Some (acc * 10 ^ Z.of_nat k + n mod 10 ^ Z.of_nat k, rest).
Proof.
  revert acc. induction k as [|k IH]; intros acc.
  - cbn [pad_digits fixed_width String.append]. rewrite Z.mod_1_r.
    do 2 f_equal. change (10 ^ Z.of_nat 0) with 1. lia.
  - rewrite pad_digits_head. cbn [String.append fixed_width].
    rewrite digit_value_char by (apply Z.mod_pos_bound; lia).
    rewrite IH. do 2 f_equal.
    rewrite pow10_succ.
    rewrite (Z.rem_mul_r n (10 ^ Z.of_nat k) 10)
      by (try lia; pose proof (pow10_pos k); lia).
    lia.
Qed.

Lemma iso_year_digit_headed (s : string) :
  digit_headed s -> iso_year s = fixed_width 4 s 0.
Proof. intros (d & r & Hd & ->). digit_cases d; reflexivity. Qed.

Lemma digit_headed_pad_digits (k : nat) (n : Z) (rest : string) :
  digit_headed (pad_digits (S k) n +:+ rest).
Proof.
  rewrite pad_digits_head. cbn [String.append].
  eexists _, _. split; [|reflexivity]. apply Z.mod_pos_bound. lia.
Qed.

Lemma iso_year_roundtrip (y : Z) (rest : string) :
  Z.abs y < 10 ^ 6 ->
  iso_year (iso_year_string y +:+ rest) = Some (y, rest).
Proof.
  intros Hy. unfold iso_year_string.
  destruct (Z.leb_spec 0 y) as [H0|H0]; [destruct (Z.leb_spec y 9999) as [H9|H9]|];
    cbn [andb].
  - rewrite iso_year_digit_headed by apply digit_headed_pad_digits.
    rewrite fixed_width_pad. change (10 ^ Z.of_nat 4) with 10000.
    rewrite Z.mod_small by lia. reflexivity.
  - destruct (Z.ltb_spec y 0); [lia|].
    change (("+" +:+ pad_digits 6 (Z.abs y)) +:+ rest)
      with (String "+" (pad_digits 6 (Z.abs y) +:+ rest)).
    cbn [iso_year]. rewrite fixed_width_pad. change (10 ^ Z.of_nat 6) with (10 ^ 6).
    rewrite Z.mod_small by lia. do 2 f_equal. lia.
  - destruct (Z.ltb_spec y 0); [|lia].
    change (("-" +:+ pad_digits 6 (Z.abs y)) +:+ rest)
      with (String "-" (pad_digits 6 (Z.abs y) +:+ rest)).
    cbn [iso_year]. rewrite fixed_width_pad. change (10 ^ Z.of_nat 6) with (10 ^ 6).
    rewrite Z.mod_small by lia.
    destruct (Z.eqb_spec (0 * 10 ^ 6 + Z.abs y) 0); [lia|].
    do 2 f_equal. lia.
Qed.

Lemma iso_dash_field_roundtrip (lo hi dflt v : Z) (rest : string) :
  lo <= v <= hi -> 0 <= v < 100 ->
  iso_dash_field lo hi dflt ("-" +:+ pad_digits 2 v +:+ rest)
  = Some (v, true, rest).
Proof.
  intros Hb Hv.
  change ("-" +:+ pad_digits 2 v +:+ rest)
    with (String "-" (pad_digits 2 v +:+ rest)).
  cbn [iso_dash_field]. rewrite fixed_width_pad.
  change (10 ^ Z.of_nat 2) with 100. rewrite Z.mod_small by lia.
  replace (0 * 100 + v) with v by lia.
  destruct (Z.leb_spec lo v); [|lia]. destruct (Z.leb_spec v hi); [|lia].
  reflexivity.
Qed.

Lemma Day_bounds (t : Z) :
  Z.abs t <= maxTime ->
  - 100000000 <= Day t <= 100000000
  /\ Z.abs (Day t * msPerDay) <= maxTime.
Proof.
  unfold maxTime, Day, msPerDay. intros H.
  pose proof (Z.div_mod t 86400000 ltac:(lia)).
  pose proof (Z.mod_pos_bound t 86400000 ltac:(lia)). lia.
Qed.

Lemma YearFromTime_bounds (t : Z) :
  Z.abs t <= maxTime -> Z.abs (YearFromTime t) < 10 ^ 6.
Proof.
  intros Ht. destruct (Day_bounds t Ht) as [Hd _].
  pose proof (YearFromTime_spec t) as Hy.
  unfold DayFromYear in Hy. change (10 ^ 6) with 1000000.
  Z.div_mod_to_equations. lia.
Qed.

(** The calendar date written by [toISOString] is read back as the
    midnight of its day, on every host. *)
Lemma Date_parse_iso_date_string (eng : Engine) (t : Z) :
  Z.abs t <= maxTime ->
  Date_parse eng (iso_date_string t) = Some (Day t * msPerDay).
Proof.
  intros Ht.
  pose proof (YearFromTime_bounds t Ht) as Hy.
  pose proof (MonthFromTime_bounds t) as Hm.
  pose proof (DateFromTime_bounds t) as Hd.
  destruct (Day_bounds t Ht) as [_ Hclip].
  unfold Date_parse, parseISO, iso_date_string.
  rewrite iso_year_roundtrip by exact Hy.
  rewrite iso_dash_field_roundtrip by lia.
  rewrite <- (string_app_nil_r (pad_digits 2 (DateFromTime t))).
  rewrite iso_dash_field_roundtrip by lia.
  replace (MonthFromTime t + 1 - 1) with (MonthFromTime t) by lia.
  replace (DateFromTime t) with (DateFromTime t + 0) at 1 by lia.
  rewrite MakeDay_of_fields, Z.add_0_r.
  unfold MakeDate. rewrite Z.add_0_r.
  apply TimeClip_in_range, Hclip.
Qed.

Lemma no_T_app (a b : string) : no_T (a +:+ b) = no_T a && no_T b.
Proof.
  induction a as [|c a IH]; cbn; [reflexivity|].
  rewrite IH. apply andb_assoc.
Qed.

Lemma no_T_pad_digits (k : nat) (n : Z) : no_T (pad_digits k n) = true.
Proof.
  induction k as [|k IH]; [reflexivity|].
  rewrite pad_digits_head. cbn [no_T]. rewrite IH, andb_true_r.
  pose proof (Z.mod_pos_bound (n / 10 ^ Z.of_nat k) 10 ltac:(lia)) as Hd.
  set (d := (n / 10 ^ Z.of_nat k) mod 10) in *.
  digit_cases d; reflexivity.
Qed.

Lemma no_T_iso_date_string (t : Z) : no_T (iso_date_string t) = true.
Proof.
  assert (Hy : no_T (iso_year_string (YearFromTime t)) = true).
  { unfold iso_year_string. destruct (_ && _); [apply no_T_pad_digits|].
    rewrite no_T_app, no_T_pad_digits. destruct (_ <? _); reflexivity. }
  unfold iso_date_string.
  rewrite !no_T_app, Hy, !no_T_pad_digits. reflexivity.
Qed.

Lemma split_T_0_app (a rest : string) :
  no_T a = true -> split_T_0 (a +:+ String "T" rest) = a.
Proof.
  induction a as [|c a IH]; intros Ha; [reflexivity|].
  cbn [no_T] in Ha. apply andb_true_iff in Ha as [Hc Ha].
  cbn [String.append split_T_0]. apply negb_true_iff in Hc. rewrite Hc.
  rewrite IH by exact Ha. reflexivity.
Qed.

(** [d.toISOString().split("T")[0]] is the calendar date of [d]. *)
Lemma split_T_0_toISOString (t : Z) (iso : string) :
  toISOString (Some t) = Some iso -> split_T_0 iso = iso_date_string t.
Proof.
  unfold toISOString. intros H. apply (inj Some) in H. rewrite <- H. clear H iso.
  set (tail := pad_digits 2 (HourFromTime t) +:+ _).
  replace (iso_year_string (YearFromTime t) +:+ "-"
           +:+ pad_digits 2 (MonthFromTime t + 1) +:+ "-"
           +:+ pad_digits 2 (DateFromTime t) +:+ "T" +:+ tail)
    with (iso_date_string t +:+ String "T" tail).
  - apply split_T_0_app, no_T_iso_date_string.
  - unfold iso_date_string. rewrite !string_app_assoc. reflexivity.
Qed.

Lemma iso_date_string_same_day (s e : Z) :
  Z.abs s <= maxTime -> Z.abs e <= maxTime ->
  (iso_date_string s = iso_date_string e <-> Day s = Day e).
Proof.
  intros Hs He. split.
  - intros H.
    pose proof (Date_parse_iso_date_string cst_engine s Hs) as Ps.
    pose proof (Date_parse_iso_date_string cst_engine e He) as Pe.
    rewrite H in Ps. rewrite Ps in Pe. apply (inj Some) in Pe.
    unfold msPerDay in Pe. lia.
  - intros H. unfold iso_date_string, DateFromTime, MonthFromTime,
      DayWithinYear, YearFromTime. rewrite H. reflexivity.
Qed.

(** ** The same-day flag and the dates of the request *)

Lemma submitted_days (eng : Engine) (today : Z) (st : State) (s e : Z) :
  Date_of_string eng (startDate st) = Some s ->
  Date_of_string eng (endDate st) = Some e ->
  Z.abs s <= maxTime /\ Z.abs e <= maxTime
  /\ handleSubmit_begin eng today st
     = let st1 :=
         setIsSameDay (String.eqb (iso_date_string s) (iso_date_string e))
           (setSelectedImage None (setHistoricalData None (setError EmptyString st))) in
       match validate eng (Some s) (Some e) (TimeClip today) with
       | Some msg => Returned (setError msg st1)
       | None => Awaiting st1 (request_url (iso_date_string s) (iso_date_string e))
       end.
Proof.
  intros Hs He.
  destruct (handleSubmit_begin_valid eng today st s e Hs He)
    as (si & ei & Hsi & Hei & ->).
  rewrite (split_T_0_toISOString s si Hsi), (split_T_0_toISOString e ei Hei).
  unfold Date_of_string in Hs, He.
  split; [eapply Date_parse_Some; exact Hs|].
  split; [eapply Date_parse_Some; exact He | reflexivity].
Qed.



(** X10. The two dates a request carries are the calendar dates of the
    validated instants; read back as dates on any host they are the
    midnights of those days, and they satisfy the bounds validation
    checked: not before EARLIEST_DATE, start not after end, end not after
    now. *)
Theorem request_dates_are_validated_days
    (eng : Engine) (today : Z) (st st1 : State) (url : string) (s e : Z) :
  Date_of_string eng (startDate st) = Some s ->
  Date_of_string eng (endDate st) = Some e ->
  Z.abs today <= maxTime ->
  handleSubmit_begin eng today st = Awaiting st1 url ->
  url = request_url (iso_date_string s) (iso_date_string e)
  /\ (forall host,
        Date_parse host (iso_date_string s) = Some (Day s * msPerDay)
        /\ Date_parse host (iso_date_string e) = Some (Day e * msPerDay))
  /\ earliest <= Day s * msPerDay <= Day e * msPerDay
  /\ Day e * msPerDay <= today.
Proof.
  intros Hs He Hnow Hbegin.
  destruct (submitted_days eng today st s e Hs He) as (Bs & Be & H).
  rewrite H in Hbegin. cbv zeta in Hbegin.
  rewrite (TimeClip_in_range _ Hnow), validate_cases in Hbegin.
  destruct (Z.ltb_spec s earliest); [discriminate Hbegin|].
  destruct (Z.ltb_spec today e); [discriminate Hbegin|].
  destruct (Z.ltb_spec e s); [discriminate Hbegin|].
  injection Hbegin as _ <-.
  split; [reflexivity|].
  split; [intros host; split; apply Date_parse_iso_date_string; assumption|].
  unfold Day, msPerDay, earliest in *.
  pose proof (Z.div_mod s 86400000 ltac:(lia)).
  pose proof (Z.mod_pos_bound s 86400000 ltac:(lia)).
  pose proof (Z.div_mod e 86400000 ltac:(lia)).
  pose proof (Z.mod_pos_bound e 86400000 ltac:(lia)).
  assert (s / 86400000 <= e / 86400000) by (apply Z.div_le_mono; lia).
  assert (20042 <= s / 86400000)
    by (apply Z.div_le_lower_bound; lia).
  lia.
Qed.

(** The accepted range 2024-11-16 to 2024-11-20. *)
Lemma request_dates_are_validated_days_witness :
  let st := sample_state "2024-11-16" "2024-11-20" None in
  let url := request_url "2024-11-16" "2024-11-20" in
  Date_of_string cst_engine (startDate st) = Some 1731715200000
  /\ Date_of_string cst_engine (endDate st) = Some 1732060800000
  /\ Z.abs 1732492800000 <= maxTime
  /\ handleSubmit_begin cst_engine 1732492800000 st = Awaiting st url
  /\ url = request_url (iso_date_string 1731715200000)
                       (iso_date_string 1732060800000)
  /\ earliest <= Day 1731715200000 * msPerDay <= Day 1732060800000 * msPerDay
  /\ Day 1732060800000 * msPerDay <= 1732492800000.
Proof.
  intros st url.
  assert (Hs : Date_of_string cst_engine (startDate st) = Some 1731715200000)
    by (vm_compute; reflexivity).
  assert (He : Date_of_string cst_engine (endDate st) = Some 1732060800000)
    by (vm_compute; reflexivity).
  assert (Hn : Z.abs 1732492800000 <= maxTime) by (vm_compute; discriminate).
  assert (Hb : handleSubmit_begin cst_engine 1732492800000 st = Awaiting st url)
    by (vm_compute; reflexivity).
  destruct (request_dates_are_validated_days
              cst_engine 1732492800000 st st url _ _ Hs He Hn Hb)
    as (Hu & _ & Hr & Ht).
  split; [exact Hs|]. split; [exact He|]. split; [exact Hn|].
  split; [exact Hb|]. split; [exact Hu|]. split; [exact Hr | exact Ht].
Defined.

(** ** The initial form values *)

Lemma seven_is_integer : number_of_decimal false 7 0 = number_of_Z 7.
Proof. vm_compute. reflexivity. Qed.

Lemma cst_offset_ms_value : cst_offset_ms = number_of_Z (- 21600000).
Proof. vm_compute. reflexivity. Qed.

Lemma setDate_getDate_minus_7 (eng : Engine) (tv : Z) :
  setDate eng (Some tv)
    (number_sub (getDate eng (Some tv)) (number_of_decimal false 7 0))
  = TimeClip (UTC eng (LocalTime eng tv - 7 * msPerDay)).
Proof.
  cbn [getDate]. set (t := LocalTime eng tv).
  pose proof (DateFromTime_bounds t) as Hd.
  assert (H53 : 2 ^ 53 = 9007199254740992) by reflexivity.
  rewrite seven_is_integer.
  rewrite number_sub_integers by (rewrite H53; lia).
  destruct (truncate_number_of_Z (DateFromTime t - 7)) as [Htr Hfin];
    [rewrite H53; lia|].
  unfold setDate. fold t. rewrite Hfin, Htr.
  replace (DateFromTime t - 7) with (DateFromTime t + - 7) by lia.
  rewrite MakeDay_of_fields. cbv zeta.
  do 2 f_equal.
  pose proof (Day_time_decompose t) as Hdec. unfold MakeDate in *. lia.
Qed.

(** X11. [setDate(getDate() - 7)] moves a date back by exactly seven days
    of local time, across month and year ends: the new instant is the UTC
    instant of the local time minus 7 days.  On a host whose offset from
    UTC never changes this is the instant 7 * 24 hours earlier. *)
Theorem setDate_seven_days_back (eng : Engine) (tv : Z) :
  let weekAgo :=
    setDate eng (Some tv)
      (number_sub (getDate eng (Some tv)) (number_of_decimal false 7 0)) in
  weekAgo = TimeClip (UTC eng (LocalTime eng tv - 7 * msPerDay))
  /\ forall c, (forall t b, LocalTZA eng t b = c) ->
               weekAgo = TimeClip (tv - 7 * msPerDay).
Proof.
  cbv zeta. rewrite setDate_getDate_minus_7. split; [reflexivity|].
  intros c Hc. unfold UTC, LocalTime. rewrite !Hc. f_equal. lia.
Qed.

(** A host in Central Standard Time, 2024-11-25 at 00:00 UTC. *)
Lemma setDate_seven_days_back_witness :
  (forall t b, LocalTZA cst_engine t b = CST_OFFSET * msPerMinute)
  /\ setDate cst_engine (Some 1732492800000)
       (number_sub (getDate cst_engine (Some 1732492800000))
                   (number_of_decimal false 7 0))
     = Some 1731888000000.
Proof.
  assert (Hc : forall t b, LocalTZA cst_engine t b = CST_OFFSET * msPerMinute)
    by reflexivity.
  pose proof (setDate_seven_days_back cst_engine 1732492800000) as W.
  cbv zeta in W. destruct W as [_ W].
  split; [exact Hc|]. rewrite (W _ Hc). vm_compute. reflexivity.
Defined.

Lemma iso_date_of_instant (t : Z) :
  split_T_0 <$> toISOString (Some t) = Some (iso_date_string t).
Proof.
  destruct (toISOString_valid t) as [iso H]. rewrite H. cbn.
  f_equal. apply split_T_0_toISOString, H.
Qed.

Lemma initial_endDate_value (now : Z) :
  Z.abs now <= maxTime -> Z.abs (now - 21600000) <= maxTime ->
  initial_endDate now = Some (iso_date_string (now - 21600000)).
Proof.
  intros Hn Hc.
  assert (H53 : 2 ^ 53 = 9007199254740992) by reflexivity.
  assert (HM : maxTime = 8640000000000000) by reflexivity.
  unfold initial_endDate. cbv zeta.
  rewrite (TimeClip_in_range _ Hn). cbn [getTime].
  rewrite cst_offset_ms_value.
  rewrite number_add_integers by (rewrite H53; lia).
  rewrite Date_of_number_of_Z by (rewrite H53; lia).
  replace (now + - 21600000) with (now - 21600000) by lia.
  rewrite (TimeClip_in_range _ Hc). apply iso_date_of_instant.
Qed.

Lemma initial_startDate_value (eng : Engine) (now : Z) :
  let weekAgo := UTC eng (LocalTime eng now - 7 * msPerDay) in
  Z.abs now <= maxTime -> Z.abs weekAgo <= maxTime ->
  Z.abs (weekAgo - 21600000) <= maxTime ->
  initial_startDate eng now
  = Some (iso_date_string (Z.max earliest (weekAgo - 21600000))).
Proof.
  intros weekAgo Hn Hw Hc.
  assert (H53 : 2 ^ 53 = 9007199254740992) by reflexivity.
  assert (HM : maxTime = 8640000000000000) by reflexivity.
  assert (He : earliest = 1731628800000) by reflexivity.
  unfold initial_startDate. cbv zeta.
  rewrite (TimeClip_in_range _ Hn).
  rewrite setDate_getDate_minus_7. fold weekAgo.
  rewrite (TimeClip_in_range _ Hw). cbn [getTime].
  rewrite cst_offset_ms_value.
  rewrite number_add_integers by (rewrite H53; lia).
  rewrite Date_of_number_of_Z by (rewrite H53; lia).
  replace (weekAgo + - 21600000) with (weekAgo - 21600000) by lia.
  rewrite (TimeClip_in_range _ Hc), EARLIEST_DATE_value. cbn [getTime].
  rewrite Math_max_integers by (rewrite H53; lia).
  rewrite Date_of_number_of_Z by (rewrite H53; lia).
  rewrite TimeClip_in_range by lia.
  apply iso_date_of_instant.
Qed.

Lemma week_ago_bounds (eng : Engine) (now : Z) :
  bounded_offsets eng ->
  let weekAgo := UTC eng (LocalTime eng now - 7 * msPerDay) in
  now - 9 * msPerDay <= weekAgo <= now - 5 * msPerDay.
Proof.
  intros Hb. cbv zeta. unfold UTC, LocalTime.
  pose proof (Hb now true).
  pose proof (Hb (now + LocalTZA eng now true - 7 * msPerDay) false).
  unfold msPerDay in *. lia.
Qed.

Lemma earliest_le_start_day (x : Z) :
  earliest <= Day (Z.max earliest x) * msPerDay.
Proof.
  assert (He : earliest = 1731628800000) by reflexivity.
  assert (HD : msPerDay = 86400000) by reflexivity.
  unfold Day. rewrite HD, He.
  set (y := Z.max 1731628800000 x).
  assert (20042 <= y / 86400000) by (apply Z.div_le_lower_bound; lia).
  lia.
Qed.

(** X12. The dates the form starts with: the end date is the calendar
    date of now in UTC-6; the start date is the calendar date, in UTC-6, of
    the instant seven local days before now, but never a date before
    EARLIEST_DATE. *)
Theorem initial_dates (eng : Engine) (now : Z) :
  bounded_offsets eng ->
  0 <= now -> now + 10 * msPerDay <= maxTime ->
  let weekAgo := UTC eng (LocalTime eng now - 7 * msPerDay) in
  initial_endDate now = Some (iso_date_string (now - 21600000))
  /\ initial_startDate eng now
     = Some (iso_date_string (Z.max earliest (weekAgo - 21600000)))
  /\ earliest <= Day (Z.max earliest (weekAgo - 21600000)) * msPerDay.
Proof.
  intros Hb H0 Hmax weekAgo.
  pose proof (week_ago_bounds eng now Hb) as Hw. cbv zeta in Hw. fold weekAgo in Hw.
  assert (He : earliest = 1731628800000) by reflexivity.
  assert (HD : msPerDay = 86400000) by reflexivity.
  assert (HM : maxTime = 8640000000000000) by reflexivity.
  split; [apply initial_endDate_value; lia|].
  split; [apply initial_startDate_value; fold weekAgo; lia|].
  apply earliest_le_start_day.
Qed.

Lemma bounded_offsets_cst : bounded_offsets cst_engine.
Proof.
  intros t b. change (Z.abs (CST_OFFSET * msPerMinute) <= msPerDay).
  vm_compute. discriminate.
Qed.

(** The page opened on 2024-11-25 at 00:00 UTC on a host in Central
    Standard Time. *)
Lemma initial_dates_witness :
  bounded_offsets cst_engine
  /\ 0 <= 1732492800000
  /\ 1732492800000 + 10 * msPerDay <= maxTime
  /\ initial_endDate 1732492800000 = Some "2024-11-24"
  /\ initial_startDate cst_engine 1732492800000 = Some "2024-11-17".
Proof.
  assert (H0 : 0 <= 1732492800000) by (vm_compute; discriminate).
  assert (H1 : 1732492800000 + 10 * msPerDay <= maxTime)
    by (vm_compute; discriminate).
  destruct (initial_dates cst_engine 1732492800000 bounded_offsets_cst H0 H1)
    as (He & Hs & _).
  split; [exact bounded_offsets_cst|]. split; [exact H0|]. split; [exact H1|].
  split.
  - rewrite He. vm_compute. reflexivity.
  - rewrite Hs. vm_compute. reflexivity.
Defined.

(** X13. The form as it first appears passes validation: once the clock
    has reached EARLIEST_DATE in UTC-6, submitting the initial dates at any
    later moment is not rejected but issues the request for the initial
    range. *)
Theorem initial_form_passes_validation (eng : Engine) (now today : Z) :
  bounded_offsets eng ->
  earliest + 21600000 <= now -> now <= today ->
  today + 10 * msPerDay <= maxTime ->
  exists st0 st1 url,
    initial_state eng now = Some st0
    /\ handleSubmit_begin eng today st0 = Awaiting st1 url
    /\ url = request_url (startDate st0) (endDate st0).
Proof.
  intros Hb Hearly Hlater Hmax.
  pose proof (week_ago_bounds eng now Hb) as Hw. cbv zeta in Hw.
  set (weekAgo := UTC eng (LocalTime eng now - 7 * msPerDay)) in *.
  assert (He : earliest = 1731628800000) by reflexivity.
  assert (HD : msPerDay = 86400000) by reflexivity.
  assert (HM : maxTime = 8640000000000000) by reflexivity.
  assert (Hend : initial_endDate now = Some (iso_date_string (now - 21600000)))
    by (apply initial_endDate_value; lia).
  assert (Hstart : initial_startDate eng now
                   = Some (iso_date_string (Z.max earliest (weekAgo - 21600000))))
    by (apply initial_startDate_value; fold weekAgo; lia).
  pose proof (earliest_le_start_day (weekAgo - 21600000)) as Hlow.
  set (start := Z.max earliest (weekAgo - 21600000)) in *.
  set (st0 := {| startDate := iso_date_string start;
                 endDate := iso_date_string (now - 21600000);
                 error := EmptyString; isSameDay := false;
                 selectedImage := None; imageUrls := [];
                 historicalData := None |}).
  assert (Hinit : initial_state eng now = Some st0).
  { unfold initial_state. rewrite Hstart, Hend. reflexivity. }
  assert (Ps : Date_of_string eng (startDate st0) = Some (Day start * msPerDay)).
  { apply Date_parse_iso_date_string. unfold start. lia. }
  assert (Pe : Date_of_string eng (endDate st0)
               = Some (Day (now - 21600000) * msPerDay)).
  { apply Date_parse_iso_date_string. lia. }
  destruct (handleSubmit_begin_valid eng today st0 _ _ Ps Pe)
    as (si & ei & Hsi & Hei & Hbegin).
  rewrite (TimeClip_in_range today ltac:(lia)), validate_cases in Hbegin.
  assert (Hle : Day start <= Day (now - 21600000)).
  { unfold Day. rewrite HD. apply Z.div_le_mono; unfold start; lia. }
  assert (Hnow : Day (now - 21600000) * msPerDay <= now - 21600000).
  { unfold Day. rewrite HD.
    pose proof (Z.div_mod (now - 21600000) 86400000 ltac:(lia)).
    pose proof (Z.mod_pos_bound (now - 21600000) 86400000 ltac:(lia)). lia. }
  cbv zeta in Hbegin.
  destruct (Z.ltb_spec (Day start * msPerDay) earliest); [lia|].
  destruct (Z.ltb_spec today (Day (now - 21600000) * msPerDay)); [lia|].
  destruct (Z.ltb_spec (Day (now - 21600000) * msPerDay) (Day start * msPerDay));
    [rewrite HD in *; lia|].
  eexists st0, _, _. split; [exact Hinit|]. split; [exact Hbegin|].
  rewrite (split_T_0_toISOString _ si Hsi), (split_T_0_toISOString _ ei Hei).
  pose proof (Day_bounds start ltac:(unfold start; lia)) as [_ B1].
  pose proof (Day_bounds (now - 21600000) ltac:(lia)) as [_ B2].
  f_equal.
  - apply iso_date_string_same_day; try assumption; [unfold start; lia|].
    unfold Day. rewrite HD. rewrite Z.div_mul by lia. reflexivity.
  - apply iso_date_string_same_day; try assumption; [lia|].
    unfold Day. rewrite HD. rewrite Z.div_mul by lia. reflexivity.
Qed.

(** The page opened, and submitted at once, on 2024-11-25 at 00:00 UTC. *)
Lemma initial_form_passes_validation_witness :
  bounded_offsets cst_engine
  /\ earliest + 21600000 <= 1732492800000
  /\ 1732492800000 <= 1732492800000
  /\ 1732492800000 + 10 * msPerDay <= maxTime
  /\ exists st0 st1 url,
       initial_state cst_engine 1732492800000 = Some st0
       /\ handleSubmit_begin cst_engine 1732492800000 st0 = Awaiting st1 url
       /\ url = request_url (startDate st0) (endDate st0).
Proof.
  assert (H0 : earliest + 21600000 <= 1732492800000)
    by (vm_compute; discriminate).
  assert (H1 : 1732492800000 <= 1732492800000) by (vm_compute; discriminate).
  assert (H2 : 1732492800000 + 10 * msPerDay <= maxTime)
    by (vm_compute; discriminate).
  split; [exact bounded_offsets_cst|]. split; [exact H0|]. split; [exact H1|].
  split; [exact H2|].
  exact (initial_form_passes_validation
           cst_engine 1732492800000 1732492800000 bounded_offsets_cst H0 H1 H2).
Defined.

Lemma iso_date_string_of_midnight (t : Z) :
  iso_date_string (Day t * msPerDay) = iso_date_string t.
Proof.
  unfold iso_date_string, DateFromTime, MonthFromTime, DayWithinYear, YearFromTime.
  assert (H : Day (Day t * msPerDay) = Day t)
    by (unfold Day, msPerDay; apply Z.div_mul; lia).
  rewrite H. reflexivity.
Qed.

(** X14. Dates in the form of a calendar date, as the date picker and
    the initial state give them, reach the request unchanged: the
    request carries the two form strings themselves, and the same-day flag
    tells whether the two strings are equal. *)
Theorem calendar_dates_are_sent_unchanged
    (eng : Engine) (today : Z) (st st1 : State) (url : string) (a b : Z) :
  Z.abs a <= maxTime -> Z.abs b <= maxTime ->
  startDate st = iso_date_string a ->
  endDate st = iso_date_string b ->
  handleSubmit_begin eng today st = Awaiting st1 url ->
  url = request_url (startDate st) (endDate st)
  /\ (isSameDay st1 = true <-> startDate st = endDate st).
Proof.
  intros Ha Hb Hsa Hsb Hbegin.
  assert (Ps : Date_of_string eng (startDate st) = Some (Day a * msPerDay))
    by (rewrite Hsa; apply Date_parse_iso_date_string, Ha).
  assert (Pe : Date_of_string eng (endDate st) = Some (Day b * msPerDay))
    by (rewrite Hsb; apply Date_parse_iso_date_string, Hb).
  destruct (submitted_days eng today st _ _ Ps Pe) as (_ & _ & H).
  rewrite H in Hbegin. cbv zeta in Hbegin.
  rewrite !iso_date_string_of_midnight, <- Hsa, <- Hsb in Hbegin.
  destruct (validate _ _ _ _); [discriminate Hbegin|].
  injection Hbegin as <- <-. split; [reflexivity|].
  cbn [isSameDay setIsSameDay]. apply String.eqb_eq.
Qed.

(** The accepted range 2024-11-16 to 2024-11-20. *)
Lemma calendar_dates_are_sent_unchanged_witness :
  let st := sample_state "2024-11-16" "2024-11-20" None in
  let url := request_url "2024-11-16" "2024-11-20" in
  Z.abs 1731715200000 <= maxTime
  /\ Z.abs 1732060800000 <= maxTime
  /\ startDate st = iso_date_string 1731715200000
  /\ endDate st = iso_date_string 1732060800000
  /\ handleSubmit_begin cst_engine 1732492800000 st = Awaiting st url
  /\ url = request_url (startDate st) (endDate st)
  /\ (isSameDay st = true <-> startDate st = endDate st).
Proof.
  intros st url.
  assert (Ha : Z.abs 1731715200000 <= maxTime) by (vm_compute; discriminate).
  assert (Hb : Z.abs 1732060800000 <= maxTime) by (vm_compute; discriminate).
  assert (Hsa : startDate st = iso_date_string 1731715200000)
    by (vm_compute; reflexivity).
  assert (Hsb : endDate st = iso_date_string 1732060800000)
    by (vm_compute; reflexivity).
  assert (Hbg : handleSubmit_begin cst_engine 1732492800000 st = Awaiting st url)
    by (vm_compute; reflexivity).
  destruct (calendar_dates_are_sent_unchanged
              cst_engine 1732492800000 st st url _ _ Ha Hb Hsa Hsb Hbg)
    as (Hu & Hd).
  split; [exact Ha|]. split; [exact Hb|]. split; [exact Hsa|].
  split; [exact Hsb|]. split; [exact Hbg|]. split; [exact Hu | exact Hd].
Defined.

(** ** A response that arrives late *)

(** X15. The arrival of data never touches the error message, the
    same-day flag or the selected image.  So when a request is overtaken
    by a submission that is rejected, the overtaken response is still
    applied: its charts appear under the error banner of the rejected
    submission, with the tick format of that submission. *)
Theorem late_response_is_applied_under_newer_error
    (eng : Engine) (today : Z) (st_b st_r : State)
    (d : LiveData) (data : list LiveData) :
  handleSubmit_begin eng today st_b = Returned st_r ->
  let st' := handleSubmit_resume eng (Resolved (d :: data)) st_r in
  historicalData st' = Some (transformedData eng (d :: data))
  /\ error st' = error st_r
  /\ isSameDay st' = isSameDay st_r
  /\ selectedImage st' = selectedImage st_r
  /\ showError (render st') = true
  /\ showCharts (render st') = true.
Proof.
  intros Hbegin st'. subst st'.
  assert (Herr : String.eqb (error st_r) EmptyString = false).
  { pose proof (handleSubmit_begin_cases eng today st_b) as H. cbv zeta in H.
    destruct (Date_of_string eng (startDate st_b)) as [s|];
      [destruct (Date_of_string eng (endDate st_b)) as [e|]|];
      try (rewrite H in Hbegin; discriminate Hbegin).
    destruct H as (si & ei & _ & _ & H). rewrite H in Hbegin. cbv zeta in Hbegin.
    destruct (validate _ _ _ _) as [msg|] eqn:Hv; [|discriminate Hbegin].
    injection Hbegin as <-. cbn [error setError].
    eapply validate_message_nonempty, Hv. }
  unfold handleSubmit_resume. cbn [length Nat.eqb].
  repeat split. unfold render. cbn. rewrite Herr. reflexivity.
Qed.

(** A range that starts too early is rejected while the response of an
    earlier request, one reading, is still on its way. *)
Lemma late_response_is_applied_under_newer_error_witness :
  let d := sample_reading "2024-11-20T10:00:00.000Z"
             (number_of_decimal false 126582 (-3)) None in
  let st_b := sample_state "2024-11-01" "2024-11-20" None in
  let st_r := setError "Start date cannot be earlier than Thu Nov 14 2024" st_b in
  let st' := handleSubmit_resume cst_engine (Resolved [d]) st_r in
  handleSubmit_begin cst_engine 1732492800000 st_b = Returned st_r
  /\ historicalData st' = Some (transformedData cst_engine [d])
  /\ error st' = "Start date cannot be earlier than Thu Nov 14 2024"
  /\ showError (render st') = true
  /\ showCharts (render st') = true.
Proof.
  intros d st_b st_r st'.
  assert (Hb : handleSubmit_begin cst_engine 1732492800000 st_b = Returned st_r)
    by (vm_compute; reflexivity).
  destruct (late_response_is_applied_under_newer_error
              cst_engine 1732492800000 st_b st_r d [] Hb)
    as (Hh & He & _ & _ & Hs & Hc).
  split; [exact Hb|]. split; [exact Hh|]. split; [exact He|].
  split; [exact Hs | exact Hc].
Defined.

(** ** Viewing images *)

Lemma view_run_snoc (st : State) (evs : list ViewEvent) (ev : ViewEvent) :
  view_run st (evs ++ [ev]) = view_step (view_run st evs) ev.
Proof. unfold view_run. rewrite fold_left_app. reflexivity. Qed.

(** Every pending preload was started by a click on a point that has a
    non-empty image reference. *)
Lemma pending_were_clicked (st : State) (evs : list ViewEvent) :
  Forall (fun p => In (Click p) evs /\ truthy (image_url p) = true)
         (pending (view_run st evs)).
Proof.
  induction evs as [|ev evs IH] using rev_ind; [constructor|].
  rewrite view_run_snoc.
  assert (IH' : Forall (fun p => In (Click p) (evs ++ [ev])
                                 /\ truthy (image_url p) = true)
                       (pending (view_run st evs))).
  { eapply Forall_impl; [exact IH|]. intros p [Hin Ht].
    split; [apply in_or_app; left; exact Hin | exact Ht]. }
  destruct ev as [p|i|i|]; cbn [view_step].
  - unfold handleDataPointClick.
    destruct (truthy (image_url p)) eqn:Ht.
    + destruct (image_url p) eqn:Hu; [|discriminate Ht].
      cbn [pending]. apply Forall_app. split; [exact IH'|].
      constructor; [|constructor].
      split; [apply in_or_app; right; left; reflexivity|].
      rewrite Hu. exact Ht.
    + exact IH'.
  - destruct (pending (view_run st evs) !! i); [|exact IH'].
    cbn [pending]. apply Forall_delete, IH'.
  - destruct (pending (view_run st evs) !! i); [|exact IH'].
    cbn [pending]. apply Forall_delete, IH'.
  - exact IH'.
Qed.

(** X16. Viewing images never touches the data: whatever points are
    clicked, whatever preloads finish or fail and however often the modal
    is closed, the dataset, the timelapse images, the same-day flag and the
    form dates stay as they were.  An error banner never goes away that
    way, only the message of a failed load can replace the message shown;
    and the image in the modal, unless it is the one shown before, is the
    non-empty image reference of a point that was clicked. *)
Theorem viewing_images_keeps_data_and_banner
    (st : State) (evs : list ViewEvent) :
  let st' := page_state (view_run st evs) in
  historicalData st' = historicalData st
  /\ imageUrls st' = imageUrls st
  /\ isSameDay st' = isSameDay st
  /\ startDate st' = startDate st
  /\ endDate st' = endDate st
  /\ (error st' = error st
      \/ error st' = "Failed to load the selected image.")
  /\ (if showError (render st) then showError (render st') = true else True)
  /\ (selectedImage st' = None
      \/ selectedImage st' = selectedImage st
      \/ exists p, In (Click p) evs
                   /\ truthy (image_url p) = true
                   /\ selectedImage st' = image_url p).
Proof.
  cbv zeta.
  assert (Hmain :
    historicalData (page_state (view_run st evs)) = historicalData st
    /\ imageUrls (page_state (view_run st evs)) = imageUrls st
    /\ isSameDay (page_state (view_run st evs)) = isSameDay st
    /\ startDate (page_state (view_run st evs)) = startDate st
    /\ endDate (page_state (view_run st evs)) = endDate st
    /\ (error (page_state (view_run st evs)) = error st
        \/ error (page_state (view_run st evs))
           = "Failed to load the selected image.")
    /\ (selectedImage (page_state (view_run st evs)) = None
        \/ selectedImage (page_state (view_run st evs)) = selectedImage st
        \/ exists p, In (Click p) evs
                     /\ truthy (image_url p) = true
                     /\ selectedImage (page_state (view_run st evs))
                        = image_url p)).
  { induction evs as [|ev evs IH] using rev_ind.
    - cbn. repeat split; auto.
    - pose proof (pending_were_clicked st evs) as Hp.
      rewrite view_run_snoc.
      destruct IH as (H1 & H2 & H3 & H4 & H5 & H6 & H7).
      assert (H7' :
        selectedImage (page_state (view_run st evs)) = None
        \/ selectedImage (page_state (view_run st evs)) = selectedImage st
        \/ exists p, In (Click p) (evs ++ [ev])
                     /\ truthy (image_url p) = true
                     /\ selectedImage (page_state (view_run st evs))
                        = image_url p).
      { destruct H7 as [H7|[H7|(p & Hin & Ht & H7)]]; auto.
        right; right. exists p. split; [apply in_or_app; left; exact Hin|].
        split; assumption. }
      destruct ev as [p|i|i|]; cbn [view_step].
      + unfold handleDataPointClick.
        destruct (truthy (image_url p)); cbn [page_state].
        * repeat split; assumption.
        * repeat split; try assumption. left. reflexivity.
      + destruct (pending (view_run st evs) !! i) as [p|] eqn:Hi;
          [|repeat split; assumption].
        cbn [page_state]. unfold img_onload.
        repeat split; try assumption.
        pose proof (Forall_lookup_1 _ _ _ _ Hp Hi) as [Hin Ht].
        right; right. exists p.
        split; [apply in_or_app; left; exact Hin|]. split; [exact Ht|].
        cbn [selectedImage setSelectedImage]. unfold or_null. rewrite Ht.
        reflexivity.
      + destruct (pending (view_run st evs) !! i) as [p|] eqn:Hi;
          [|repeat split; assumption].
        cbn [page_state]. unfold img_onerror.
        repeat split; try assumption. right. reflexivity.
      + cbn [page_state]. unfold modal_onClose.
        repeat split; try assumption. left. reflexivity. }
  destruct Hmain as (H1 & H2 & H3 & H4 & H5 & H6 & H7).
  repeat split; try assumption.
  unfold render. cbn [showError].
  destruct (String.eqb (error st) EmptyString) eqn:He; cbn [negb]; [exact I|].
  destruct H6 as [H6|H6]; rewrite H6; [rewrite He|]; reflexivity.
Qed.

(* ================================================================== *)
(** * 7. Runs of the page *)
(* ================================================================== *)

(** Submissions overlap: the handler waits for its request while other
    events are handled, and its second part then runs in the state the
    page has reached by then.  The properties below are stated over
    runs, so they hold however the events interleave. *)

Lemma run_snoc (eng : Engine) (s : Session) (evs : list Event) (ev : Event) :
  run eng s (evs ++ [ev]) = step eng (run eng s evs) ev.
Proof. unfold run. rewrite fold_left_app. reflexivity. Qed.

Lemma run_app (eng : Engine) (s : Session) (evs1 evs2 : list Event) :
  run eng s (evs1 ++ evs2) = run eng (run eng s evs1) evs2.
Proof. unfold run. apply fold_left_app. Qed.

(** A whole submission with nothing in between is the run of its two
    events. *)
Lemma handleSubmit_as_run (eng : Engine) (today : Z) (response : Response)
    (s : Session) :
  current (run eng s [Submit today; Settle (length (requests s)) response])
  = handleSubmit eng today (fun _ => response) (current s).
Proof.
  unfold run, handleSubmit. cbn [fold_left step].
  destruct (handleSubmit_begin eng today (current s)) as [st'|st'|st' url].
  - cbn [step requests with_state].
    rewrite lookup_ge_None_2 by reflexivity. reflexivity.
  - cbn [step requests with_state].
    rewrite lookup_ge_None_2 by reflexivity. reflexivity.
  - cbn [step requests with_state].
    rewrite lookup_app_r by reflexivity. rewrite Nat.sub_diag. reflexivity.
Qed.

(** Export sets no state where its button is rendered. *)
Lemma handleExport_with_button (st : State) :
  showExportButton (render st) = true ->
  forall st', handleExport st <> ExportRefused st'.
Proof.
  unfold render, handleExport. cbn [showExportButton]. intros H st'.
  destruct (historicalData st) as [h|].
  - destruct (rows h); discriminate.
  - apply bool_decide_eq_true in H. destruct H as [h H]. discriminate H.
Qed.

Lemma handleSubmit_begin_keeps (eng : Engine) (today : Z) (st : State) :
  match handleSubmit_begin eng today st with
  | Threw st' | Returned st' | Awaiting st' _ =>
      imageUrls st' = imageUrls st
      /\ startDate st' = startDate st /\ endDate st' = endDate st
  end.
Proof.
  unfold handleSubmit_begin.
  destruct (toISOString _); [destruct (toISOString _)|]; try (repeat split; fail).
  destruct (validate _ _ _ _); repeat split.
Qed.

Lemma view_step_keeps (pg : Page) (ev : ViewEvent) :
  historicalData (page_state (view_step pg ev)) = historicalData (page_state pg)
  /\ imageUrls (page_state (view_step pg ev)) = imageUrls (page_state pg).
Proof.
  destruct ev as [p|i|i|]; cbn [view_step].
  - unfold handleDataPointClick. destruct (truthy (image_url p)); split; reflexivity.
  - destruct (pending pg !! i); split; reflexivity.
  - destruct (pending pg !! i); split; reflexivity.
  - split; reflexivity.
Qed.

(** Where the dataset of the next state comes from. *)
Lemma step_dataset (eng : Engine) (s : Session) (ev : Event) :
  (brings_data ev = false
   /\ (historicalData (current (step eng s ev)) = None
       \/ historicalData (current (step eng s ev)) = historicalData (current s)))
  \/ exists i d data,
       ev = Settle i (Resolved (d :: data))
       /\ match requests s !! i with
          | Some _ =>
              historicalData (current (step eng s ev))
              = Some (transformedData eng (d :: data))
              /\ imageUrls (current (step eng s ev)) = images (d :: data)
          | None => step eng s ev = s
          end.
Proof.
  destruct ev as [today|i response|v|v|ev].
  - left. split; [reflexivity|]. left. cbn [step].
    pose proof (handleSubmit_begin_resets eng today (current s)) as H.
    destruct (handleSubmit_begin eng today (current s)); cbn; tauto.
  - destruct response as [|[|d data]].
    + left. split; [reflexivity|]. right. cbn [step].
      destruct (requests s !! i); reflexivity.
    + left. split; [reflexivity|]. right. cbn [step].
      destruct (requests s !! i); reflexivity.
    + right. exists i, d, data. split; [reflexivity|]. cbn [step].
      destruct (requests s !! i); [split|]; reflexivity.
  - left. split; [reflexivity|]. right. reflexivity.
  - left. split; [reflexivity|]. right. reflexivity.
  - left. split; [reflexivity|]. right.
    apply (view_step_keeps (session_page s) ev).
Qed.

Lemma step_images (eng : Engine) (s : Session) (ev : Event) :
  brings_data ev = false ->
  imageUrls (current (step eng s ev)) = imageUrls (current s).
Proof.
  destruct ev as [today|i response|v|v|ev]; intros Hev.
  - cbn [step].
    pose proof (handleSubmit_begin_keeps eng today (current s)) as H.
    destruct (handleSubmit_begin eng today (current s)); cbn; tauto.
  - destruct response as [|[|d data]]; [| |discriminate Hev];
      cbn [step]; destruct (requests s !! i); reflexivity.
  - reflexivity.
  - reflexivity.
  - apply (view_step_keeps (session_page s) ev).
Qed.

Lemma step_keeps_dataset (eng : Engine) (s : Session) (ev : Event) :
  brings_data ev = false -> is_submit ev = false ->
  historicalData (current (step eng s ev)) = historicalData (current s).
Proof.
  destruct ev as [today|i response|v|v|ev]; intros Hev Hsub.
  - discriminate Hsub.
  - destruct response as [|[|d data]]; [| |discriminate Hev];
      cbn [step]; destruct (requests s !! i); reflexivity.
  - reflexivity.
  - reflexivity.
  - apply (view_step_keeps (session_page s) ev).
Qed.

Lemma step_submit_clears (eng : Engine) (s : Session) (today : Z) :
  historicalData (current (step eng s (Submit today))) = None
  /\ selectedImage (current (step eng s (Submit today))) = None.
Proof.
  cbn [step].
  pose proof (handleSubmit_begin_resets eng today (current s)) as H.
  destruct (handleSubmit_begin eng today (current s)); cbn; tauto.
Qed.

(** Without the arrival of data the image list stays, and the dataset
    stays or is cleared: cleared when the form was submitted. *)
Lemma run_without_data (eng : Engine) (s : Session) (evs : list Event) :
  Forall (fun ev => brings_data ev = false) evs ->
  imageUrls (current (run eng s evs)) = imageUrls (current s)
  /\ (if existsb is_submit evs
      then historicalData (current (run eng s evs)) = None
      else historicalData (current (run eng s evs)) = historicalData (current s))
  /\ (historicalData (current s) = None ->
      historicalData (current (run eng s evs)) = None).
Proof.
  induction evs as [|ev evs IH] using rev_ind; intros Hall.
  - repeat split. intros H; exact H.
  - apply Forall_app in Hall as [Hall Hev]. apply Forall_cons in Hev as [Hev _].
    destruct (IH Hall) as (IH1 & IH2 & IH3). rewrite run_snoc.
    split; [rewrite step_images by exact Hev; exact IH1|].
    rewrite existsb_app. cbn [existsb]. rewrite orb_false_r.
    destruct (is_submit ev) eqn:Es.
    + destruct ev; try discriminate Es.
      rewrite orb_true_r.
      split; [|intros _]; apply step_submit_clears.
    + rewrite orb_false_r, (step_keeps_dataset eng _ ev Hev Es).
      split; [exact IH2 | exact IH3].
Qed.

(** ** Empty reading lists *)

(** What a run stores is made from a reading list that is not empty. *)
Lemma run_dataset_origin (eng : Engine) (s : Session) (evs : list Event) :
  historicalData (current (run eng s evs)) = None
  \/ historicalData (current (run eng s evs)) = historicalData (current s)
  \/ exists d data,
       historicalData (current (run eng s evs))
       = Some (transformedData eng (d :: data)).
Proof.
  induction evs as [|ev evs IH] using rev_ind; [right; left; reflexivity|].
  rewrite run_snoc.
  destruct (step_dataset eng (run eng s evs) ev)
    as [[_ [Hd|Hd]]|(i & d & data & -> & Hd)].
  - left. exact Hd.
  - rewrite Hd. exact IH.
  - destruct (requests (run eng s evs) !! i).
    + right; right. exists d, data. apply Hd.
    + rewrite Hd. exact IH.
Qed.

Lemma lines_header_line : lines header_line = [header_line].
Proof. vm_compute. reflexivity. Qed.

(** The document exported from a dataset made of at least one reading has
    at least two lines. *)
Lemma export_of_readings (eng : Engine) (st : State) (d : LiveData)
    (data : list LiveData) :
  historicalData st = Some (transformedData eng (d :: data)) ->
  match handleExport st with
  | ExportRefused _ => False
  | ExportThrew => True
  | Exported _ content =>
      content <> header_line /\ (2 <= length (lines content))%nat
  end.
Proof.
  intros Hh. set (h := transformedData eng (d :: data)) in *.
  destruct (rows h) as [rs|] eqn:Hrows.
  - assert (Hv : Forall valid_time (temperature h)).
    { apply Forall_forall. intros p Hp. unfold valid_time.
      destruct (Date_of_number (time p)) eqn:E; [eauto|]. exfalso.
      assert (rows h = None) by (apply rows_None_iff, Exists_exists; eauto).
      congruence. }
    destruct (export_content st h Hh Hv) as (rs' & Hx & Hlines & Hlen & _).
    rewrite Hx.
    assert (Hl : (2 <= length (lines (csvContent rs')))%nat).
    { rewrite Hlines. cbn [length]. rewrite length_fmap, Hlen.
      unfold h, transformedData. cbn [temperature fmap list_fmap length]. lia. }
    split; [|exact Hl].
    intros Heq. rewrite Heq, lines_header_line in Hl. cbn in Hl. lia.
  - unfold handleExport. rewrite Hh, Hrows. exact I.
Qed.

(** C7. Transforming an empty reading list yields twelve empty channels,
    and no run of the page gets to export them.  From the mount on,
    whatever happens, the dataset held is absent or made from at least one
    reading; export is refused with "No data available to export" when
    it is absent and never produces the header line alone.  The arrival
    of an empty reading list stores nothing; and when a submission is
    answered by the empty list, no reading list having arrived since it
    started, no dataset is held and export is refused. *)
Theorem empty_response_leaves_no_dataset
    (eng : Engine) (start end_ : string) (evs : list Event)
    (s : Session) (i : nat) (today : Z) :
  let reached := current (run eng (mount start end_) evs) in
  Forall (fun c => c = []) (channels (transformedData eng []))
  /\ (historicalData reached = None
      \/ exists d data,
           historicalData reached = Some (transformedData eng (d :: data)))
  /\ match handleExport reached with
     | ExportRefused st' =>
         historicalData reached = None
         /\ st' = setError "No data available to export" reached
     | ExportThrew => is_Some (historicalData reached)
     | Exported _ content =>
         content <> header_line /\ (2 <= length (lines content))%nat
     end
  /\ historicalData (current (step eng s (Settle i (Resolved []))))
     = historicalData (current s)
  /\ (forall evs',
        Forall (fun ev => brings_data ev = false) evs' ->
        let answered :=
          current (run eng s (Submit today :: evs' ++ [Settle i (Resolved [])])) in
        historicalData answered = None
        /\ handleExport answered
           = ExportRefused (setError "No data available to export" answered)).
Proof.
  intros reached.
  assert (Horigin : historicalData reached = None
                    \/ exists d data,
                         historicalData reached
                         = Some (transformedData eng (d :: data))).
  { destruct (run_dataset_origin eng (mount start end_) evs) as [H|[H|H]];
      [left; exact H | left; exact H | right; exact H]. }
  split; [repeat constructor|]. split; [exact Horigin|].
  split; [|split].
  - destruct Horigin as [H|(d & data & H)].
    + rewrite (handleExport_absent _ H). split; [exact H | reflexivity].
    + pose proof (export_of_readings eng reached d data H) as Hx.
      destruct (handleExport reached); [destruct Hx | rewrite H; eauto | exact Hx].
  - cbn [step]. destruct (requests s !! i); reflexivity.
  - intros evs' Hall answered.
    assert (Hnone : historicalData answered = None).
    { unfold answered.
      change (Submit today :: evs' ++ [Settle i (Resolved [])])
        with ([Submit today] ++ evs' ++ [Settle i (Resolved [])]).
      rewrite run_app. apply run_without_data.
      - apply Forall_app. split; [exact Hall | repeat constructor].
      - apply step_submit_clears. }
    split; [exact Hnone | apply handleExport_absent, Hnone].
Qed.

(** A dataset is held; the form is submitted again, the modal is closed,
    and the answer is the empty list. *)
Lemma empty_response_leaves_no_dataset_witness :
  let d := sample_reading "2024-11-20T10:00:00.000Z"
             (number_of_decimal false 126582 (-3)) None in
  let s := run cst_engine (mount "2024-11-16" "2024-11-20")
             [Submit 1732492800000; Settle 0 (Resolved [d])] in
  let evs' := [Viewing CloseModal] in
  let answered :=
    current (run cst_engine s
               (Submit 1732492800000 :: evs' ++ [Settle 0 (Resolved [])])) in
  Forall (fun ev => brings_data ev = false) evs'
  /\ historicalData (current s) = Some (transformedData cst_engine [d])
  /\ error answered = "No data found for the selected date range."
  /\ historicalData answered = None
  /\ handleExport answered
     = ExportRefused (setError "No data available to export" answered).
Proof.
  intros d s evs' answered.
  assert (Hall : Forall (fun ev => brings_data ev = false) evs')
    by (repeat constructor).
  destruct (empty_response_leaves_no_dataset cst_engine EmptyString EmptyString
              [] s 0 1732492800000) as (_ & _ & _ & _ & H).
  destruct (H evs' Hall) as [Hn Hx].
  split; [exact Hall|]. split; [vm_compute; reflexivity|].
  split; [vm_compute; reflexivity|]. split; [exact Hn | exact Hx].
Defined.

(** ** Failed submissions *)

(** C10, as the code has it.  A submission clears the error message, the
    dataset and the selected image before it validates or fetches, and
    its outcome does not depend on what they held.  From then on, and as
    long as no reading list arrives, no dataset is present and export is
    refused with "No data available to export": so after a submission
    that fails validation, or whose request fails, when no other request
    was answered with data in the meantime, whatever was held before.
    The failure of a request sets the message only: it leaves the dataset
    as it finds it. *)
Theorem failed_submission_leaves_no_dataset
    (eng : Engine) (s : Session) (today : Z) (evs : list Event) :
  Forall (fun ev => brings_data ev = false) evs ->
  let st := current s in
  let reached := current (run eng (step eng s (Submit today)) evs) in
  handleSubmit_begin eng today st
  = handleSubmit_begin eng today
      (setSelectedImage None (setHistoricalData None (setError EmptyString st)))
  /\ match handleSubmit_begin eng today st with
     | Threw st' | Awaiting st' _ =>
         error st' = EmptyString /\ historicalData st' = None
         /\ selectedImage st' = None
     | Returned st' => historicalData st' = None /\ selectedImage st' = None
     end
  /\ historicalData reached = None
  /\ handleExport reached
     = ExportRefused (setError "No data available to export" reached)
  /\ (forall s' i,
        historicalData (current (step eng s' (Settle i Rejected)))
        = historicalData (current s')).
Proof.
  intros Hall st reached.
  assert (Hnone : historicalData reached = None).
  { apply run_without_data; [exact Hall|]. apply step_submit_clears. }
  split; [reflexivity|].
  split; [apply handleSubmit_begin_resets|].
  split; [exact Hnone|].
  split; [apply handleExport_absent, Hnone|].
  intros s' i. cbn [step]. destruct (requests s' !! i); reflexivity.
Qed.

(** A dataset is held; the form is submitted again and the request
    fails. *)
Lemma failed_submission_leaves_no_dataset_witness :
  let d := sample_reading "2024-11-20T10:00:00.000Z"
             (number_of_decimal false 126582 (-3)) None in
  let s := run cst_engine (mount "2024-11-16" "2024-11-20")
             [Submit 1732492800000; Settle 0 (Resolved [d])] in
  let evs := [Settle 0 Rejected] in
  let reached := current (run cst_engine (step cst_engine s (Submit 1732492800000)) evs) in
  Forall (fun ev => brings_data ev = false) evs
  /\ historicalData (current s) = Some (transformedData cst_engine [d])
  /\ error reached = "Failed to fetch historical data"
  /\ historicalData reached = None
  /\ handleExport reached
     = ExportRefused (setError "No data available to export" reached).
Proof.
  intros d s evs reached.
  assert (Hall : Forall (fun ev => brings_data ev = false) evs)
    by (repeat constructor).
  destruct (failed_submission_leaves_no_dataset cst_engine s 1732492800000 evs Hall)
    as (_ & _ & Hn & Hx & _).
  split; [exact Hall|]. split; [vm_compute; reflexivity|].
  split; [vm_compute; reflexivity|]. split; [exact Hn | exact Hx].
Defined.

(** C10, counterexample.  Two submissions overlap: the answer to the
    first arrives with a reading while the second is waiting, and then
    the request of the second fails.  The second submission has failed,
    yet the dataset of the first is present and export is not refused. *)
Lemma failed_request_keeps_late_dataset :
  let d := sample_reading "2024-11-20T10:00:00.000Z"
             (number_of_decimal false 126582 (-3)) None in
  let reached :=
    current (run cst_engine (mount "2024-11-16" "2024-11-20")
               [Submit 1732492800000; Submit 1732492800000;
                Settle 0 (Resolved [d]); Settle 0 Rejected]) in
  error reached = "Failed to fetch historical data"
  /\ historicalData reached = Some (transformedData cst_engine [d])
  /\ (exists content,
        handleExport reached
        = Exported "weather_data_2024-11-16_to_2024-11-20.csv" content)
  /\ (forall st', handleExport reached <> ExportRefused st').
Proof.
  intros d reached.
  split; [vm_compute; reflexivity|]. split; [vm_compute; reflexivity|].
  split; [eexists; vm_compute; reflexivity|].
  intros st'. vm_compute. discriminate.
Qed.

(** ** The timelapse images *)

(** X5. The timelapse images change only when a reading list that is not
    empty arrives.  Over any run without such an arrival (submissions that throw, are
    rejected, fail or get no data, date changes, image viewing) the image
    list is the one held before, while the dataset is gone as soon as the
    form was submitted: the timelapse of an earlier dataset stays on
    screen without its charts.  The arrival of a reading list for a
    request in flight replaces both. *)
Theorem timelapse_changes_only_on_success
    (eng : Engine) (s : Session) (evs : list Event)
    (i : nat) (d : LiveData) (data : list LiveData) :
  Forall (fun ev => brings_data ev = false) evs ->
  let reached := current (run eng s evs) in
  let arrived := step eng s (Settle i (Resolved (d :: data))) in
  imageUrls reached = imageUrls (current s)
  /\ (if existsb is_submit evs then historicalData reached = None
      else historicalData reached = historicalData (current s))
  /\ match requests s !! i with
     | Some _ =>
         imageUrls (current arrived) = images (d :: data)
         /\ historicalData (current arrived)
            = Some (transformedData eng (d :: data))
     | None => arrived = s
     end.
Proof.
  intros Hall reached arrived.
  destruct (run_without_data eng s evs Hall) as (H1 & H2 & _).
  split; [exact H1|]. split; [exact H2|].
  unfold arrived. cbn [step].
  destruct (requests s !! i); [split|]; reflexivity.
Qed.

(** A dataset with an image is held; the form is submitted again and the
    request fails. *)
Lemma timelapse_changes_only_on_success_witness :
  let d := sample_reading "2024-11-20T10:00:00.000Z"
             (number_of_decimal false 126582 (-3)) (Some "a.png") in
  let s := run cst_engine (mount "2024-11-16" "2024-11-20")
             [Submit 1732492800000; Settle 0 (Resolved [d])] in
  let evs := [Submit 1732492800000; Settle 0 Rejected] in
  let reached := current (run cst_engine s evs) in
  Forall (fun ev => brings_data ev = false) evs
  /\ imageUrls (current s) = ["a.png"]
  /\ imageUrls reached = ["a.png"]
  /\ historicalData reached = None.
Proof.
  intros d s evs reached.
  assert (Hall : Forall (fun ev => brings_data ev = false) evs)
    by (repeat constructor).
  destruct (timelapse_changes_only_on_success cst_engine s evs 0 d [] Hall)
    as (Hi & Hd & _).
  split; [exact Hall|]. split; [vm_compute; reflexivity|].
  split; [|exact Hd].
  etransitivity; [exact Hi|]. vm_compute. reflexivity.
Defined.

(** ** The banner and the charts *)

Lemma undisturbing_step (eng : Engine) (s : Session) (ev : Event) :
  undisturbing ev = true ->
  error (current (step eng s ev)) = error (current s)
  /\ historicalData (current (step eng s ev)) = historicalData (current s)
  /\ (selectedImage (current (step eng s ev)) = None
      \/ selectedImage (current (step eng s ev)) = selectedImage (current s))
  /\ requests (step eng s ev) = requests s.
Proof.
  destruct ev as [today|i response|v|v|[p|i|i|]]; try discriminate; intros _.
  - repeat split. right. reflexivity.
  - repeat split. right. reflexivity.
  - cbn [step view_step]. unfold current, handleDataPointClick.
    destruct (truthy (image_url p)); cbn; auto.
  - cbn. auto.
Qed.

Lemma undisturbing_run (eng : Engine) (s : Session) (evs : list Event) :
  Forall (fun ev => undisturbing ev = true) evs ->
  error (current (run eng s evs)) = error (current s)
  /\ historicalData (current (run eng s evs)) = historicalData (current s)
  /\ (selectedImage (current s) = None ->
      selectedImage (current (run eng s evs)) = None)
  /\ requests (run eng s evs) = requests s.
Proof.
  induction evs as [|ev evs IH] using rev_ind; intros Hall.
  - repeat split. intros H; exact H.
  - apply Forall_app in Hall as [Hall Hev]. apply Forall_cons in Hev as [Hev _].
    destruct (IH Hall) as (IH1 & IH2 & IH3 & IH4). rewrite run_snoc.
    destruct (undisturbing_step eng (run eng s evs) ev Hev) as (H1 & H2 & H3 & H4).
    rewrite H1, H2, H4. repeat split; try assumption.
    intros H0. destruct H3 as [H3|H3]; [exact H3 | rewrite H3; exact (IH3 H0)].
Qed.

Lemma handleSubmit_begin_error (eng : Engine) (today : Z) (st : State) :
  match handleSubmit_begin eng today st with
  | Threw st' | Awaiting st' _ => String.eqb (error st') EmptyString = true
  | Returned st' => String.eqb (error st') EmptyString = false
  end.
Proof.
  unfold handleSubmit_begin.
  destruct (toISOString _); [destruct (toISOString _)|]; try reflexivity.
  destruct (validate _ _ _ _) eqn:Hv; [|reflexivity].
  cbn [error setError]. eapply validate_message_nonempty, Hv.
Qed.

(** What is shown when an answer is handled in a state without message,
    dataset and selected image. *)
Lemma resume_view (eng : Engine) (response : Response) (st : State) :
  String.eqb (error st) EmptyString = true ->
  historicalData st = None ->
  selectedImage st = None ->
  let v' := render (handleSubmit_resume eng response st) in
  showError v' = negb (showCharts v')
  /\ showExportButton v' = showCharts v'
  /\ modalOpen v' = false.
Proof.
  intros He Hd Hs. unfold render, handleSubmit_resume.
  destruct response as [|[|d data]]; cbn; rewrite ?He, ?Hd, ?Hs; repeat split.
Qed.

(** X4. From a submission on, while nothing happens but clicks on points,
    closings of the modal and changes of the form dates, no charts and no
    modal are shown, and the error banner is shown exactly when validation
    rejected the dates.  When the request has been sent and, after such
    events only, a request in flight is answered, the error banner and the
    charts exclude each other, the export button shows with the charts,
    and the modal is closed. *)
Theorem error_banner_or_charts
    (eng : Engine) (s : Session) (today : Z) (evs : list Event)
    (i : nat) (response : Response) :
  Forall (fun ev => undisturbing ev = true) evs ->
  let waiting := run eng (step eng s (Submit today)) evs in
  let answered := step eng waiting (Settle i response) in
  let v := render (current waiting) in
  let v' := render (current answered) in
  showCharts v = false /\ showExportButton v = false /\ modalOpen v = false
  /\ match handleSubmit_begin eng today (current s) with
     | Threw _ => showError v = false
     | Returned _ => showError v = true
     | Awaiting _ url =>
         showError v = false
         /\ requests waiting = requests s ++ [url]
         /\ match requests waiting !! i with
            | Some _ =>
                showError v' = negb (showCharts v')
                /\ showExportButton v' = showCharts v'
                /\ modalOpen v' = false
            | None => answered = waiting
            end
     end.
Proof.
  intros Hall waiting answered v v'.
  destruct (undisturbing_run eng (step eng s (Submit today)) evs Hall)
    as (He & Hd & Hs & Hr).
  destruct (step_submit_clears eng s today) as [Hd0 Hs0].
  fold waiting in He, Hd, Hs, Hr.
  rewrite Hd0 in Hd. specialize (Hs Hs0).
  assert (Hcharts : showCharts v = false).
  { unfold v, render. cbn [showCharts]. rewrite Hd. reflexivity. }
  assert (Hmodal : modalOpen v = false).
  { unfold v, render. cbn [modalOpen]. rewrite Hs. reflexivity. }
  split; [exact Hcharts|]. split; [exact Hcharts|]. split; [exact Hmodal|].
  assert (Hbanner : showError v
                    = negb (String.eqb (error (current (step eng s (Submit today))))
                                       EmptyString)).
  { unfold v, render. cbn [showError]. rewrite He. reflexivity. }
  pose proof (handleSubmit_begin_error eng today (current s)) as Herr.
  cbn [step] in Hbanner, Hr.
  destruct (handleSubmit_begin eng today (current s)) as [st'|st'|st' url].
  - rewrite Hbanner. cbn. rewrite Herr. reflexivity.
  - rewrite Hbanner. cbn. rewrite Herr. reflexivity.
  - assert (Hfalse : showError v = false)
      by (rewrite Hbanner; cbn; rewrite Herr; reflexivity).
    split; [exact Hfalse|]. split; [exact Hr|].
    unfold v', answered. cbn [step].
    destruct (requests waiting !! i); [|reflexivity].
    assert (Herr' : String.eqb (error (current waiting)) EmptyString = true).
    { unfold v, render in Hfalse. cbn [showError] in Hfalse.
      destruct (String.eqb (error (current waiting)) EmptyString);
        [reflexivity | discriminate Hfalse]. }
    exact (resume_view eng response (current waiting) Herr' Hd Hs).
Qed.

(** An accepted range; the start date is edited while the request is in
    flight; then the answer arrives with one reading. *)
Lemma error_banner_or_charts_witness :
  let d := sample_reading "2024-11-20T10:00:00.000Z"
             (number_of_decimal false 126582 (-3)) None in
  let s := mount "2024-11-16" "2024-11-20" in
  let evs := [ChangeStartDate "2024-11-17"; Viewing CloseModal] in
  let waiting := run cst_engine (step cst_engine s (Submit 1732492800000)) evs in
  let answered := step cst_engine waiting (Settle 0 (Resolved [d])) in
  Forall (fun ev => undisturbing ev = true) evs
  /\ showCharts (render (current waiting)) = false
  /\ showError (render (current answered)) = false
  /\ showCharts (render (current answered)) = true.
Proof.
  intros d s evs waiting answered.
  assert (Hall : Forall (fun ev => undisturbing ev = true) evs)
    by (repeat constructor).
  destruct (error_banner_or_charts cst_engine s 1732492800000 evs 0
              (Resolved [d]) Hall) as (Hc & _ & _ & _).
  split; [exact Hall|]. split; [exact Hc|].
  split; vm_compute; reflexivity.
Defined.
